(** * Zenfolio: a journal of stock trades and self-assessment scores

    A shallow embedding of the repository's pure scoring and classification
    functions ([score_calculator.py], [action_detector.py]), of its SQLite
    ledger ([database.py]) and of the Streamlit handlers that drive the
    ledger ([app.py]), followed by the properties the specification states
    about them.

    Conventions of the embedding:
    - a Python [float] is an IEEE 754 binary64 number, Rocq's primitive
      [float]; arithmetic and comparisons are the hardware ones;
    - a Python [int] is a [Z];
    - a Python [str] is a [string], the bytes of its UTF-8 encoding;
    - [Optional[T]] and a nullable SQL column are [option T];
    - a call that may raise returns an [outcome];
    - a table is the list of its rows in rowid order. *)

From Stdlib Require Import ZArith List String Ascii Bool Lia.
From Stdlib Require Import Floats.
From Stdlib Require Import Sorted Permutation.
Import ListNotations.

Set Warnings "-inexact-float".

Local Open Scope string_scope.
Local Open Scope Z_scope.

(* ================================================================== *)
(** * Python values: exceptions, numbers, dictionaries                  *)
(* ================================================================== *)

Module Py.

(** The exceptions the modelled code can meet. *)
Inductive exn : Type :=
| ValueError
| OverflowError
| ZeroDivisionError
| IndexError
| KeyError (key : string)
| IntegrityError (column : string).

(** What a call produces: a value, or a raised exception. *)
Inductive outcome (A : Type) : Type :=
| Returns (a : A)
| Raises (e : exn).

Arguments Returns {A} a.
Arguments Raises {A} e.

Definition bind {A B : Type} (c : outcome A) (k : A -> outcome B) : outcome B :=
  match c with
  | Returns a => k a
  | Raises e => Raises e
  end.

(** [try: ... except Exception: return default]. *)
Definition try_except {A : Type} (c : outcome A) (default : A) : A :=
  match c with
  | Returns a => a
  | Raises _ => default
  end.

(** [int(x)] on a float: truncation toward zero; [ValueError] on a NaN,
    [OverflowError] on an infinity. *)
Definition int (x : float) : outcome Z :=
  match Prim2SF x with
  | S754_zero _ => Returns 0
  | S754_finite s m e =>
      let a := Z.shiftl (Zpos m) e in
      Returns (if s then - a else a)
  | S754_nan => Raises ValueError
  | S754_infinity _ => Raises OverflowError
  end.

(** The float an [int] operand is converted to in mixed arithmetic
    (exact for the magnitudes below 2^53 that occur here). *)
Definition float_of_int (z : Z) : float :=
  if z <? 0 then PrimFloat.opp (PrimFloat.of_uint63 (Uint63.of_Z (- z)))
  else PrimFloat.of_uint63 (Uint63.of_Z z).

(** [x / y] on floats: Python raises on a zero divisor. *)
Definition truediv (x y : float) : outcome float :=
  if PrimFloat.eqb y 0%float then Raises ZeroDivisionError
  else Returns (x / y)%float.

(** [d.get(key)] on a dictionary kept as an association list. *)
Fixpoint get {V : Type} (d : list (string * V)) (key : string) : option V :=
  match d with
  | [] => None
  | (k, v) :: rest => if String.eqb k key then Some v else get rest key
  end.

(** [s == literal] where [s] may be [None]. *)
Definition eq_str (s : option string) (literal : string) : bool :=
  match s with
  | Some s' => String.eqb s' literal
  | None => false
  end.

End Py.

Import Py.

Notation "x <- c ;; k" := (Py.bind c (fun x => k))
  (at level 61, c at next level, right associativity).

(* ================================================================== *)
(** * models.py                                                         *)
(* ================================================================== *)

(** The four behavioural categories. *)
Definition PROFIT_TAKEN : string := "涨了舍得卖".
Definition DIP_BOUGHT : string := "跌了敢买".
Definition RALLY_BOUGHT : string := "涨了敢买".
Definition LOSS_CUT : string := "跌了舍得卖".

(** [ACTION_TYPES], each category with its ["max_score"] (the description
    and question texts are display only). *)
Definition ACTION_TYPES : list (string * Z) :=
  [ (PROFIT_TAKEN, 30); (DIP_BOUGHT, 30); (RALLY_BOUGHT, 20); (LOSS_CUT, 20) ].

(* ================================================================== *)
(** * score_calculator.py                                               *)
(* ================================================================== *)

(** [calculate_objective_score(action_type, buy_price, sell_price,
    buy_date, sell_date)].  The two dates are accepted and never read. *)
Definition calculate_objective_score
    (action_type : string) (buy_price sell_price : float)
    (buy_date : string) (sell_date : option string) : outcome Z :=
  if (buy_price <=? 0)%float then Returns 0
  else
    q <- truediv (sell_price - buy_price)%float buy_price ;;
    let profit_rate := (q * 100)%float in
    let max_score :=
      match Py.get ACTION_TYPES action_type with
      | Some m => m
      | None => 20
      end in
    score <-
      (if String.eqb action_type PROFIT_TAKEN then
         if (5 <=? profit_rate)%float then Returns max_score
         else if (0 <=? profit_rate)%float then
           Py.int (float_of_int max_score * (profit_rate / 5))%float
         else Returns 0
       else if String.eqb action_type DIP_BOUGHT then
         if (10 <=? profit_rate)%float then Returns max_score
         else if (0 <=? profit_rate)%float then
           Py.int (float_of_int max_score * (profit_rate / 10))%float
         else Returns 0
       else if String.eqb action_type RALLY_BOUGHT then
         if (8 <=? profit_rate)%float then Returns max_score
         else if (0 <=? profit_rate)%float then
           Py.int (float_of_int max_score * (profit_rate / 8))%float
         else Returns 0
       else if String.eqb action_type LOSS_CUT then
         if (0 <=? profit_rate)%float then Returns max_score
         else if (profit_rate <=? -5)%float then Returns max_score
         else Py.int (float_of_int max_score * (1 + profit_rate / 5))%float
       else Returns 0) ;;
    Returns (Z.max 0 (Z.min 100 score)).

(* ================================================================== *)
(** * The objective score as the specification words it                 *)
(* ================================================================== *)

Module Spec.

(** Integer truncation: a finite float stands for [n * 2^e] with an
    integer [n]; its truncation is the integer part of that number, cut
    toward zero.  An infinity and a NaN have none. *)
Definition truncation (x : float) : option Z :=
  match Prim2SF x with
  | S754_zero _ => Some 0
  | S754_finite s m e =>
      let n := if s then Z.neg m else Z.pos m in
      Some (if 0 <=? e then n * 2 ^ e else Z.quot n (2 ^ (- e)))
  | S754_infinity _ => None
  | S754_nan => None
  end.

(** A category that rewards a profit: the full score from [cap] percent
    on, the linear share [full * (rate / cap)] of it, truncated, from 0
    percent up to [cap], and 0 below 0 percent. *)
Definition rewarded (full : Z) (full_score cap rate : float) : option Z :=
  if (cap <=? rate)%float then Some full
  else if (0 <=? rate)%float then truncation (full_score * (rate / cap))%float
  else if (rate <? 0)%float then Some 0
  else None.

(** Loss-cut: 20 for any profit, 20 for a loss of 5 percent or more, and
    the linear [20 * (1 + rate / 5)], truncated, between the two. *)
Definition loss_cut (rate : float) : option Z :=
  if (0 <=? rate)%float then Some 20
  else if (rate <=? -5)%float then Some 20
  else if ((-5 <? rate) && (rate <? 0))%float
  then truncation (20 * (1 + rate / 5))%float
  else None.

(** [score_objective(category, buyPrice, sellPrice)] for a buy price above
    zero: the piecewise-linear map of the profit rate in percent, by
    category, clamped to 0..100.  The arithmetic is the binary64 one. *)
Definition score_objective (category : string) (buyPrice sellPrice : float)
  : option Z :=
  let profitRatePct := ((sellPrice - buyPrice) / buyPrice * 100)%float in
  option_map (fun score => Z.max 0 (Z.min 100 score))
    (if String.eqb category PROFIT_TAKEN then rewarded 30 30 5 profitRatePct
     else if String.eqb category DIP_BOUGHT then rewarded 30 30 10 profitRatePct
     else if String.eqb category RALLY_BOUGHT then rewarded 20 20 8 profitRatePct
     else if String.eqb category LOSS_CUT then loss_cut profitRatePct
     else Some 0).

End Spec.

(* ================================================================== *)
(** * action_detector.py: the sell side                                 *)
(* ================================================================== *)

(** [detect_sell_action_type(buy_price, sell_price, buy_date, sell_date)]. *)
Definition detect_sell_action_type
    (buy_price sell_price : float)
    (buy_date : string) (sell_date : option string) : outcome (option string) :=
  if ((buy_price <=? 0) || (sell_price <=? 0))%float then Returns None
  else
    profit_rate <- truediv (sell_price - buy_price)%float buy_price ;;
    if (0.01 <? profit_rate)%float then Returns (Some PROFIT_TAKEN)
    else if (profit_rate <? -0.01)%float then Returns (Some LOSS_CUT)
    else if (buy_price <? sell_price)%float then Returns (Some PROFIT_TAKEN)
    else Returns (Some LOSS_CUT).

(* ================================================================== *)
(** * datetime: the calendar arithmetic of the standard library         *)
(* ================================================================== *)

Module Datetime.

(** A date is its proleptic Gregorian ordinal ([date.toordinal()]):
    day 1 is 0001-01-01 and day [MAXORDINAL] is 9999-12-31. *)
Definition MAXORDINAL : Z := 3652059.

Definition is_leap (year : Z) : bool :=
  (year mod 4 =? 0) && (negb (year mod 100 =? 0) || (year mod 400 =? 0)).

Definition DAYS_IN_MONTH (month : Z) : Z :=
  nth (Z.to_nat month) [0; 31; 28; 31; 30; 31; 30; 31; 31; 30; 31; 30; 31] 0.

Definition DAYS_BEFORE_MONTH (month : Z) : Z :=
  nth (Z.to_nat month)
      [0; 0; 31; 59; 90; 120; 151; 181; 212; 243; 273; 304; 334] 0.

Definition days_in_month (year month : Z) : Z :=
  if (month =? 2) && is_leap year then 29 else DAYS_IN_MONTH month.

Definition days_before_year (year : Z) : Z :=
  let y := year - 1 in y * 365 + y / 4 - y / 100 + y / 400.

Definition days_before_month (year month : Z) : Z :=
  DAYS_BEFORE_MONTH month + (if (2 <? month) && is_leap year then 1 else 0).

Definition ymd2ord (year month day : Z) : Z :=
  days_before_year year + days_before_month year month + day.

Definition ord2ymd (ordinal : Z) : Z * Z * Z :=
  let n := ordinal - 1 in
  let n400 := n / 146097 in
  let n := n mod 146097 in
  let n100 := n / 36524 in
  let n := n mod 36524 in
  let n4 := n / 1461 in
  let n := n mod 1461 in
  let n1 := n / 365 in
  let n := n mod 365 in
  let year := n400 * 400 + 1 + n100 * 100 + n4 * 4 + n1 in
  if (n1 =? 4) || (n100 =? 4) then (year - 1, 12, 31)
  else
    let leapyear := (n1 =? 3) && (negb (n4 =? 24) || (n100 =? 3)) in
    let month := Z.shiftr (n + 50) 5 in
    let preceding :=
      DAYS_BEFORE_MONTH month + (if (2 <? month) && leapyear then 1 else 0) in
    if n <? preceding then
      let month := month - 1 in
      let preceding :=
        preceding
        - (DAYS_IN_MONTH month + (if (month =? 2) && leapyear then 1 else 0)) in
      (year, month, n - preceding + 1)
    else (year, month, n - preceding + 1).

(** A byte of a text, as a number. *)
Definition byte (c : ascii) : Z := Z.of_N (N_of_ascii c).

(** The six low bits of a continuation byte of UTF-8. *)
Definition continuation (c : ascii) : option Z :=
  let n := byte c in
  if (128 <=? n) && (n <? 192) then Some (n - 128) else None.

(** The first character of a text (its code point) and the rest. *)
Definition next_char (s : string) : option (Z * string) :=
  match s with
  | EmptyString => None
  | String c0 r0 =>
      let n := byte c0 in
      if n <? 128 then Some (n, r0)
      else
        match r0 with
        | EmptyString => None
        | String c1 r1 =>
            match continuation c1 with
            | None => None
            | Some x1 =>
                if (192 <=? n) && (n <? 224) then Some ((n - 192) * 64 + x1, r1)
                else
                  match r1 with
                  | EmptyString => None
                  | String c2 r2 =>
                      match continuation c2 with
                      | None => None
                      | Some x2 =>
                          if (224 <=? n) && (n <? 240)
                          then Some (((n - 224) * 64 + x1) * 64 + x2, r2)
                          else
                            match r2 with
                            | EmptyString => None
                            | String c3 r3 =>
                                match continuation c3 with
                                | None => None
                                | Some x3 =>
                                    if (240 <=? n) && (n <? 248)
                                    then
                                      Some ((((n - 240) * 64 + x1) * 64 + x2)
                                            * 64 + x3, r3)
                                    else None
                                end
                            end
                      end
                  end
            end
        end
  end.

(** The decimal digits of Unicode 14.0 (the database of Python 3.11) come
    in 66 runs of ten, each from its zero to its nine; these are the code
    points of the zeros. *)
Definition DECIMAL_ZEROS : list Z :=
  [ 48; 1632; 1776; 1984; 2406; 2534; 2662; 2790; 2918; 3046; 3174; 3302;
    3430; 3558; 3664; 3792; 3872; 4160; 4240; 6112; 6160; 6470; 6608; 6784;
    6800; 6992; 7088; 7232; 7248; 42528; 43216; 43264; 43472; 43504; 43600;
    44016; 65296; 66720; 68912; 69734; 69872; 69942; 70096; 70384; 70736;
    70864; 71248; 71360; 71472; 71904; 72016; 72784; 73040; 73120; 92768;
    92864; 93008; 120782; 120792; 120802; 120812; 120822; 123200; 123632;
    125264; 130032 ].

(** The value of a character that is a decimal digit ([str.isdecimal],
    what [\d] matches and [int] reads). *)
Definition decimal (code_point : Z) : option Z :=
  match find (fun zero => (zero <=? code_point) && (code_point <? zero + 10))
             DECIMAL_ZEROS with
  | Some zero => Some (code_point - zero)
  | None => None
  end.

(** A piece of the pattern of [strptime]: every way it matches at the
    start of a text, the preferred one first, each with the number read
    and the text left over. *)
Definition Pattern : Type := string -> list (Z * string).

(** [\d] *)
Definition any_digit : Pattern :=
  fun s =>
    match next_char s with
    | Some (code_point, rest) =>
        match decimal code_point with
        | Some v => [(v, rest)]
        | None => []
        end
    | None => []
    end.

(** [[lo-hi]] for two ASCII digits. *)
Definition digit_in (lo hi : Z) : Pattern :=
  fun s =>
    match s with
    | String c rest =>
        let v := byte c - 48 in
        if (lo <=? v) && (v <=? hi) then [(v, rest)] else []
    | EmptyString => []
    end.

(** One given character, read as the number given for it. *)
Definition char (c : ascii) (v : Z) : Pattern :=
  fun s =>
    match s with
    | String c' rest => if Ascii.eqb c' c then [(v, rest)] else []
    | EmptyString => []
    end.

(** Two pieces in a row: the number read is [10 * a + b]. *)
Definition two (p q : Pattern) : Pattern :=
  fun s =>
    flat_map (fun '(a, rest) => map (fun '(b, rest') => (10 * a + b, rest')) (q rest))
             (p s).

(** [p|q|...]: the alternatives in the order they are written. *)
Definition alternatives (ps : list Pattern) : Pattern :=
  fun s => flat_map (fun p => p s) ps.

(** [%Y]: [\d\d\d\d] *)
Definition year_pattern : Pattern :=
  two (two (two any_digit any_digit) any_digit) any_digit.

(** [%m]: [1[0-2]|0[1-9]|[1-9]] *)
Definition month_pattern : Pattern :=
  alternatives
    [ two (digit_in 1 1) (digit_in 0 2); two (digit_in 0 0) (digit_in 1 9);
      digit_in 1 9 ].

(** [%d]: [3[0-1]|[1-2]\d|0[1-9]|[1-9]| [1-9]] *)
Definition day_pattern : Pattern :=
  alternatives
    [ two (digit_in 3 3) (digit_in 0 1); two (digit_in 1 2) any_digit;
      two (digit_in 0 0) (digit_in 1 9); digit_in 1 9;
      two (char " " 0) (digit_in 1 9) ].

(** The pattern of ["%Y-%m-%d"]: every way it matches at the start of the
    text; the first is the match [re.match] returns. *)
Definition matches (s : string) : list (Z * Z * Z * string) :=
  flat_map
    (fun '(year, s1) =>
       flat_map
         (fun '(_, s2) =>
            flat_map
              (fun '(month, s3) =>
                 flat_map
                   (fun '(_, s4) =>
                      map (fun '(day, rest) => (year, month, day, rest))
                        (day_pattern s4))
                   (char "-" 0 s3))
              (month_pattern s2))
         (char "-" 0 s1))
    (year_pattern s).

(** [datetime.strptime(s, "%Y-%m-%d")] as a date: [ValueError] when the
    pattern does not match, when text is left over after the match, and
    when the numbers read are no day of the calendar. *)
Definition strptime (s : string) : outcome Z :=
  match matches s with
  | (year, month, day, EmptyString) :: _ =>
      if (1 <=? year) && (day <=? days_in_month year month)
      then Returns (ymd2ord year month day)
      else Raises ValueError
  | _ => Raises ValueError
  end.

(** [dt + timedelta(days=n)]: [OverflowError] outside the calendar. *)
Definition add_days (dt n : Z) : outcome Z :=
  let r := dt + n in
  if (1 <=? r) && (r <=? MAXORDINAL) then Returns r else Raises OverflowError.

Definition digit_char (d : Z) : ascii := ascii_of_N (Z.to_N (48 + d mod 10)).

Definition two_digits (n : Z) : string :=
  String (digit_char (n / 10)) (String (digit_char n) EmptyString).

(** [%Y] as the C library of Linux prints it: the year in as many digits
    as it has, a year before 1000 without leading zeros. *)
Definition year_digits (n : Z) : string :=
  if n <? 10 then String (digit_char n) EmptyString
  else if n <? 100 then two_digits n
  else if n <? 1000 then String (digit_char (n / 100)) (two_digits n)
  else String (digit_char (n / 1000))
         (String (digit_char (n / 100)) (two_digits n)).

(** [dt.strftime("%Y-%m-%d")]. *)
Definition strftime (dt : Z) : string :=
  let '(year, month, day) := ord2ymd dt in
  year_digits year ++ "-" ++ two_digits month ++ "-" ++ two_digits day.

End Datetime.

(* ================================================================== *)
(** * tushare_client.py and pandas: what the buy classification reads   *)
(* ================================================================== *)

(** One daily observation of the price provider.  Only the trading day
    (as an ordinal) and the close are read by the classification. *)
Record daily_bar : Type := {
  trade_date : Z;
  close : float
}.

(** A data frame of daily observations, sorted by [trade_date]. *)
Definition DataFrame : Type := list daily_bar.

(** The two methods of [TushareClient] the classification calls.
    [get_stock_daily] catches every failure of the provider itself and
    answers [None]. *)
Record TushareClient : Type := {
  is_configured : bool;
  get_stock_daily : string -> string -> string -> option DataFrame
}.

Module Pandas.

(** [df.empty]. *)
Definition empty {A : Type} (df : list A) : bool :=
  match df with
  | [] => true
  | _ :: _ => false
  end.

(** [df.head(n)]: the first [n] rows, or all but the last [-n] rows. *)
Definition head {A : Type} (n : Z) (df : list A) : list A :=
  if 0 <=? n then firstn (Z.to_nat n) df
  else firstn (List.length df - Z.to_nat (- n))%nat df.

(** The running sum of a loop [res += a[i]]. *)
Definition add_all (res : float) (a : list float) : float :=
  fold_left PrimFloat.add a res.

(** [r[j] += a[j]] for the lanes of a group. *)
Fixpoint add_lanes (r a : list float) : list float :=
  match r, a with
  | x :: r', y :: a' => (x + y)%float :: add_lanes r' a'
  | _, _ => r
  end.

(** The unrolled loop over [groups] groups of eight: the eight partial
    sums, and the values left over. *)
Fixpoint unrolled (groups : nat) (r a : list float) : list float * list float :=
  match groups with
  | O => (r, a)
  | S groups' => unrolled groups' (add_lanes r (firstn 8 a)) (skipn 8 a)
  end.

(** The sum of 8 to 128 values: eight partial sums, each over every eighth
    value, added in pairs; then the values after the last full group of
    eight, from the left. *)
Definition block_sum (a : list float) : float :=
  let '(r, rest) :=
    unrolled (List.length a / 8 - 1) (firstn 8 a) (skipn 8 a) in
  match r with
  | [r0; r1; r2; r3; r4; r5; r6; r7] =>
      add_all (((r0 + r1) + (r2 + r3)) + ((r4 + r5) + (r6 + r7)))%float rest
  | _ => add_all 0%float a
  end.

(** [np.add.reduce] over float64, numpy's pairwise summation: fewer than 8
    values are added from the left, up to 128 by [block_sum], and more
    than 128 are cut in two halves (the first a multiple of 8 long) that
    are summed the same way and added.  [depth] bounds the halvings; the
    length of the values is always enough. *)
Fixpoint pairwise_sum (depth : nat) (a : list float) : float :=
  let n := List.length a in
  if (n <? 8)%nat then add_all 0%float a
  else if (n <=? 128)%nat then block_sum a
  else
    match depth with
    | O => add_all 0%float a
    | S depth' =>
        let n2 := (n / 2 - (n / 2) mod 8)%nat in
        (pairwise_sum depth' (firstn n2 a) + pairwise_sum depth' (skipn n2 a))%float
    end.

(** [series.mean()] ([nanops.nanmean] over numpy): the NaN entries count
    as 0 in the sum and are left out of the count; the sum is numpy's, and
    the mean is NaN when nothing is counted. *)
Definition mean (series : list float) : float :=
  let values :=
    map (fun x => if PrimFloat.eqb x x then x else 0%float) series in
  let count := List.length (filter (fun x => PrimFloat.eqb x x) series) in
  if (count =? 0)%nat then PrimFloat.nan
  else
    (pairwise_sum (List.length values) values
     / float_of_int (Z.of_nat count))%float.

(** [series.iloc[-1]]. *)
Fixpoint iloc_last (series : list float) : outcome float :=
  match series with
  | [] => Raises IndexError
  | [x] => Returns x
  | _ :: rest => iloc_last rest
  end.

(** A cell of a query result. *)
Inductive value : Type :=
| VNull
| VInt (z : Z)
| VReal (x : float)
| VText (s : string).

Definition text_or_null (s : option string) : value :=
  match s with
  | Some s' => VText s'
  | None => VNull
  end.

(** A row handed out by [df.iterrows()]: the cells by column name. *)
Definition Series : Type := list (string * value).

(** [row[key]]: [KeyError] when the frame has no such column. *)
Definition getitem (row : Series) (key : string) : outcome value :=
  match Py.get row key with
  | Some v => Returns v
  | None => Raises (KeyError key)
  end.

End Pandas.

(* ================================================================== *)
(** * action_detector.py: the buy side                                  *)
(* ================================================================== *)

(** [detect_buy_action_type(tushare_client, stock_code, buy_date,
    buy_price, days_to_check=5)]. *)
Definition detect_buy_action_type
    (tushare_client : TushareClient) (stock_code buy_date : string)
    (buy_price : float) (days_to_check : Z) : option string :=
  if negb (is_configured tushare_client) then None
  else
    try_except
      (buy_dt <- Datetime.strptime buy_date ;;
       end_dt <- Datetime.add_days buy_dt (days_to_check * 2) ;;
       match get_stock_daily tushare_client stock_code buy_date
               (Datetime.strftime end_dt) with
       | None => Returns None
       | Some daily_data =>
           if Pandas.empty daily_data then Returns None
           else
             let future_data :=
               filter (fun bar => buy_dt <? trade_date bar) daily_data in
             if Pandas.empty future_data then Returns None
             else
               let future_data := Pandas.head days_to_check future_data in
               if Pandas.empty future_data then Returns None
               else
                 let avg_close := Pandas.mean (map close future_data) in
                 last_close <- Pandas.iloc_last (map close future_data) ;;
                 if (buy_price * 1.01 <? last_close)%float
                 then Returns (Some RALLY_BOUGHT)
                 else if (last_close <? buy_price * 0.99)%float
                 then Returns (Some DIP_BOUGHT)
                 else if (buy_price <? avg_close)%float
                 then Returns (Some RALLY_BOUGHT)
                 else Returns (Some DIP_BOUGHT)
       end)
      None.

(* ================================================================== *)
(** * models.py: the two dataclasses                                    *)
(* ================================================================== *)

Module Trade.

(** [Trade]: every field is [Optional]. *)
Record t : Type := mk {
  id : option Z;
  trade_group_id : option Z;
  stock_code : option string;
  stock_name : option string;
  action_type : option string;
  trade_type : option string;
  buy_date : option string;
  sell_date : option string;
  buy_price : option float;
  sell_price : option float;
  quantity : option Z;
  status : option string;
  notes : option string
}.

End Trade.

Module Score.

(** [Score]: every field is [Optional]. *)
Record t : Type := mk {
  id : option Z;
  trade_id : option Z;
  date : option string;
  action_type : option string;
  score_type : option string;
  score : option Z;
  answer : option string;
  reflection : option string
}.

End Score.

Definition BUY : string := "买入".
Definition SELL : string := "卖出".
Definition OPEN : string := "进行中".
Definition CLOSED : string := "已结束".
Definition SUBJECTIVE : string := "主观评分".
Definition OBJECTIVE : string := "客观评分".

(* ================================================================== *)
(** * database.py: the two tables                                       *)
(* ================================================================== *)

Module TradeRow.

(** A row of [trades_new].  The columns declared [NOT NULL] carry a value,
    the others an option.  ([created_at] is a timestamp no query of the
    modelled operations reads.) *)
Record t : Type := mk {
  id : Z;
  trade_group_id : option Z;
  stock_code : string;
  stock_name : option string;
  action_type : string;
  trade_type : string;
  buy_date : string;
  sell_date : option string;
  buy_price : float;
  sell_price : option float;
  quantity : Z;
  status : option string;
  notes : option string
}.

End TradeRow.

Module ScoreRow.

(** A row of [scores_new]. *)
Record t : Type := mk {
  id : Z;
  trade_id : option Z;
  date : string;
  action_type : string;
  score_type : string;
  score : Z;
  answer : option string;
  reflection : option string
}.

End ScoreRow.

(** The database file: both tables in rowid order, and for each the
    largest rowid ever used ([sqlite_sequence], kept by AUTOINCREMENT).
    The state is what the file holds; a connection that a raising call
    leaves behind is no part of it. *)
Record db : Type := mkdb {
  trades_new : list TradeRow.t;
  trades_new_seq : Z;
  scores_new : list ScoreRow.t;
  scores_new_seq : Z
}.

Definition empty_db : db := mkdb [] 0 [] 0.

(** A method of [Database]: it reads and writes the file, and either
    returns or raises.  A statement that raises has written nothing. *)
Definition M (A : Type) : Type := db -> outcome A * db.

Definition ret {A : Type} (a : A) : M A := fun d => (Returns a, d).

Definition raise {A : Type} (e : exn) : M A := fun d => (Raises e, d).

Definition bindM {A B : Type} (c : M A) (k : A -> M B) : M B :=
  fun d =>
    match c d with
    | (Returns a, d') => k a d'
    | (Raises e, d') => (Raises e, d')
    end.

(** A pure step that may raise, inside a handler. *)
Definition lift {A : Type} (c : outcome A) : M A := fun d => (c, d).

Notation "x <~ c ;; k" := (bindM c (fun x => k))
  (at level 61, c at next level, right associativity).

Module Sql.

(** The rowid AUTOINCREMENT gives the next row: one more than the largest
    rowid the table ever held. *)
Definition next_rowid (seq : Z) (ids : list Z) : Z :=
  Z.max seq (fold_right Z.max 0 ids) + 1.

(** [MAX(column)] over a nullable integer column: NULLs are skipped, and
    the result is NULL when nothing is left. *)
Definition max_of (column : list (option Z)) : option Z :=
  fold_left
    (fun acc v =>
       match v, acc with
       | Some x, Some a => Some (Z.max a x)
       | Some x, None => Some x
       | None, _ => acc
       end)
    column None.

Definition coalesce (v : option Z) (default : Z) : Z :=
  match v with
  | Some x => x
  | None => default
  end.

(** [column = ?] on a nullable integer column: never true on a NULL. *)
Definition eq_int (column param : option Z) : bool :=
  match column, param with
  | Some a, Some b => a =? b
  | _, _ => false
  end.

(** [column = 'literal'] on a nullable text column. *)
Definition eq_text (column : option string) (literal : string) : bool :=
  match column with
  | Some s => String.eqb s literal
  | None => false
  end.

(** A Python [float] bound to a [REAL] column, as the row then holds it:
    SQLite takes a NaN as NULL and keeps no sign on a zero. *)
Definition real (x : option float) : option float :=
  match x with
  | Some v =>
      if PrimFloat.eqb v v
      then if PrimFloat.eqb v 0%float then Some 0%float else Some v
      else None
  | None => None
  end.

(** A Python [int] bound to a parameter: [sqlite3] refuses one that does
    not fit in 64 bits. *)
Definition bind_int (x : option Z) : outcome unit :=
  match x with
  | Some z =>
      if (- 2 ^ 63 <=? z) && (z <? 2 ^ 63) then Returns tt
      else Raises OverflowError
  | None => Returns tt
  end.

(** A value bound to a [NOT NULL] column. *)
Definition not_null {A : Type} (column : string) (v : option A) : outcome A :=
  match v with
  | Some a => Returns a
  | None => Raises (IntegrityError column)
  end.

End Sql.

(** [x or default] on an optional string: an absent or empty string is falsy. *)
Definition or_str (x : option string) (default : string) : string :=
  match x with
  | Some EmptyString => default
  | Some s => s
  | None => default
  end.

(** Truth of an optional integer: [None] and [0] are falsy. *)
Definition truthy_int (x : option Z) : bool :=
  match x with
  | Some z => negb (z =? 0)
  | None => false
  end.

(** Truth of an optional string. *)
Definition truthy_str (x : option string) : bool :=
  match x with
  | Some EmptyString => false
  | Some _ => true
  | None => false
  end.

(* ================================================================== *)
(** * database.py: the methods of [Database]                            *)
(* ================================================================== *)

Module Database.

(** [ORDER BY]: a stable insertion sort (rows that tie keep rowid order). *)
Fixpoint insert_sorted {A : Type} (le : A -> A -> bool) (x : A) (l : list A)
  : list A :=
  match l with
  | [] => [x]
  | h :: t => if le x h then x :: l else h :: insert_sorted le x t
  end.

Definition order_by {A : Type} (le : A -> A -> bool) (l : list A) : list A :=
  fold_right (insert_sorted le) [] l.

(** [WHERE trade_group_id = ? AND trade_type = '买入'] *)
Definition is_buy_of (trade_group_id : option Z) (r : TradeRow.t) : bool :=
  Sql.eq_int (TradeRow.trade_group_id r) trade_group_id
  && String.eqb (TradeRow.trade_type r) BUY.

(** [WHERE trade_group_id = ? AND trade_type = '卖出'] *)
Definition is_sell_of (trade_group_id : option Z) (r : TradeRow.t) : bool :=
  Sql.eq_int (TradeRow.trade_group_id r) trade_group_id
  && String.eqb (TradeRow.trade_type r) SELL.

(** [SET status = '已结束', sell_date = ?, sell_price = ?] *)
Definition set_closed_sold
    (sell_date : option string) (sell_price : option float) (r : TradeRow.t)
  : TradeRow.t :=
  TradeRow.mk (TradeRow.id r) (TradeRow.trade_group_id r)
    (TradeRow.stock_code r) (TradeRow.stock_name r) (TradeRow.action_type r)
    (TradeRow.trade_type r) (TradeRow.buy_date r) sell_date
    (TradeRow.buy_price r) sell_price (TradeRow.quantity r)
    (Some CLOSED) (TradeRow.notes r).

(** [SET status = '已结束'] *)
Definition set_closed (r : TradeRow.t) : TradeRow.t :=
  TradeRow.mk (TradeRow.id r) (TradeRow.trade_group_id r)
    (TradeRow.stock_code r) (TradeRow.stock_name r) (TradeRow.action_type r)
    (TradeRow.trade_type r) (TradeRow.buy_date r) (TradeRow.sell_date r)
    (TradeRow.buy_price r) (TradeRow.sell_price r) (TradeRow.quantity r)
    (Some CLOSED) (TradeRow.notes r).

(** [UPDATE ... WHERE ...] over a table. *)
Definition update_where {A : Type} (cond : A -> bool) (assign : A -> A)
    (rows : list A) : list A :=
  map (fun r => if cond r then assign r else r) rows.

(** [add_trade(trade)].  [today] is [datetime.now().strftime("%Y-%m-%d")].
    The parameters are bound before the [INSERT] runs, so an integer that
    does not fit is refused before any constraint is checked.  (The lot id
    of a buy is computed by SQLite in 64-bit integers; it is followed here
    while the largest lot id is below [2^63 - 1].) *)
Definition add_trade (today : string) (trade : Trade.t) : M Z :=
  fun d =>
    let trade_group_id :=
      if Py.eq_str (Trade.trade_type trade) BUY
      then
        Some (Sql.coalesce
                (Sql.max_of (map TradeRow.trade_group_id (trades_new d))) 0
              + 1)
      else Trade.trade_group_id trade in
    let trade_id :=
      Sql.next_rowid (trades_new_seq d) (map TradeRow.id (trades_new d)) in
    let sell_price := Sql.real (Trade.sell_price trade) in
    let inserted :=
      _ <- (if Py.eq_str (Trade.trade_type trade) BUY then Returns tt
            else Sql.bind_int (Trade.trade_group_id trade)) ;;
      _ <- Sql.bind_int (Trade.quantity trade) ;;
      stock_code <- Sql.not_null "stock_code" (Trade.stock_code trade) ;;
      action_type <- Sql.not_null "action_type" (Trade.action_type trade) ;;
      trade_type <- Sql.not_null "trade_type" (Trade.trade_type trade) ;;
      buy_price <- Sql.not_null "buy_price" (Sql.real (Trade.buy_price trade)) ;;
      quantity <- Sql.not_null "quantity" (Trade.quantity trade) ;;
      Returns
        (TradeRow.mk trade_id trade_group_id stock_code
           (Trade.stock_name trade) action_type trade_type
           (or_str (Trade.buy_date trade) today) (Trade.sell_date trade)
           buy_price sell_price quantity (Trade.status trade)
           (Trade.notes trade)) in
    match inserted with
    | Raises e => (Raises e, d)
    | Returns row =>
        let rows := (trades_new d ++ [row])%list in
        let rows :=
          if Py.eq_str (Trade.trade_type trade) SELL
             && truthy_int trade_group_id
          then
            update_where (is_buy_of trade_group_id)
              (set_closed_sold (Trade.sell_date trade) sell_price)
              rows
          else rows in
        (Returns trade_id, mkdb rows trade_id (scores_new d) (scores_new_seq d))
    end.

(** [add_score(score)]. *)
Definition add_score (today : string) (score : Score.t) : M Z :=
  fun d =>
    let score_id :=
      Sql.next_rowid (scores_new_seq d) (map ScoreRow.id (scores_new d)) in
    let inserted :=
      action_type <- Sql.not_null "action_type" (Score.action_type score) ;;
      score_type <- Sql.not_null "score_type" (Score.score_type score) ;;
      points <- Sql.not_null "score" (Score.score score) ;;
      Returns
        (ScoreRow.mk score_id (Score.trade_id score)
           (or_str (Score.date score) today) action_type score_type points
           (Score.answer score) (Score.reflection score)) in
    match inserted with
    | Raises e => (Raises e, d)
    | Returns row =>
        (Returns score_id,
         mkdb (trades_new d) (trades_new_seq d) (scores_new d ++ [row])%list
           score_id)
    end.

(** [get_active_trades()]. *)
Definition get_active_trades (d : db) : list TradeRow.t :=
  order_by
    (fun a b => String.leb (TradeRow.buy_date b) (TradeRow.buy_date a))
    (filter
       (fun r =>
          Sql.eq_text (TradeRow.status r) OPEN
          && String.eqb (TradeRow.trade_type r) BUY)
       (trades_new d)).

(** [get_sold_quantity(trade_group_id)]. *)
Definition get_sold_quantity (trade_group_id : option Z) (d : db) : Z :=
  fold_right Z.add 0
    (map TradeRow.quantity (filter (is_sell_of trade_group_id) (trades_new d))).

(** The six columns [get_scores_by_date_range] selects. *)
Definition score_columns (r : ScoreRow.t) : Pandas.Series :=
  [ ("date", Pandas.VText (ScoreRow.date r));
    ("action_type", Pandas.VText (ScoreRow.action_type r));
    ("score_type", Pandas.VText (ScoreRow.score_type r));
    ("score", Pandas.VInt (ScoreRow.score r));
    ("answer", Pandas.text_or_null (ScoreRow.answer r));
    ("reflection", Pandas.text_or_null (ScoreRow.reflection r)) ].

(** The rows [get_scores_by_date_range] keeps, before the projection:
    [WHERE date >= ? AND date <= ?], then [AND score_type = ?] when a
    score type is given, [ORDER BY date ASC]. *)
Definition scores_in_date_range
    (start_date end_date : string) (score_type : option string) (d : db)
  : list ScoreRow.t :=
  order_by
    (fun a b => String.leb (ScoreRow.date a) (ScoreRow.date b))
    (filter
       (fun r =>
          String.leb start_date (ScoreRow.date r)
          && String.leb (ScoreRow.date r) end_date
          && (if truthy_str score_type
              then Py.eq_str score_type (ScoreRow.score_type r)
              else true))
       (scores_new d)).

(** [get_scores_by_date_range(start_date, end_date, score_type)]. *)
Definition get_scores_by_date_range
    (start_date end_date : string) (score_type : option string) (d : db)
  : list Pandas.Series :=
  map score_columns (scores_in_date_range start_date end_date score_type d).

(** [update_trade_status(trade_group_id)]. *)
Definition update_trade_status (trade_group_id : option Z) : M bool :=
  fun d =>
    match find (is_buy_of trade_group_id) (trades_new d) with
    | None => (Returns false, d)
    | Some buy_result =>
        let buy_quantity := TradeRow.quantity buy_result in
        let sold_quantity := get_sold_quantity trade_group_id d in
        if buy_quantity <=? sold_quantity
        then
          (Returns (existsb (is_buy_of trade_group_id) (trades_new d)),
           mkdb
             (update_where (is_buy_of trade_group_id) set_closed (trades_new d))
             (trades_new_seq d) (scores_new d) (scores_new_seq d))
        else (Returns true, d)
    end.

(** [delete_trade(trade_id)]. *)
Definition delete_trade (trade_id : Z) : M bool :=
  fun d =>
    (Returns (existsb (fun r => TradeRow.id r =? trade_id) (trades_new d)),
     mkdb
       (filter (fun r => negb (TradeRow.id r =? trade_id)) (trades_new d))
       (trades_new_seq d) (scores_new d) (scores_new_seq d)).

(** [WHERE id = ?] with the bound cell: a number names the row with that
    id, and NULL names none.  (A text is taken to name none either; the
    handler passes the cell of a numeric column.) *)
Definition id_is (score_id : Pandas.value) (r : ScoreRow.t) : bool :=
  match score_id with
  | Pandas.VInt z => ScoreRow.id r =? z
  | Pandas.VReal x => PrimFloat.eqb (float_of_int (ScoreRow.id r)) x
  | Pandas.VNull => false
  | Pandas.VText _ => false
  end.

(** [delete_score(score_id)]. *)
Definition delete_score (score_id : Pandas.value) : M bool :=
  fun d =>
    (Returns (existsb (id_is score_id) (scores_new d)),
     mkdb (trades_new d) (trades_new_seq d)
       (filter (fun r => negb (id_is score_id r)) (scores_new d))
       (scores_new_seq d)).

(** [get_trade_by_id(trade_id)]: the first row of the answer, or [None]
    when the answer is empty. *)
Definition get_trade_by_id (trade_id : Z) (d : db) : option TradeRow.t :=
  find (fun r => TradeRow.id r =? trade_id) (trades_new d).

(** [get_trades_by_stock(stock_code)]. *)
Definition get_trades_by_stock (stock_code : string) (d : db)
  : list TradeRow.t :=
  order_by
    (fun a b => String.leb (TradeRow.buy_date b) (TradeRow.buy_date a))
    (filter (fun r => String.eqb (TradeRow.stock_code r) stock_code)
       (trades_new d)).

(** [ORDER BY score_type, date DESC]. *)
Definition by_type_then_date_desc (a b : ScoreRow.t) : bool :=
  match String.compare (ScoreRow.score_type a) (ScoreRow.score_type b) with
  | Lt => true
  | Gt => false
  | Eq => String.leb (ScoreRow.date b) (ScoreRow.date a)
  end.

(** [get_scores_by_trade(trade_id)]. *)
Definition get_scores_by_trade (trade_id : option Z) (d : db)
  : list ScoreRow.t :=
  order_by by_type_then_date_desc
    (filter (fun r => Sql.eq_int (ScoreRow.trade_id r) trade_id)
       (scores_new d)).

End Database.

(* ================================================================== *)
(** * app.py: the daily self-check handler                              *)
(* ================================================================== *)

(** What the daily self-check page holds when its save button is pressed:
    the chosen date, and, in the order of [ACTION_TYPES], the score of each
    category and the answer typed for it. *)
Record daily_form : Type := {
  selected_date : string;
  subjective_scores : list (string * Z);
  answers : list (string * string);
  hardest_action : string
}.

(** What the page shows after the button. *)
Inductive daily_message : Type :=
| DailyWarning
| DailySaved (total_score : Z)
| DailyNothingRated.

Definition NONE_HARDEST : string := "无".

(** [calculate_total_score(scores)]: [sum(scores.values())]. *)
Definition calculate_total_score (scores : list (string * Z)) : Z :=
  fold_right Z.add 0 (map snd scores).

(** The loop of [save_daily_scores()]: one insert per category rated
    above zero; the count of inserts. *)
Fixpoint save_daily_loop (today : string) (f : daily_form)
    (items : list (string * Z)) (saved_count : Z) : M Z :=
  match items with
  | [] => ret saved_count
  | (action_type_key, score) :: rest =>
      if 0 <? score
      then
        _ <~ Database.add_score today
               (Score.mk None None (Some (selected_date f))
                  (Some action_type_key) (Some SUBJECTIVE) (Some score)
                  (Py.get (answers f) action_type_key)
                  (if String.eqb (hardest_action f) NONE_HARDEST then None
                   else Some ("最难行动: " ++ hardest_action f))) ;;
        save_daily_loop today f rest (saved_count + 1)
      else save_daily_loop today f rest saved_count
  end.

(** [save_daily_scores()]. *)
Definition save_daily_scores (today : string) (f : daily_form)
  : M daily_message :=
  saved_count <~ save_daily_loop today f (subjective_scores f) 0 ;;
  if 0 <? saved_count
  then ret (DailySaved (calculate_total_score (subjective_scores f)))
  else ret DailyNothingRated.

(** The loop over [today_scores.iterrows()] that deletes the old rows. *)
Fixpoint delete_old_scores (today_scores : list Pandas.Series) : M unit :=
  match today_scores with
  | [] => ret tt
  | old_score :: rest =>
      score_id <~ lift (Pandas.getitem old_score "id") ;;
      _ <~ Database.delete_score score_id ;;
      delete_old_scores rest
  end.

(** The handler of the [daily_submit] button. *)
Definition daily_submit (today : string) (f : daily_form) : M daily_message :=
  if calculate_total_score (subjective_scores f) =? 0 then ret DailyWarning
  else
    fun d =>
      let today_scores :=
        Database.get_scores_by_date_range
          (selected_date f) (selected_date f) (Some SUBJECTIVE) d in
      if negb (Pandas.empty today_scores)
      then
        (_ <~ delete_old_scores today_scores ;;
         save_daily_scores today f) d
      else save_daily_scores today f d.

(* ================================================================== *)
(** * app.py: the sell handler                                          *)
(* ================================================================== *)

(** What the sell page holds when its save button is pressed: the open
    buy row picked from [get_active_trades()], the inputs, the scores and
    answers of the two sell categories, and the [detected_sell_action]
    entry of the session ([None] when it has none). *)
Record sell_form : Type := {
  selected_trade : TradeRow.t;
  sell_date : string;
  sell_quantity : Z;
  sell_price : float;
  sell_subjective_scores : list (string * Z);
  sell_answers : list (string * string);
  sell_reflection : string;
  detected_sell_action : option string
}.

(** What the page shows after the button: one of the three rejections
    ("请输入卖出价格", "请输入卖出数量", "卖出数量不能超过剩余可卖数量"),
    or the confirmation. *)
Inductive sell_message : Type :=
| MissingSellPrice
| MissingSellQuantity
| CapacityExceeded (remaining_quantity : Z)
| SellSaved (sell_trade_id : Z) (is_fully_sold : bool).

(** [text if text else None]. *)
Definition nonempty (text : string) : option string :=
  match text with
  | EmptyString => None
  | _ => Some text
  end.

(** The loop that saves the subjective scores of a sell. *)
Fixpoint save_sell_scores (today : string) (f : sell_form) (sell_trade_id : Z)
    (items : list (string * Z)) : M unit :=
  match items with
  | [] => ret tt
  | (action_type_key, score) :: rest =>
      if 0 <? score
      then
        _ <~ Database.add_score today
               (Score.mk None (Some sell_trade_id) (Some (sell_date f))
                  (Some action_type_key) (Some SUBJECTIVE) (Some score)
                  (Py.get (sell_answers f) action_type_key)
                  (nonempty (sell_reflection f))) ;;
        save_sell_scores today f sell_trade_id rest
      else save_sell_scores today f sell_trade_id rest
  end.

(** The handler of the [sell_submit] button.  [sold_quantity] and
    [remaining_quantity] are the two values the page computed from the
    database earlier in the same run. *)
Definition sell_submit (today : string) (f : sell_form) : M sell_message :=
  fun d =>
    let trade := selected_trade f in
    let trade_group_id := TradeRow.trade_group_id trade in
    let sold_quantity := Database.get_sold_quantity trade_group_id d in
    let remaining_quantity := TradeRow.quantity trade - sold_quantity in
    (if (sell_price f <=? 0)%float then ret MissingSellPrice
     else if sell_quantity f <=? 0 then ret MissingSellQuantity
     else if remaining_quantity <? sell_quantity f
     then ret (CapacityExceeded remaining_quantity)
     else
       sell_trade_id <~
         Database.add_trade today
           (Trade.mk None trade_group_id
              (Some (TradeRow.stock_code trade)) (TradeRow.stock_name trade)
              None (Some SELL) (Some (TradeRow.buy_date trade))
              (Some (sell_date f)) (Some (TradeRow.buy_price trade))
              (Some (sell_price f)) (Some (sell_quantity f)) (Some CLOSED)
              None) ;;
       _ <~ Database.update_trade_status trade_group_id ;;
       sell_action_type <~
         lift
           (if truthy_str (detected_sell_action f)
            then Returns (detected_sell_action f)
            else
              detect_sell_action_type (TradeRow.buy_price trade)
                (sell_price f) (TradeRow.buy_date trade)
                (Some (sell_date f))) ;;
       _ <~ save_sell_scores today f sell_trade_id
              (sell_subjective_scores f) ;;
       _ <~
         match sell_action_type with
         | Some label =>
             if truthy_str sell_action_type
             then
               objective_score <~
                 lift
                   (calculate_objective_score label
                      (TradeRow.buy_price trade) (sell_price f)
                      (TradeRow.buy_date trade) (Some (sell_date f))) ;;
               _ <~ Database.add_score today
                      (Score.mk None (Some sell_trade_id)
                         (Some (sell_date f)) sell_action_type
                         (Some OBJECTIVE) (Some objective_score) None None) ;;
               ret tt
             else ret tt
         | None => ret tt
         end ;;
       ret (SellSaved sell_trade_id
              (TradeRow.quantity trade <=? sold_quantity + sell_quantity f)))
      d.

(* ================================================================== *)
(** * The ledger as a state machine                                     *)
(* ================================================================== *)

(** The calls that write the database once it is open.  (Opening it runs
    [migrate_database], which writes only by copying the rows of an older
    table in, each with the closed status.) *)
Inductive operation : Type :=
| AddTrade (trade : Trade.t)
| AddScore (score : Score.t)
| UpdateTradeStatus (trade_group_id : option Z)
| DeleteTrade (trade_id : Z)
| DeleteScore (score_id : Pandas.value)
| SellSubmit (f : sell_form)
| DailySubmit (f : daily_form).

(** The database after one call (a call that raises keeps what it had
    committed before raising). *)
Definition step (today : string) (op : operation) (d : db) : db :=
  match op with
  | AddTrade trade => snd (Database.add_trade today trade d)
  | AddScore score => snd (Database.add_score today score d)
  | UpdateTradeStatus g => snd (Database.update_trade_status g d)
  | DeleteTrade trade_id => snd (Database.delete_trade trade_id d)
  | DeleteScore score_id => snd (Database.delete_score score_id d)
  | SellSubmit f => snd (sell_submit today f d)
  | DailySubmit f => snd (daily_submit today f d)
  end.

(** The database after a sequence of calls. *)
Definition run (today : string) (ops : list operation) (d : db) : db :=
  fold_left (fun acc op => step today op acc) ops d.

(* ================================================================== *)
(** * Predicates used by the statements                                 *)
(* ================================================================== *)

(** Every row of [trades_new] with id [i] has the closed status. *)
Definition closed_at (i : Z) (d : db) : Prop :=
  forall r, In r (trades_new d) -> TradeRow.id r = i ->
            TradeRow.status r = Some CLOSED.

(** [r'] is row [r] after a call: same id, lot, direction and quantity,
    and a status that is the one it had or the closed one. *)
Definition evolves (r r' : TradeRow.t) : Prop :=
  TradeRow.id r' = TradeRow.id r
  /\ TradeRow.trade_group_id r' = TradeRow.trade_group_id r
  /\ TradeRow.trade_type r' = TradeRow.trade_type r
  /\ TradeRow.quantity r' = TradeRow.quantity r
  /\ (TradeRow.status r' = TradeRow.status r
      \/ TradeRow.status r' = Some CLOSED).

(** The table of trades as SQLite keeps it: distinct row ids, none above
    the largest id AUTOINCREMENT has handed out. *)
Definition well_formed (d : db) : Prop :=
  NoDup (map TradeRow.id (trades_new d))
  /\ forall r, In r (trades_new d) -> TradeRow.id r <= trades_new_seq d.

(** A computation that leaves [trades_new] and its rowid counter alone. *)
Definition keeps_trades {A : Type} (c : M A) : Prop :=
  forall d,
    trades_new (snd (c d)) = trades_new d
    /\ trades_new_seq (snd (c d)) = trades_new_seq d.

(* ================================================================== *)
(** * Scenarios used by the examples below                              *)
(* ================================================================== *)

Definition TODAY : string := "2024-03-01".

(** A buy of [quantity] shares at 10 yuan. *)
Definition buy_of (quantity : Z) : Trade.t :=
  Trade.mk None None (Some "600000") (Some "PF Bank") (Some DIP_BOUGHT)
    (Some BUY) (Some "2024-03-01") None (Some 10%float) None (Some quantity)
    (Some OPEN) None.

(** A sell of [quantity] shares of lot [lot] at 11 yuan, as a caller of
    [Database.add_trade] that fills the category would pass it. *)
Definition sell_of (lot quantity : Z) : Trade.t :=
  Trade.mk None (Some lot) (Some "600000") (Some "PF Bank")
    (Some PROFIT_TAKEN) (Some SELL) (Some "2024-03-01") (Some "2024-03-05")
    (Some 10%float) (Some 11%float) (Some quantity) (Some CLOSED) None.

(** The ledger after one buy of 1000 shares. *)
Definition one_lot : db := run TODAY [AddTrade (buy_of 1000)] empty_db.

(** What a row shows of the lot state machine. *)
Definition lot_view (r : TradeRow.t) : Z * option Z * string * Z * option string :=
  (TradeRow.id r, TradeRow.trade_group_id r, TradeRow.trade_type r,
   TradeRow.quantity r, TradeRow.status r).

(** A price provider with one observation on 2024-03-01 and two after it,
    both closing at 100. *)
Definition flat_client : TushareClient :=
  {| is_configured := true;
     get_stock_daily := fun _ _ _ =>
       Some [ {| trade_date := 738946; close := 99 |};
              {| trade_date := 738949; close := 100 |};
              {| trade_date := 738950; close := 100 |} ] |}.

(** The ledger after a buy of 1000 shares sold in full. *)
Definition closed_lot : db :=
  run TODAY [AddTrade (buy_of 1000); AddTrade (sell_of 1 1000)] empty_db.

(** Calls made after the lot is closed. *)
Definition later_calls : list operation :=
  [ AddTrade (sell_of 1 5); UpdateTradeStatus (Some 1); DeleteTrade 2;
    AddTrade (buy_of 10); UpdateTradeStatus (Some 2) ].

(** The buy row of [one_lot], as [get_active_trades()] hands it to the
    sell page. *)
Definition one_lot_buy_row : TradeRow.t :=
  TradeRow.mk 1 (Some 1) "600000" (Some "PF Bank") DIP_BOUGHT BUY
    "2024-03-01" None 10%float None 1000 (Some OPEN) None.

(** The sell page filled with a quantity and a price for that row. *)
Definition sell_form_of (quantity : Z) (price : float) : sell_form :=
  {| selected_trade := one_lot_buy_row;
     sell_date := "2024-03-05";
     sell_quantity := quantity;
     sell_price := price;
     sell_subjective_scores := [(PROFIT_TAKEN, 18); (LOSS_CUT, 0)];
     sell_answers := [(PROFIT_TAKEN, "planned exit"); (LOSS_CUT, "")];
     sell_reflection := "";
     detected_sell_action := None |}.

(** The daily self-check page with one category rated. *)
Definition daily_form_of (score : Z) : daily_form :=
  {| selected_date := "2024-03-01";
     subjective_scores :=
       [ (PROFIT_TAKEN, score); (DIP_BOUGHT, 0); (RALLY_BOUGHT, 0);
         (LOSS_CUT, 0) ];
     answers :=
       [ (PROFIT_TAKEN, "sold a third"); (DIP_BOUGHT, "");
         (RALLY_BOUGHT, ""); (LOSS_CUT, "") ];
     hardest_action := NONE_HARDEST |}.

(** The ledger after a first daily self-check rated 30. *)
Definition first_check : db :=
  snd (daily_submit TODAY (daily_form_of 30) empty_db).

(** The ledger after a buy whose own subjective score is saved with it
    (as the buy page does: the score row carries the id of the trade). *)
Definition scored_buy : db :=
  run TODAY
    [ AddTrade (buy_of 1000);
      AddScore
        (Score.mk None (Some 1) (Some "2024-03-01") (Some DIP_BOUGHT)
           (Some SUBJECTIVE) (Some 24) (Some "cash was ready") None) ]
    empty_db.

(** What a row of [scores_new] shows. *)
Definition score_view (r : ScoreRow.t)
  : Z * option Z * string * string * string * Z :=
  (ScoreRow.id r, ScoreRow.trade_id r, ScoreRow.date r,
   ScoreRow.action_type r, ScoreRow.score_type r, ScoreRow.score r).


(** A price provider whose last observation closes well above 100. *)
Definition rising_client : TushareClient :=
  {| is_configured := true;
     get_stock_daily := fun _ _ _ =>
       Some [ {| trade_date := 738946; close := 100 |};
              {| trade_date := 738949; close := 98 |};
              {| trade_date := 738950; close := 104 |} ] |}.

(** The eight trading days after 2024-03-01, as a provider sends them. *)
Definition eight_days : DataFrame :=
  [ {| trade_date := 738949; close := 20.0 |};
    {| trade_date := 738950; close := 20.01 |};
    {| trade_date := 738951; close := 20.09 |};
    {| trade_date := 738952; close := 19.99 |};
    {| trade_date := 738953; close := 20.14 |};
    {| trade_date := 738956; close := 19.96 |};
    {| trade_date := 738957; close := 19.92 |};
    {| trade_date := 738958; close := 19.9 |} ].

Definition eight_day_client : TushareClient :=
  {| is_configured := true; get_stock_daily := fun _ _ _ => Some eight_days |}.

(** A price provider with no observation after 2024-03-01. *)
Definition stale_client : TushareClient :=
  {| is_configured := true;
     get_stock_daily := fun _ _ _ =>
       Some [ {| trade_date := 738945; close := 101 |};
              {| trade_date := 738946; close := 100 |} ] |}.

(** A buy whose price is not a number. *)
Definition nan_buy : Trade.t :=
  Trade.mk None None (Some "600000") None (Some DIP_BOUGHT) (Some BUY) None
    None (Some PrimFloat.nan) None (Some 100) (Some OPEN) None.

(** A sell of 300 shares that names no lot. *)
Definition loose_sell : Trade.t :=
  Trade.mk None None (Some "600000") None (Some LOSS_CUT) (Some SELL) None
    (Some "2024-03-05") (Some 10%float) (Some 9%float) (Some 300)
    (Some CLOSED) None.

(** What a score row holds besides its id. *)
Definition score_content (r : ScoreRow.t)
  : option Z * string * string * string * Z * option string * option string :=
  (ScoreRow.trade_id r, ScoreRow.date r, ScoreRow.action_type r,
   ScoreRow.score_type r, ScoreRow.score r, ScoreRow.answer r,
   ScoreRow.reflection r).

(** The categories of a page rated above zero. *)
Definition rated (items : list (string * Z)) : list (string * Z) :=
  filter (fun item => 0 <? snd item) items.

(** A standalone subjective score of the next day. *)
Definition late_score : Score.t :=
  Score.mk None None (Some "2024-03-02") (Some LOSS_CUT) (Some SUBJECTIVE)
    (Some 8) None None.

(* ================================================================== *)
(** * app.py: the star ratings                                          *)
(* ================================================================== *)

(** The score of a star level on a card: [level_score = max_score / 5],
    [score = int(star_level * level_score)]. *)
Definition star_score (max_score star_level : Z) : outcome Z :=
  level_score <- truediv (float_of_int max_score) 5 ;;
  Py.int (float_of_int star_level * level_score)%float.

(* ================================================================== *)
(** * app.py: the buy handler                                           *)
(* ================================================================== *)

(** What the buy page holds when its save button is pressed.
    [action_type] is the label the page has settled on before the button
    (the one kept in the session, or else the one picked by hand),
    [buy_date] the day of the date input, [detected_buy_action] the entry
    of the session ([None] when it has none). *)
Record buy_form : Type := {
  stock_code : string;
  stock_name : string;
  action_type : option string;
  buy_date : Z;
  buy_price : float;
  quantity : Z;
  notes : string;
  buy_subjective_scores : list (string * Z);
  buy_answers : list (string * string);
  buy_reflection : string;
  detected_buy_action : option string;
  tushare_client : TushareClient
}.

(** What the page shows after the button: one of the five refusals,
    nothing at all, or the confirmation with the id of the trade and the
    number of scores saved with it. *)
Inductive buy_message : Type :=
| MissingStockCode
| MissingActionType
| MissingBuyPrice
| MissingBuyQuantity
| TokenNeeded
| NothingShown
| BuySaved (trade_id : Z) (saved_scores : Z).

(** The loop that saves the subjective scores of a buy; the count of
    inserts. *)
Fixpoint save_buy_scores (today : string) (f : buy_form) (trade_id : Z)
    (items : list (string * Z)) (saved : Z) : M Z :=
  match items with
  | [] => ret saved
  | (action_type_key, score) :: rest =>
      if 0 <? score
      then
        _ <~ Database.add_score today
               (Score.mk None (Some trade_id)
                  (Some (Datetime.strftime (buy_date f)))
                  (Some action_type_key) (Some SUBJECTIVE) (Some score)
                  (Py.get (buy_answers f) action_type_key)
                  (nonempty (buy_reflection f))) ;;
        save_buy_scores today f trade_id rest (saved + 1)
      else save_buy_scores today f trade_id rest saved
  end.

(** [action_type not in ["涨了敢买", "跌了敢买"]]. *)
Definition is_buy_label (label : option string) : bool :=
  Py.eq_str label RALLY_BOUGHT || Py.eq_str label DIP_BOUGHT.

(** The label the handler ends up with, and whether it has shown the
    request for a token: with no label in the session it asks the
    classification when the client has a token, and otherwise accepts
    only one of the two buy labels. *)
Definition resolve_buy_action (f : buy_form) : option string * bool :=
  if negb (truthy_str (detected_buy_action f))
  then
    if is_configured (tushare_client f)
    then
      (detect_buy_action_type (tushare_client f) (stock_code f)
         (Datetime.strftime (buy_date f)) (buy_price f) 5,
       false)
    else if negb (is_buy_label (action_type f)) then (None, true)
    else (action_type f, false)
  else (action_type f, false).

(** The handler of the [buy_submit] button.  (What it writes to the
    session is no part of the database and is left out.) *)
Definition buy_submit (today : string) (f : buy_form) : M buy_message :=
  match stock_code f with
  | EmptyString => ret MissingStockCode
  | _ =>
      if negb (truthy_str (action_type f)) then ret MissingActionType
      else if (buy_price f <=? 0)%float then ret MissingBuyPrice
      else if quantity f <=? 0 then ret MissingBuyQuantity
      else
        match resolve_buy_action f with
        | (Some label, shown) =>
            if truthy_str (Some label)
            then
              trade_id <~
                Database.add_trade today
                  (Trade.mk None None (Some (stock_code f))
                     (Some (or_str (Some (stock_name f)) (stock_code f)))
                     (Some label) (Some BUY)
                     (Some (Datetime.strftime (buy_date f))) None
                     (Some (buy_price f)) None (Some (quantity f))
                     (Some OPEN) (nonempty (notes f))) ;;
              saved <~ save_buy_scores today f trade_id
                         (buy_subjective_scores f) 0 ;;
              ret (BuySaved trade_id saved)
            else ret (if shown then TokenNeeded else NothingShown)
        | (None, shown) => ret (if shown then TokenNeeded else NothingShown)
        end
  end.

(** The buy page filled for 500 shares at 12 yuan on 2024-03-04, the
    dipped label picked by hand, one category rated. *)
Definition buy_form_of (client : TushareClient) : buy_form :=
  {| stock_code := "000001";
     stock_name := "";
     action_type := Some DIP_BOUGHT;
     buy_date := 738949;
     buy_price := 12%float;
     quantity := 500;
     notes := "";
     buy_subjective_scores := [(DIP_BOUGHT, 24); (RALLY_BOUGHT, 0)];
     buy_answers := [(DIP_BOUGHT, "cash was ready"); (RALLY_BOUGHT, "")];
     buy_reflection := "";
     detected_buy_action := None;
     tushare_client := client |}.

(** A client without a token. *)
Definition no_token_client : TushareClient :=
  {| is_configured := false; get_stock_daily := fun _ _ _ => None |}.

(** A client with a token whose provider has no data. *)
Definition silent_client : TushareClient :=
  {| is_configured := true; get_stock_daily := fun _ _ _ => None |}.

(* ================================================================== *)
(** * tushare_client.py: the client over its provider                   *)
(* ================================================================== *)

Module Tushare.

(** [s.replace(c, '')] for a one-character [c]. *)
Fixpoint remove_char (c : ascii) (s : string) : string :=
  match s with
  | EmptyString => EmptyString
  | String x rest =>
      if Ascii.eqb x c then remove_char c rest
      else String x (remove_char c rest)
  end.

(** A byte that continues a UTF-8 character. *)
Definition is_continuation (x : ascii) : bool :=
  let n := N_of_ascii x in (N.leb 128 n && N.ltb n 192)%N.

(** [len(s)]: the characters of the text, which are its bytes other than
    the continuation bytes. *)
Fixpoint len (s : string) : nat :=
  match s with
  | EmptyString => O
  | String x rest => if is_continuation x then len rest else S (len rest)
  end.

(** [s.startswith('6')]. *)
Definition starts_with_6 (s : string) : bool :=
  match s with
  | String x _ => Ascii.eqb x "6"
  | EmptyString => false
  end.

(** The code handed to the provider, as the three methods of the client
    compute it: six characters once the dots are removed get the suffix
    of their exchange, anything else is passed on as it is. *)
Definition ts_code (stock_code : string) : string :=
  let code := remove_char "." stock_code in
  if Nat.eqb (len code) 6
  then if starts_with_6 code then code ++ ".SH" else code ++ ".SZ"
  else stock_code.

(** A row of the provider's [daily] answer: the trading day as the text
    the provider sends, and the close. *)
Record raw_bar : Type := {
  raw_trade_date : string;
  raw_close : float
}.

(** [pro.daily(ts_code=..., start_date=..., end_date=...)]: a frame,
    [None], or an exception. *)
Definition Provider : Type :=
  string -> string -> string -> outcome (option (list raw_bar)).

(** [pd.to_datetime(df['trade_date'], format='%Y%m%d')], the conversion
    of one entry being [to_datetime]: it fails as a whole when one entry
    fails. *)
Fixpoint convert (to_datetime : string -> outcome Z) (rows : list raw_bar)
  : outcome DataFrame :=
  match rows with
  | [] => Returns []
  | row :: rest =>
      day <- to_datetime (raw_trade_date row) ;;
      bars <- convert to_datetime rest ;;
      Returns ({| trade_date := day; close := raw_close row |} :: bars)
  end.

(** [get_stock_daily(stock_code, start_date, end_date)] of a client whose
    [pro] is [pro] ([None] until a token is set).  The frame is sorted by
    trading day; rows of the same day, whose order [sort_values] does not
    promise, are kept here in the order they came. *)
Definition get_stock_daily (to_datetime : string -> outcome Z)
    (pro : option Provider) (stock_code start_date end_date : string)
  : option DataFrame :=
  match pro with
  | None => None
  | Some daily =>
      try_except
        (df <- daily (ts_code stock_code) (remove_char "-" start_date)
                 (remove_char "-" end_date) ;;
         match df with
         | Some rows =>
             if negb (Pandas.empty rows)
             then
               bars <- convert to_datetime rows ;;
               Returns
                 (Some (Database.order_by
                          (fun a b => trade_date a <=? trade_date b) bars))
             else Returns (Some [])
         | None => Returns None
         end)
        None
  end.

(** The client as the classification sees it. *)
Definition client (to_datetime : string -> outcome Z) (pro : option Provider)
  : TushareClient :=
  Build_TushareClient
    (match pro with Some _ => true | None => false end)
    (get_stock_daily to_datetime pro).

End Tushare.

(* ================================================================== *)
(** * config_manager.py                                                 *)
(* ================================================================== *)

Module Config.

(** A JSON value, as [json.load] returns it. *)
#[warnings="-register-all"]
Inductive json : Type :=
| JNull
| JBool (b : bool)
| JNumber (n : Z)
| JString (s : string)
| JArray (items : list json)
| JObject (members : list (string * json)).

(** The file [app_config.json]: missing, holding a text that is no JSON,
    or holding the JSON text of a value. *)
Inductive file : Type :=
| Missing
| Unreadable
| Holds (value : json).

(** The two exceptions the functions let through. *)
Inductive error : Type :=
| AttributeError
| TypeError.

(** [load_config()]: the value of the file, or an empty dictionary when
    the file is missing or cannot be read as JSON. *)
Definition load_config (f : file) : json :=
  match f with
  | Holds value => value
  | Missing => JObject []
  | Unreadable => JObject []
  end.

(** [save_config(config)]: the file then holds the value; a file that
    cannot be opened for writing is left as it is, and nothing is
    raised. *)
Definition save_config (writable : bool) (config : json) (f : file) : file :=
  if writable then Holds config else f.

(** [d[key] = v] on a dictionary: the value of the key is replaced where
    the key stands, or the key is added at the end. *)
Fixpoint setitem (members : list (string * json)) (key : string) (v : json)
  : list (string * json) :=
  match members with
  | [] => [(key, v)]
  | (k, old) :: rest =>
      if String.eqb k key then (k, v) :: rest
      else (k, old) :: setitem rest key v
  end.

(** [get_tushare_token()]: a value that is no dictionary has no [get]. *)
Definition get_tushare_token (f : file) : error + option json :=
  match load_config f with
  | JObject members => inr (Py.get members "tushare_token")
  | _ => inl AttributeError
  end.

(** [save_tushare_token(token)]: a value that is no dictionary takes no
    key. *)
Definition save_tushare_token (writable : bool) (token : string) (f : file)
  : error + file :=
  match load_config f with
  | JObject members =>
      inr (save_config writable
             (JObject (setitem members "tushare_token" (JString token))) f)
  | _ => inl TypeError
  end.

End Config.
(* ================================================================== *)
(** * Properties: floats                                                *)
(* ================================================================== *)

Lemma Prim2SF_zero : Prim2SF 0%float = S754_zero false.
Proof. reflexivity. Qed.

(** A float strictly above zero is neither below or equal to zero, nor
    equal to it. *)
Lemma float_pos_not_le (x : float) :
  (0 <? x)%float = true -> (x <=? 0)%float = false /\ (x =? 0)%float = false.
Proof.
  rewrite ltb_spec, leb_spec, eqb_spec, Prim2SF_zero.
  unfold SFltb, SFleb, SFeqb.
  destruct (Prim2SF x) as [s | s | | s m e]; simpl;
    try destruct s; simpl; intros H; try discriminate H; split; reflexivity.
Qed.

(** A float below or equal to zero is not the divisor of any division the
    two functions reach. *)
Lemma float_not_le_not_zero (x : float) :
  (x <=? 0)%float = false -> (x =? 0)%float = false.
Proof.
  rewrite leb_spec, eqb_spec, Prim2SF_zero.
  unfold SFleb, SFeqb.
  destruct (Prim2SF x) as [s | s | | s m e]; simpl;
    try destruct s; simpl; intros H; try discriminate H; reflexivity.
Qed.

(** [int] truncates toward zero: on a float with a negative exponent the
    magnitude returned is the integer part of [m * 2^e]. *)
Lemma int_truncates (x : float) (s : bool) (m : positive) (e : Z) :
  Prim2SF x = S754_finite s m e -> e < 0 ->
  exists a,
    Py.int x = Returns (if s then - a else a)
    /\ a * 2 ^ (- e) <= Zpos m < (a + 1) * 2 ^ (- e).
Proof.
  intros Hx He. unfold Py.int. rewrite Hx.
  exists (Z.shiftl (Zpos m) e). split; [reflexivity|].
  rewrite Z.shiftl_div_pow2 by lia.
  assert (Hp : 0 < 2 ^ (- e)) by (apply Z.pow_pos_nonneg; lia).
  pose proof (Z.div_mod (Zpos m) (2 ^ (- e)) ltac:(lia)) as Hdm.
  pose proof (Z.mod_pos_bound (Zpos m) (2 ^ (- e)) Hp) as Hb.
  nia.
Qed.

(** Comparing two floats the other way round gives the opposite answer. *)
Lemma SFcompare_antisym (a b : spec_float) :
  SFcompare b a = option_map CompOpp (SFcompare a b).
Proof.
  destruct a as [sa | sa | | sa ma ea], b as [sb | sb | | sb mb eb];
    try reflexivity; try (destruct sa; reflexivity);
    try (destruct sb; reflexivity);
    try (destruct sa, sb; reflexivity).
  assert (H : Pos.compare_cont Eq mb ma = CompOpp (Pos.compare_cont Eq ma mb))
    by (rewrite Pos.compare_cont_antisym; reflexivity).
  cbn. destruct sa, sb; try reflexivity; cbn;
    rewrite (Z.compare_antisym ea eb);
    destruct (ea ?= eb); cbn; try reflexivity;
    rewrite H; destruct (Pos.compare_cont Eq ma mb); reflexivity.
Qed.

(** Of two floats that are numbers, the first is below or equal to the
    second or the second is below the first. *)
Lemma float_not_le_gt (x c : float) :
  (x =? x)%float = true -> (c =? c)%float = true ->
  (x <=? c)%float = false -> (c <? x)%float = true.
Proof.
  rewrite ltb_spec, leb_spec, !eqb_spec. unfold SFltb, SFleb, SFeqb.
  rewrite (SFcompare_antisym (Prim2SF x) (Prim2SF c)).
  intros Hx Hc.
  assert (H : exists cmp, SFcompare (Prim2SF x) (Prim2SF c) = Some cmp).
  { destruct (Prim2SF x) as [sx | sx | | sx mx ex];
      destruct (Prim2SF c) as [sc | sc | | sc mc ec];
      try discriminate Hx; try discriminate Hc;
      cbn; eexists; reflexivity. }
  destruct H as [cmp E]. rewrite E. destruct cmp; cbn; congruence.
Qed.

(** [int] on a float is the truncation of the specification: where one
    gives an integer the other gives the same, and an infinity and a NaN
    have neither. *)
Lemma int_truncation (x : float) (a : Z) :
  Py.int x = Returns a <-> Spec.truncation x = Some a.
Proof.
  unfold Py.int, Spec.truncation.
  destruct (Prim2SF x) as [s | s | | s m e].
  - split; intros H; inversion H; reflexivity.
  - split; intros H; discriminate H.
  - split; intros H; discriminate H.
  - assert (E : (if s then - Z.shiftl (Z.pos m) e else Z.shiftl (Z.pos m) e)
                = (if 0 <=? e
                   then (if s then Z.neg m else Z.pos m) * 2 ^ e
                   else Z.quot (if s then Z.neg m else Z.pos m) (2 ^ (- e)))).
    { destruct (Z.leb_spec 0 e) as [He | He].
      - rewrite Z.shiftl_mul_pow2 by exact He. destruct s; [|reflexivity].
        rewrite <- Pos2Z.opp_pos. lia.
      - rewrite Z.shiftl_div_pow2 by lia.
        assert (Hp : 0 < 2 ^ (- e)) by (apply Z.pow_pos_nonneg; lia).
        destruct s.
        + rewrite <- Pos2Z.opp_pos, Z.quot_opp_l by lia.
          rewrite Z.quot_div_nonneg by lia. reflexivity.
        + rewrite Z.quot_div_nonneg by lia. reflexivity. }
    cbv zeta. rewrite E. split; intros H; inversion H; reflexivity.
Qed.

(** The calendar agrees with [datetime] on a few days. *)
Example strptime_2024_03_01 :
  Datetime.strptime "2024-03-01" = Returns 738946
  /\ Datetime.strftime 738946 = "2024-03-01"
  /\ Datetime.strftime (738946 - 1) = "2024-02-29"
  /\ Datetime.strftime 1 = "1-01-01"
  /\ Datetime.strftime 361351 = "990-05-06"
  /\ Datetime.strftime Datetime.MAXORDINAL = "9999-12-31"
  /\ Datetime.strptime "2023-02-29" = Raises ValueError
  /\ Datetime.strptime "2024-3- 1" = Returns 738946
  /\ Datetime.strptime "２０２４-03-01" = Returns 738946
  /\ Datetime.strptime "2024-03-1٣" = Returns 738958
  /\ Datetime.strptime "2024-03-32" = Raises ValueError
  /\ Datetime.strptime "2024-13-01" = Raises ValueError
  /\ Datetime.strptime "0000-01-01" = Raises ValueError
  /\ Datetime.strptime "2024-03-01 " = Raises ValueError.
Proof. vm_compute. repeat split. Qed.

(* ================================================================== *)
(** * Properties: the objective score                                   *)
(* ================================================================== *)

(** Below or at a zero buy price the score is 0, for every category. *)
Lemma calculate_objective_score_nonpositive
    (action_type : string) (buy_price sell_price : float)
    (buy_date : string) (sell_date : option string) :
  (buy_price <=? 0)%float = true ->
  calculate_objective_score action_type buy_price sell_price buy_date sell_date
  = Returns 0.
Proof.
  intros H. unfold calculate_objective_score. rewrite H. reflexivity.
Qed.

(** On the linear piece of the profit-taken category (a profit rate from
    0 up to, not including, 5) the score is the integer [int] cuts from
    [30 * (rate / 5)], kept within 0 and 100. *)
Lemma profit_taken_linear_piece
    (buy_price sell_price : float) (buy_date : string) (sell_date : option string) :
  let profit_rate := ((sell_price - buy_price) / buy_price * 100)%float in
  (0 <? buy_price)%float = true ->
  (5 <=? profit_rate)%float = false ->
  (0 <=? profit_rate)%float = true ->
  calculate_objective_score PROFIT_TAKEN buy_price sell_price buy_date sell_date
  = (score <- Py.int (30 * (profit_rate / 5))%float ;;
     Returns (Z.max 0 (Z.min 100 score))).
Proof.
  intros profit_rate Hb H5 H0.
  destruct (float_pos_not_le buy_price Hb) as [Hle Hz].
  unfold calculate_objective_score, truediv. rewrite Hle, Hz.
  cbn [Py.bind]. fold profit_rate.
  change (String.eqb PROFIT_TAKEN PROFIT_TAKEN) with true. cbv iota.
  rewrite H5, H0. reflexivity.
Qed.

Lemma returns_iff_some (c : outcome Z) (o : option Z) (f : Z -> Z) :
  (forall s, c = Returns s <-> o = Some s) ->
  forall score,
    (s <- c ;; Returns (f s)) = Returns score <-> option_map f o = Some score.
Proof.
  intros H score. destruct c as [a | e], o as [b |]; cbn.
  - assert (E : Some b = Some a) by (apply H; reflexivity).
    inversion E. subst. split; intros E'; inversion E'; reflexivity.
  - destruct (H a) as [H1 _]. discriminate (H1 eq_refl).
  - destruct (H b) as [_ H2]. discriminate (H2 eq_refl).
  - split; intros E; discriminate E.
Qed.

Lemma rewarded_refines (full : Z) (full_score cap rate : float) (s : Z) :
  (rate =? rate)%float = true ->
  (if (cap <=? rate)%float then Returns full
   else if (0 <=? rate)%float then Py.int (full_score * (rate / cap))%float
   else Returns 0) = Returns s
  <-> Spec.rewarded full full_score cap rate = Some s.
Proof.
  intros Hn. unfold Spec.rewarded.
  destruct (cap <=? rate)%float.
  - split; intros E; inversion E; reflexivity.
  - destruct (0 <=? rate)%float eqn:H0.
    + apply int_truncation.
    + rewrite (float_not_le_gt 0 rate eq_refl Hn H0).
      split; intros E; inversion E; reflexivity.
Qed.

Lemma loss_cut_refines (rate : float) (s : Z) :
  (rate =? rate)%float = true ->
  (if (0 <=? rate)%float then Returns 20
   else if (rate <=? -5)%float then Returns 20
   else Py.int (20 * (1 + rate / 5))%float) = Returns s
  <-> Spec.loss_cut rate = Some s.
Proof.
  intros Hn. unfold Spec.loss_cut.
  destruct (0 <=? rate)%float eqn:H0.
  - split; intros E; inversion E; reflexivity.
  - destruct (rate <=? -5)%float eqn:H5.
    + split; intros E; inversion E; reflexivity.
    + rewrite (float_not_le_gt rate (-5) Hn eq_refl H5).
      rewrite (float_not_le_gt 0 rate eq_refl Hn H0). cbn [andb].
      apply int_truncation.
Qed.

(** C3. For a buy price above zero and a profit rate that is a number,
    the objective score is the one the specification words, for every
    category and every pair of prices: the piecewise-linear map of the
    profit rate, its linear pieces cut to an integer by truncation toward
    zero, clamped to 0..100.  In particular profit-taken from 100 to 105
    scores 30, from 100 to 102.5 scores 15, loss-cut from 100 to 97 scores
    8; and where the formula gives 29.7 (profit-taken from 100 to 104.95)
    the score is 29, not the rounded 30. *)
Theorem objective_score_truncates (buy_date : string) (sell_date : option string) :
  (forall (action_type : string) (buy_price sell_price : float) (score : Z),
     (0 <? buy_price)%float = true ->
     let profit_rate := ((sell_price - buy_price) / buy_price * 100)%float in
     (profit_rate =? profit_rate)%float = true ->
     (calculate_objective_score action_type buy_price sell_price buy_date
        sell_date = Returns score
      <-> Spec.score_objective action_type buy_price sell_price = Some score))
  /\ calculate_objective_score PROFIT_TAKEN 100 105 buy_date sell_date
     = Returns 30
  /\ calculate_objective_score PROFIT_TAKEN 100 102.5 buy_date sell_date
     = Returns 15
  /\ calculate_objective_score LOSS_CUT 100 97 buy_date sell_date = Returns 8
  /\ (30 * (((104.95 - 100) / 100 * 100) / 5) =? 29.700000000000017)%float = true
  /\ calculate_objective_score PROFIT_TAKEN 100 104.95 buy_date sell_date
     = Returns 29.
Proof.
  split; [|repeat split; vm_compute; reflexivity].
  intros action_type buy_price sell_price score Hb rate Hn.
  destruct (float_pos_not_le buy_price Hb) as [Hle Hz].
  unfold calculate_objective_score, truediv, Spec.score_objective.
  rewrite Hle, Hz. cbn [Py.bind]. cbv zeta. fold rate.
  apply returns_iff_some. intros s.
  destruct (String.eqb action_type PROFIT_TAKEN) eqn:E1.
  { apply String.eqb_eq in E1. subst action_type.
    apply (rewarded_refines 30 30 5 rate s Hn). }
  destruct (String.eqb action_type DIP_BOUGHT) eqn:E2.
  { apply String.eqb_eq in E2. subst action_type.
    apply (rewarded_refines 30 30 10 rate s Hn). }
  destruct (String.eqb action_type RALLY_BOUGHT) eqn:E3.
  { apply String.eqb_eq in E3. subst action_type.
    apply (rewarded_refines 20 20 8 rate s Hn). }
  destruct (String.eqb action_type LOSS_CUT) eqn:E4.
  { apply String.eqb_eq in E4. subst action_type.
    apply (loss_cut_refines rate s Hn). }
  split; intros E; inversion E; reflexivity.
Qed.

(** The formula is evaluated in binary64, like everything the program
    computes: from 9.00 to 9.03 the profit rate comes out just below a
    third of a percent, the linear share just below 2, and the score is 1. *)
Example objective_score_is_binary64 :
  (30 * (((9.03 - 9) / 9 * 100) / 5) <? 2)%float = true
  /\ calculate_objective_score PROFIT_TAKEN 9 9.03 "2024-03-01" None
     = Returns 1.
Proof. split; vm_compute; reflexivity. Qed.

(** Half a percent short of the cap of the dip-bought category: the formula
    gives 28.5 and the score is 28. *)
Lemma objective_score_truncates_witness :
  Spec.score_objective DIP_BOUGHT 100 109.5 = Some 28
  /\ calculate_objective_score DIP_BOUGHT 100 109.5 "2024-03-01" None
     = Returns 28.
Proof.
  split; [reflexivity|].
  exact (proj2 (proj1 (objective_score_truncates "2024-03-01" None)
                  DIP_BOUGHT 100%float 109.5%float 28 eq_refl eq_refl)
           eq_refl).
Defined.

(* ================================================================== *)
(** * Properties: the sell classification                               *)
(* ================================================================== *)

Lemma labels_differ : PROFIT_TAKEN <> LOSS_CUT /\ RALLY_BOUGHT <> DIP_BOUGHT.
Proof. split; intros H; discriminate H. Qed.

(** C4. For two prices above zero the sell classification returns one of
    the two sell labels: profit-taken when the relative change
    [(sell - buy) / buy] is above 0.01, loss-cut when it is below -0.01,
    and otherwise (the two bounds included) profit-taken when the sell
    price is above the buy price and loss-cut when it is not. *)
Theorem detect_sell_action_type_cases
    (buy_price sell_price : float) (buy_date : string) (sell_date : option string) :
  (0 <? buy_price)%float = true ->
  (0 <? sell_price)%float = true ->
  let change := ((sell_price - buy_price) / buy_price)%float in
  detect_sell_action_type buy_price sell_price buy_date sell_date
  = Returns
      (Some (if (0.01 <? change)%float then PROFIT_TAKEN
             else if (change <? -0.01)%float then LOSS_CUT
             else if (buy_price <? sell_price)%float then PROFIT_TAKEN
             else LOSS_CUT))
  /\ exists label,
       detect_sell_action_type buy_price sell_price buy_date sell_date
       = Returns (Some label)
       /\ (label = PROFIT_TAKEN \/ label = LOSS_CUT)
       /\ PROFIT_TAKEN <> LOSS_CUT.
Proof.
  intros Hb Hs change.
  destruct (float_pos_not_le buy_price Hb) as [Hble Hbz].
  destruct (float_pos_not_le sell_price Hs) as [Hsle _].
  assert (E : detect_sell_action_type buy_price sell_price buy_date sell_date
              = Returns
                  (Some (if (0.01 <? change)%float then PROFIT_TAKEN
                         else if (change <? -0.01)%float then LOSS_CUT
                         else if (buy_price <? sell_price)%float then PROFIT_TAKEN
                         else LOSS_CUT))).
  { unfold detect_sell_action_type, truediv.
    rewrite Hble, Hsle, Hbz. cbn [orb Py.bind]. fold change.
    destruct (0.01 <? change)%float; [reflexivity|].
    destruct (change <? -0.01)%float; [reflexivity|].
    destruct (buy_price <? sell_price)%float; reflexivity. }
  split; [exact E|].
  rewrite E. eexists. split; [reflexivity|]. split; [|apply labels_differ].
  destruct (0.01 <? change)%float; [now left|].
  destruct (change <? -0.01)%float; [now right|].
  destruct (buy_price <? sell_price)%float; [now left | now right].
Qed.

(** A price pair exactly on the +1% bound: the tie-break decides. *)
Lemma detect_sell_action_type_cases_witness :
  detect_sell_action_type 100 101 "2024-03-01" (Some "2024-03-05")
  = Returns (Some PROFIT_TAKEN).
Proof.
  exact (proj1 (detect_sell_action_type_cases 100 101 "2024-03-01"
                  (Some "2024-03-05") eq_refl eq_refl)).
Defined.

(** C5, as the code has it: a price below or equal to zero raises nothing.
    The objective score is then 0 and the sell classification is absent. *)
Theorem nonpositive_price_is_answered
    (action_type : string) (buy_price sell_price : float)
    (buy_date : string) (sell_date : option string) :
  ((buy_price <=? 0)%float = true ->
   calculate_objective_score action_type buy_price sell_price buy_date sell_date
   = Returns 0)
  /\ ((buy_price <=? 0)%float = true \/ (sell_price <=? 0)%float = true ->
      detect_sell_action_type buy_price sell_price buy_date sell_date
      = Returns None).
Proof.
  split.
  - apply calculate_objective_score_nonpositive.
  - intros H. unfold detect_sell_action_type.
    destruct H as [H | H]; rewrite H.
    + reflexivity.
    + rewrite orb_true_r. reflexivity.
Qed.

Lemma nonpositive_price_is_answered_witness :
  calculate_objective_score PROFIT_TAKEN 0 105 "2024-03-01" None = Returns 0
  /\ detect_sell_action_type 100 (-1) "2024-03-01" None = Returns None.
Proof.
  split.
  - exact (proj1 (nonpositive_price_is_answered PROFIT_TAKEN 0 105
                    "2024-03-01" None) eq_refl).
  - exact (proj2 (nonpositive_price_is_answered PROFIT_TAKEN 100 (-1)
                    "2024-03-01" None) (or_intror eq_refl)).
Defined.

(** C5, as the specification states it, fails: at a zero buy price the
    score function returns the score 0 and the classification returns
    [None]; neither raises an error. *)
Lemma nonpositive_price_raises_nothing :
  calculate_objective_score PROFIT_TAKEN 0 105 "2024-03-01" None = Returns 0
  /\ detect_sell_action_type 0 105 "2024-03-01" None = Returns None
  /\ detect_sell_action_type 100 0 "2024-03-01" None = Returns None
  /\ ~ (exists e,
          calculate_objective_score PROFIT_TAKEN 0 105 "2024-03-01" None
          = Raises e)
  /\ ~ (exists e,
          detect_sell_action_type 0 105 "2024-03-01" None = Raises e).
Proof.
  repeat split; try reflexivity; intros [e H]; vm_compute in H; discriminate H.
Qed.

(* ================================================================== *)
(** * Properties: the buy classification                                *)
(* ================================================================== *)

Lemma iloc_last_nonempty (series : list float) (x : float) :
  Pandas.iloc_last series = Returns x -> series <> [].
Proof. destruct series; [discriminate | intros _ H; discriminate H]. Qed.

Lemma empty_false_iff {A : Type} (l : list A) :
  Pandas.empty l = false <-> l <> [].
Proof. destruct l; simpl; split; congruence. Qed.

Lemma head_nil {A : Type} (n : Z) : Pandas.head n (@nil A) = [].
Proof. unfold Pandas.head. destruct (0 <=? n); apply firstn_nil. Qed.

(** The halving of [pairwise_sum] never runs out: any depth from the
    number of values on gives the same sum. *)
Lemma pairwise_sum_depth (depth : nat) (a : list float) :
  (List.length a <= depth)%nat ->
  Pandas.pairwise_sum depth a = Pandas.pairwise_sum (List.length a) a.
Proof.
  assert (H : forall d1 d2 (l : list float),
            (List.length l <= d1)%nat -> (List.length l <= d2)%nat ->
            Pandas.pairwise_sum d1 l = Pandas.pairwise_sum d2 l).
  { induction d1 as [| d1 IH]; intros d2 l H1 H2.
    - destruct l; [|simpl in H1; lia]. destruct d2; reflexivity.
    - destruct d2 as [| d2].
      + destruct l; [|simpl in H2; lia]. reflexivity.
      + cbn [Pandas.pairwise_sum].
        destruct (Nat.ltb_spec (List.length l) 8); [reflexivity|].
        destruct (Nat.leb_spec (List.length l) 128); [reflexivity|].
        set (n := List.length l) in *.
        assert (Hdiv : (n / 2 < n)%nat) by (apply Nat.div_lt; lia).
        assert (Hmod : ((n / 2) mod 8 < 8)%nat)
          by (apply Nat.mod_upper_bound; lia).
        assert (Hhalf : (64 <= n / 2)%nat).
        { apply Nat.div_le_lower_bound; lia. }
        set (n2 := (n / 2 - (n / 2) mod 8)%nat).
        assert (Hn2 : (0 < n2 < n)%nat) by (unfold n2; lia).
        f_equal; apply IH.
        * rewrite length_firstn. lia.
        * rewrite length_firstn. lia.
        * rewrite length_skipn. fold n. lia.
        * rewrite length_skipn. fold n. lia. }
  intros Hd. apply H; [exact Hd | lia].
Qed.

(** The mean is numpy's, not the sum from the left: of these eight closes
    the mean is 20.00125, which is not above a buy price of 20.00125; the
    sum from the left, divided by 8, would be above it. *)
Example mean_sums_in_pairs :
  let closes := [20.0; 20.01; 20.09; 19.99; 20.14; 19.96; 19.92; 19.9]%float in
  Pandas.mean closes = 20.00125%float
  /\ (Pandas.add_all 0 closes / 8 =? 20.001250000000002)%float = true
  /\ (20.00125 <? Pandas.mean closes)%float = false
  /\ (20.00125 <? Pandas.add_all 0 closes / 8)%float = true.
Proof. vm_compute. repeat split. Qed.


(** C6, as the code has it: when the last observed close is within the
    band from 0.99 to 1.01 times the buy price, the mean of the observed
    closes decides: rallied when the mean is above the buy price, dipped
    when it is equal to it or below. *)
Theorem detect_buy_action_type_within_band
    (tushare_client : TushareClient) (stock_code buy_date : string)
    (buy_price : float) (days_to_check buy_dt end_dt : Z)
    (daily_data : DataFrame) (last_close : float) :
  is_configured tushare_client = true ->
  Datetime.strptime buy_date = Returns buy_dt ->
  Datetime.add_days buy_dt (days_to_check * 2) = Returns end_dt ->
  get_stock_daily tushare_client stock_code buy_date (Datetime.strftime end_dt)
  = Some daily_data ->
  let future_data :=
    Pandas.head days_to_check
      (filter (fun bar => buy_dt <? trade_date bar) daily_data) in
  Pandas.iloc_last (map close future_data) = Returns last_close ->
  (buy_price * 1.01 <? last_close)%float = false ->
  (last_close <? buy_price * 0.99)%float = false ->
  detect_buy_action_type tushare_client stock_code buy_date buy_price
    days_to_check
  = Some (if (buy_price <? Pandas.mean (map close future_data))%float
          then RALLY_BOUGHT else DIP_BOUGHT).
Proof.
  intros Hc Hp Ha Hd future_data Hl Hhi Hlo.
  assert (Hf : future_data <> []).
  { intros E. apply (iloc_last_nonempty _ _ Hl). rewrite E. reflexivity. }
  assert (Hflt : filter (fun bar => buy_dt <? trade_date bar) daily_data <> []).
  { intros E. apply Hf. unfold future_data. rewrite E. apply head_nil. }
  assert (Hdd : daily_data <> []).
  { intros E. apply Hflt. rewrite E. reflexivity. }
  unfold detect_buy_action_type.
  rewrite Hc, Hp. cbn [negb Py.bind]. rewrite Ha. cbn [Py.bind]. rewrite Hd.
  apply empty_false_iff in Hdd. rewrite Hdd.
  apply empty_false_iff in Hflt. rewrite Hflt.
  fold future_data.
  apply empty_false_iff in Hf. rewrite Hf.
  rewrite Hl. cbn [Py.bind]. rewrite Hhi, Hlo.
  destruct (buy_price <? Pandas.mean (map close future_data))%float;
    reflexivity.
Qed.

(** Three closes around a buy price of 100; and eight closes whose mean,
    summed as numpy sums, is exactly the buy price of 20.00125. *)
Lemma detect_buy_action_type_within_band_witness :
  detect_buy_action_type flat_client "600000" "2024-03-01" 100 5
  = Some DIP_BOUGHT
  /\ detect_buy_action_type eight_day_client "600000" "2024-03-01" 20.00125 8
     = Some DIP_BOUGHT.
Proof.
  split.
  - exact (detect_buy_action_type_within_band flat_client "600000"
             "2024-03-01" 100 5 738946 738956
             [ {| trade_date := 738946; close := 99 |};
               {| trade_date := 738949; close := 100 |};
               {| trade_date := 738950; close := 100 |} ]
             100 eq_refl eq_refl eq_refl eq_refl eq_refl eq_refl eq_refl).
  - exact (detect_buy_action_type_within_band eight_day_client "600000"
             "2024-03-01" 20.00125 8 738946 738962 eight_days 19.9
             eq_refl eq_refl eq_refl eq_refl eq_refl eq_refl eq_refl).
Defined.

(** C6, as the specification states it, fails where the mean equals the
    buy price: both observed closes are 100, the last one is within the
    band, the mean is 100, which is at least the buy price of 100, and the
    label is the dipped one, not the rallied one. *)
Lemma mean_equal_to_buy_price_is_dipped :
  let closes := [100; 100]%float in
  Pandas.iloc_last closes = Returns 100%float
  /\ (100 * 1.01 <? 100)%float = false
  /\ (100 <? 100 * 0.99)%float = false
  /\ Pandas.mean closes = 100%float
  /\ (100 <=? Pandas.mean closes)%float = true
  /\ detect_buy_action_type flat_client "600000" "2024-03-01" 100 5
     = Some DIP_BOUGHT
  /\ DIP_BOUGHT <> RALLY_BOUGHT.
Proof.
  repeat split; try (vm_compute; reflexivity).
  intros H; discriminate H.
Qed.

(* ================================================================== *)
(** * Properties: SQL helpers                                           *)
(* ================================================================== *)

Lemma fold_max_ge (ids : list Z) (i : Z) :
  In i ids -> i <= fold_right Z.max 0 ids.
Proof.
  induction ids as [| x ids IH]; simpl; [tauto|].
  intros [-> | H]; [lia | specialize (IH H); lia].
Qed.

(** AUTOINCREMENT hands out an id above every id in the table and above
    every id it handed out before. *)
Lemma next_rowid_fresh (seq : Z) (ids : list Z) :
  seq < Sql.next_rowid seq ids
  /\ forall i, In i ids -> i < Sql.next_rowid seq ids.
Proof.
  unfold Sql.next_rowid. split; [lia|].
  intros i H. pose proof (fold_max_ge ids i H). lia.
Qed.

Lemma max_of_from (column : list (option Z)) (acc : option Z) :
  let step := fun (acc : option Z) (v : option Z) =>
                match v, acc with
                | Some x, Some a => Some (Z.max a x)
                | Some x, None => Some x
                | None, _ => acc
                end in
  (forall a, acc = Some a ->
             exists m, fold_left step column acc = Some m /\ a <= m)
  /\ (forall g, In (Some g) column ->
                exists m, fold_left step column acc = Some m /\ g <= m).
Proof.
  intros step. revert acc.
  induction column as [| v column IH]; intros acc; simpl.
  - split; [intros a ->; exists a; split; [reflexivity | lia] | tauto].
  - destruct (IH (step acc v)) as [IHa IHg]. split.
    + intros a ->. destruct v as [x|]; simpl in *.
      * destruct (IHa (Z.max a x) eq_refl) as [m [E L]].
        exists m. split; [exact E | lia].
      * apply IHa. reflexivity.
    + intros g [-> | H]; [|apply IHg; exact H].
      destruct acc as [a|]; simpl in *.
      * destruct (IHa (Z.max a g) eq_refl) as [m [E L]].
        exists m. split; [exact E | lia].
      * destruct (IHa g eq_refl) as [m [E L]].
        exists m. split; [exact E | lia].
Qed.

(** [MAX(trade_group_id)] is at least every lot id in the column. *)
Lemma max_of_ge (column : list (option Z)) (g : Z) :
  In (Some g) column -> g <= Sql.coalesce (Sql.max_of column) 0.
Proof.
  intros H. destruct (max_of_from column None) as [_ Hg].
  destruct (Hg g H) as [m [E L]].
  unfold Sql.max_of. rewrite E. exact L.
Qed.

Lemma in_update_where {A : Type} (cond : A -> bool) (assign : A -> A)
    (rows : list A) (r' : A) :
  In r' (Database.update_where cond assign rows) ->
  exists r, In r rows /\ (r' = r \/ r' = assign r).
Proof.
  unfold Database.update_where. rewrite in_map_iff.
  intros [r [E H]]. exists r. split; [exact H|].
  destruct (cond r); [right | left]; symmetry; exact E.
Qed.

Lemma evolves_refl (r : TradeRow.t) : evolves r r.
Proof. unfold evolves. auto 6. Qed.

Lemma evolves_set_closed (r : TradeRow.t) : evolves r (Database.set_closed r).
Proof. unfold evolves. simpl. auto 6. Qed.

Lemma evolves_set_closed_sold
    (sell_date : option string) (sell_price : option float) (r : TradeRow.t) :
  evolves r (Database.set_closed_sold sell_date sell_price r).
Proof. unfold evolves. simpl. auto 6. Qed.

(* ================================================================== *)
(** * Properties: what each call does to [trades_new]                   *)
(* ================================================================== *)

Lemma keeps_ret {A : Type} (a : A) : keeps_trades (ret a).
Proof. intros d. split; reflexivity. Qed.

Lemma keeps_lift {A : Type} (c : outcome A) : keeps_trades (lift c).
Proof. intros d. split; reflexivity. Qed.

Lemma keeps_bind {A B : Type} (c : M A) (k : A -> M B) :
  keeps_trades c -> (forall a, keeps_trades (k a)) -> keeps_trades (bindM c k).
Proof.
  intros Hc Hk d. unfold bindM.
  specialize (Hc d). destruct (c d) as [[a | e] d1]; simpl in *.
  - destruct (Hk a d1) as [H1 H2]. rewrite H1, H2. exact Hc.
  - exact Hc.
Qed.

Lemma keeps_add_score (today : string) (score : Score.t) :
  keeps_trades (Database.add_score today score).
Proof.
  intros d. unfold Database.add_score.
  destruct (Score.action_type score), (Score.score_type score),
    (Score.score score); simpl; split; reflexivity.
Qed.

Lemma keeps_delete_score (score_id : Pandas.value) :
  keeps_trades (Database.delete_score score_id).
Proof. intros d. split; reflexivity. Qed.

Lemma keeps_save_daily_loop (today : string) (f : daily_form)
    (items : list (string * Z)) (saved_count : Z) :
  keeps_trades (save_daily_loop today f items saved_count).
Proof.
  revert saved_count.
  induction items as [| [k s] items IH]; intros n; simpl.
  - apply keeps_ret.
  - destruct (0 <? s); [|apply IH].
    apply keeps_bind; [apply keeps_add_score | intros _; apply IH].
Qed.

Lemma keeps_save_daily_scores (today : string) (f : daily_form) :
  keeps_trades (save_daily_scores today f).
Proof.
  unfold save_daily_scores.
  apply keeps_bind; [apply keeps_save_daily_loop|].
  intros n. destruct (0 <? n); apply keeps_ret.
Qed.

Lemma keeps_delete_old_scores (today_scores : list Pandas.Series) :
  keeps_trades (delete_old_scores today_scores).
Proof.
  induction today_scores as [| row rest IH]; simpl.
  - apply keeps_ret.
  - apply keeps_bind; [apply keeps_lift|]. intros v.
    apply keeps_bind; [apply keeps_delete_score | intros _; exact IH].
Qed.

(** The daily self-check never touches the trades. *)
Lemma keeps_daily_submit (today : string) (f : daily_form) :
  keeps_trades (daily_submit today f).
Proof.
  unfold daily_submit.
  destruct (calculate_total_score (subjective_scores f) =? 0);
    [apply keeps_ret|].
  intros d.
  destruct (negb (Pandas.empty _)).
  - apply (keeps_bind _ _ (keeps_delete_old_scores _)
             (fun _ => keeps_save_daily_scores today f)).
  - apply keeps_save_daily_scores.
Qed.

(** A call of [add_trade] that raises has written nothing. *)
Lemma add_trade_raises
    (today : string) (trade : Trade.t) (d d' : db) (e : exn) :
  Database.add_trade today trade d = (Raises e, d') -> d' = d.
Proof.
  unfold Database.add_trade.
  match goal with
  | |- (match ?c with Returns _ => _ | Raises _ => _ end) = _ -> _ =>
      destruct c
  end; intros E; inversion E; reflexivity.
Qed.

(** What a successful [add_trade] has done, spelled out: the five
    [NOT NULL] values were there (the buy price a number), the id is the
    next rowid, the row is appended with its prices as SQLite keeps them,
    and a sell with a lot id has updated the buy rows of its lot (never
    the row it inserted). *)
Lemma add_trade_inv
    (today : string) (trade : Trade.t) (d d' : db) (trade_id : Z) :
  Database.add_trade today trade d = (Returns trade_id, d') ->
  exists sc at_ tt bp q,
    Trade.stock_code trade = Some sc
    /\ Trade.action_type trade = Some at_
    /\ Trade.trade_type trade = Some tt
    /\ Sql.real (Trade.buy_price trade) = Some bp
    /\ Trade.quantity trade = Some q
    /\ trade_id
       = Sql.next_rowid (trades_new_seq d) (map TradeRow.id (trades_new d))
    /\ let g :=
         if String.eqb tt BUY
         then Some (Sql.coalesce
                      (Sql.max_of (map TradeRow.trade_group_id (trades_new d)))
                      0 + 1)
         else Trade.trade_group_id trade in
       let row :=
         TradeRow.mk trade_id g sc (Trade.stock_name trade) at_ tt
           (or_str (Trade.buy_date trade) today) (Trade.sell_date trade) bp
           (Sql.real (Trade.sell_price trade)) q (Trade.status trade)
           (Trade.notes trade) in
       d' = mkdb
              ((if String.eqb tt SELL && truthy_int g
                then Database.update_where (Database.is_buy_of g)
                       (Database.set_closed_sold (Trade.sell_date trade)
                          (Sql.real (Trade.sell_price trade)))
                       (trades_new d)
                else trades_new d) ++ [row])
              trade_id (scores_new d) (scores_new_seq d).
Proof.
  unfold Database.add_trade.
  destruct (if Py.eq_str (Trade.trade_type trade) BUY then Returns tt
            else Sql.bind_int (Trade.trade_group_id trade)) as [[] | e];
    [|discriminate].
  destruct (Sql.bind_int (Trade.quantity trade)) as [[] | e]; [|discriminate].
  destruct (Trade.stock_code trade) as [sc|]; [|discriminate].
  destruct (Trade.action_type trade) as [at_|]; [|discriminate].
  destruct (Trade.trade_type trade) as [tt|]; [|discriminate].
  destruct (Sql.real (Trade.buy_price trade)) as [bp|]; [|discriminate].
  destruct (Trade.quantity trade) as [q|]; [|discriminate].
  cbn [Py.bind Sql.not_null Py.eq_str]. intros E. inversion E as [[Eid Ed]].
  exists sc, at_, tt, bp, q. repeat (split; [reflexivity|]).
  cbv zeta. f_equal.
  destruct (String.eqb tt SELL) eqn:Ett; cbn [andb]; [|reflexivity].
  destruct (truthy_int _); [|reflexivity].
  apply String.eqb_eq in Ett. subst tt.
  unfold Database.update_where. rewrite map_app. f_equal.
  cbn [map]. unfold Database.is_buy_of at 1. cbn [TradeRow.trade_type].
  change (String.eqb SELL BUY) with false. rewrite andb_false_r. reflexivity.
Qed.

(** Without a category [add_trade] raises: the column is [NOT NULL]. *)
Lemma add_trade_needs_action_type
    (today : string) (trade : Trade.t) (d : db) :
  Trade.action_type trade = None ->
  exists e, Database.add_trade today trade d = (Raises e, d).
Proof.
  intros Ha.
  destruct (Database.add_trade today trade d) as [[trade_id | e] d'] eqn:E.
  - destruct (add_trade_inv _ _ _ _ _ E) as [sc [at_ [tt [bp [q [_ [H _]]]]]]].
    rewrite Ha in H. discriminate H.
  - exists e. rewrite (add_trade_raises _ _ _ _ _ E). reflexivity.
Qed.

(** The sell handler passes [action_type=None] to [add_trade], and the
    column is [NOT NULL]: the insert raises, and the handler never writes. *)
Lemma sell_submit_never_writes (today : string) (f : sell_form) (d : db) :
  snd (sell_submit today f d) = d.
Proof.
  unfold sell_submit.
  destruct (sell_price f <=? 0)%float; [reflexivity|].
  destruct (sell_quantity f <=? 0); [reflexivity|].
  destruct (_ <? sell_quantity f); [reflexivity|].
  unfold bindM at 1.
  match goal with
  | |- context [Database.add_trade today ?t d] =>
      destruct (add_trade_needs_action_type today t d eq_refl) as [e E]
  end.
  rewrite E. reflexivity.
Qed.

(** A request that passes the three guards of the sell handler, its lot
    id and quantity within 64 bits, ends in the integrity error of the
    insert. *)
Lemma sell_submit_valid_request_raises (today : string) (f : sell_form) (d : db) :
  (sell_price f <=? 0)%float = false ->
  0 < sell_quantity f ->
  sell_quantity f
  <= TradeRow.quantity (selected_trade f)
     - Database.get_sold_quantity
         (TradeRow.trade_group_id (selected_trade f)) d ->
  Sql.bind_int (TradeRow.trade_group_id (selected_trade f)) = Returns tt ->
  Sql.bind_int (Some (sell_quantity f)) = Returns tt ->
  sell_submit today f d = (Raises (IntegrityError "action_type"), d).
Proof.
  intros Hp Hq Hr Hg Hb. unfold sell_submit. rewrite Hp.
  destruct (Z.leb_spec (sell_quantity f) 0); [lia|].
  destruct (Z.ltb_spec
              (TradeRow.quantity (selected_trade f)
               - Database.get_sold_quantity
                   (TradeRow.trade_group_id (selected_trade f)) d)
              (sell_quantity f)); [lia|].
  unfold bindM at 1, Database.add_trade.
  cbn [Trade.trade_type Trade.trade_group_id Trade.quantity Trade.stock_code
       Trade.action_type Py.eq_str].
  change (String.eqb SELL BUY) with false. cbv iota.
  rewrite Hg, Hb. reflexivity.
Qed.

Ltac unchanged :=
  cbn; split;
  [ lia
  | intros r' Hr'; left; exists r'; split; [exact Hr' | apply evolves_refl] ].

(** After [add_trade], a row of the table is a row it had, evolved, or
    carries an id AUTOINCREMENT had not handed out. *)
Lemma add_trade_rows (today : string) (trade : Trade.t) (d : db) :
  let d' := snd (Database.add_trade today trade d) in
  trades_new_seq d <= trades_new_seq d'
  /\ forall r', In r' (trades_new d') ->
       (exists r, In r (trades_new d) /\ evolves r r')
       \/ trades_new_seq d < TradeRow.id r'.
Proof.
  cbn zeta.
  destruct (Database.add_trade today trade d) as [[trade_id | e] d'] eqn:E;
    cbn [snd].
  - destruct (add_trade_inv _ _ _ _ _ E)
      as [sc [at_ [tt [bp [q [_ [_ [_ [_ [_ [Hid Hd]]]]]]]]]]].
    cbv zeta in Hd.
    destruct (next_rowid_fresh (trades_new_seq d)
                (map TradeRow.id (trades_new d))) as [Hi _].
    rewrite <- Hid in Hi.
    rewrite Hd. cbn [trades_new trades_new_seq]. split; [lia|].
    intros r' Hr'. apply in_app_or in Hr'. destruct Hr' as [Hr' | [<- | []]].
    + left. destruct (String.eqb tt SELL && truthy_int _).
      * apply in_update_where in Hr'.
        destruct Hr' as [r [Hr [-> | ->]]]; exists r; split; try exact Hr;
          [apply evolves_refl | apply evolves_set_closed_sold].
      * exists r'. split; [exact Hr' | apply evolves_refl].
    + right. cbn. exact Hi.
  - rewrite (add_trade_raises _ _ _ _ _ E). split; [lia|].
    intros r' Hr'. left. exists r'. split; [exact Hr' | apply evolves_refl].
Qed.

Lemma update_trade_status_rows (trade_group_id : option Z) (d : db) :
  let d' := snd (Database.update_trade_status trade_group_id d) in
  trades_new_seq d <= trades_new_seq d'
  /\ forall r', In r' (trades_new d') ->
       (exists r, In r (trades_new d) /\ evolves r r')
       \/ trades_new_seq d < TradeRow.id r'.
Proof.
  unfold Database.update_trade_status.
  destruct (find _ (trades_new d)) as [buy|]; [|unchanged].
  destruct (TradeRow.quantity buy <=? _); [|unchanged].
  cbn. split; [lia|].
  intros r' Hr'. apply in_update_where in Hr'.
  destruct Hr' as [r [Hr [-> | ->]]]; left; exists r; split; try exact Hr.
  - apply evolves_refl.
  - apply evolves_set_closed.
Qed.

Lemma delete_trade_rows (trade_id : Z) (d : db) :
  let d' := snd (Database.delete_trade trade_id d) in
  trades_new_seq d <= trades_new_seq d'
  /\ forall r', In r' (trades_new d') ->
       (exists r, In r (trades_new d) /\ evolves r r')
       \/ trades_new_seq d < TradeRow.id r'.
Proof.
  cbn. split; [lia|].
  intros r' Hr'. apply filter_In in Hr'. destruct Hr' as [Hr' _].
  left. exists r'. split; [exact Hr' | apply evolves_refl].
Qed.

Lemma keeps_rows {A : Type} (c : M A) (d : db) :
  keeps_trades c ->
  let d' := snd (c d) in
  trades_new_seq d <= trades_new_seq d'
  /\ forall r', In r' (trades_new d') ->
       (exists r, In r (trades_new d) /\ evolves r r')
       \/ trades_new_seq d < TradeRow.id r'.
Proof.
  intros H. destruct (H d) as [H1 H2]. cbn zeta. rewrite H1, H2.
  split; [lia|]. intros r' Hr'. left. exists r'.
  split; [exact Hr' | apply evolves_refl].
Qed.

(** Every call keeps the rowid counter from falling and hands the rows on
    evolved, or adds rows with fresh ids. *)
Lemma step_rows (today : string) (op : operation) (d : db) :
  trades_new_seq d <= trades_new_seq (step today op d)
  /\ forall r', In r' (trades_new (step today op d)) ->
       (exists r, In r (trades_new d) /\ evolves r r')
       \/ trades_new_seq d < TradeRow.id r'.
Proof.
  destruct op; cbn [step].
  - apply add_trade_rows.
  - apply (keeps_rows _ d (keeps_add_score today score)).
  - apply update_trade_status_rows.
  - apply delete_trade_rows.
  - apply (keeps_rows _ d (keeps_delete_score score_id)).
  - rewrite sell_submit_never_writes. split; [lia|].
    intros r' Hr'. left. exists r'. split; [exact Hr' | apply evolves_refl].
  - apply (keeps_rows _ d (keeps_daily_submit today f)).
Qed.

(* ================================================================== *)
(** * Properties: the closed status is terminal                         *)
(* ================================================================== *)

Lemma closed_at_step (today : string) (op : operation) (d : db) (i : Z) :
  i <= trades_new_seq d -> closed_at i d ->
  i <= trades_new_seq (step today op d) /\ closed_at i (step today op d).
Proof.
  intros Hi Hc. destruct (step_rows today op d) as [Hseq Hrows].
  split; [lia|].
  intros r' Hr' Hid. destruct (Hrows r' Hr') as [[r [Hr E]] | Hnew]; [|lia].
  destruct E as [Eid [_ [_ [_ [Es | Es]]]]]; [|exact Es].
  rewrite Es. apply Hc; [exact Hr | congruence].
Qed.

(** In the invariant form: rows with an id that has been handed out,
    all closed, are all closed after any sequence of calls. *)
Lemma closed_at_run
    (today : string) (ops : list operation) (d : db) (i : Z) :
  i <= trades_new_seq d ->
  closed_at i d ->
  closed_at i (run today ops d).
Proof.
  unfold run. revert d.
  induction ops as [| op ops IH]; intros d Hi Hc; simpl; [exact Hc|].
  destruct (closed_at_step today op d i Hi Hc) as [Hi' Hc'].
  apply IH; assumption.
Qed.

Lemma map_id_update_where
    (cond : TradeRow.t -> bool) (assign : TradeRow.t -> TradeRow.t)
    (rows : list TradeRow.t) :
  (forall r, TradeRow.id (assign r) = TradeRow.id r) ->
  map TradeRow.id (Database.update_where cond assign rows)
  = map TradeRow.id rows.
Proof.
  intros H. unfold Database.update_where. rewrite map_map.
  apply map_ext. intros r. destruct (cond r); [apply H | reflexivity].
Qed.

Lemma NoDup_filter_map (keep : TradeRow.t -> bool) (rows : list TradeRow.t) :
  NoDup (map TradeRow.id rows) -> NoDup (map TradeRow.id (filter keep rows)).
Proof.
  induction rows as [| r rows IH]; simpl; [auto|].
  intros H. inversion H as [| x l Hn Hd]; subst.
  destruct (keep r); simpl; [|auto].
  constructor; [|auto].
  intros Hin. apply Hn. apply in_map_iff in Hin.
  destruct Hin as [r0 [E H0]]. apply filter_In in H0.
  rewrite <- E. apply in_map. tauto.
Qed.

(** The table of trades of a database made by the calls is well formed. *)
Lemma well_formed_step (today : string) (op : operation) (d : db) :
  well_formed d -> well_formed (step today op d).
Proof.
  intros [Hnd Hb].
  assert (Hsame : forall d', trades_new d' = trades_new d ->
                             trades_new_seq d' = trades_new_seq d ->
                             well_formed d').
  { intros d' E1 E2. unfold well_formed. rewrite E1, E2. split; assumption. }
  destruct op; cbn [step].
  - destruct (Database.add_trade today trade d) as [[trade_id | e] d'] eqn:E;
      cbn [snd].
    + destruct (add_trade_inv _ _ _ _ _ E)
        as [sc [at_ [tt [bp [q [_ [_ [_ [_ [_ [Hid Hd]]]]]]]]]]].
      cbv zeta in Hd.
      destruct (next_rowid_fresh (trades_new_seq d)
                  (map TradeRow.id (trades_new d))) as [Hi Hfresh].
      rewrite <- Hid in Hi, Hfresh.
      rewrite Hd. unfold well_formed. cbn [trades_new trades_new_seq].
      match goal with
      | |- context [(?old ++ [?r])%list] =>
          assert (Eids : map TradeRow.id (old ++ [r])
                         = (map TradeRow.id (trades_new d) ++ [trade_id])%list)
      end.
      { rewrite map_app. f_equal.
        destruct (String.eqb tt SELL && truthy_int _); [|reflexivity].
        apply map_id_update_where. reflexivity. }
      split.
      * rewrite Eids. apply NoDup_app; [exact Hnd | repeat constructor; auto |].
        intros x Hx [Ex | []]. specialize (Hfresh x Hx). lia.
      * intros r Hr. apply (in_map TradeRow.id) in Hr. rewrite Eids in Hr.
        apply in_app_or in Hr. destruct Hr as [Hr | [<- | []]]; [|lia].
        apply in_map_iff in Hr. destruct Hr as [r0 [E0 H0]].
        specialize (Hb r0 H0). lia.
    + rewrite (add_trade_raises _ _ _ _ _ E). split; assumption.
  - destruct (keeps_add_score today score d). apply Hsame; assumption.
  - unfold Database.update_trade_status.
    destruct (find _ (trades_new d)); [|split; assumption].
    destruct (_ <=? _); [|split; assumption].
    unfold well_formed. cbn [snd trades_new trades_new_seq].
    split.
    + rewrite map_id_update_where by reflexivity. exact Hnd.
    + intros r Hr. apply (in_map TradeRow.id) in Hr.
      rewrite map_id_update_where in Hr by reflexivity.
      apply in_map_iff in Hr. destruct Hr as [r0 [E H0]].
      specialize (Hb r0 H0). lia.
  - unfold well_formed. cbn [Database.delete_trade snd trades_new trades_new_seq].
    split.
    + apply NoDup_filter_map. exact Hnd.
    + intros r Hr. apply filter_In in Hr. apply Hb. tauto.
  - destruct (keeps_delete_score score_id d). apply Hsame; assumption.
  - rewrite sell_submit_never_writes. split; assumption.
  - destruct (keeps_daily_submit today f d). apply Hsame; assumption.
Qed.

Lemma well_formed_run (today : string) (ops : list operation) (d : db) :
  well_formed d -> well_formed (run today ops d).
Proof.
  unfold run. revert d.
  induction ops as [| op ops IH]; intros d H; simpl; [exact H|].
  apply IH, well_formed_step, H.
Qed.

(** Every database the calls make from the empty one is well formed. *)
Lemma well_formed_reachable (today : string) (ops : list operation) :
  well_formed (run today ops empty_db).
Proof.
  apply well_formed_run. split; [constructor | intros r []].
Qed.

Lemma same_id_same_row (d : db) (r r0 : TradeRow.t) :
  well_formed d -> In r (trades_new d) -> In r0 (trades_new d) ->
  TradeRow.id r0 = TradeRow.id r -> r0 = r.
Proof.
  intros [Hnd _]. induction (trades_new d) as [| x rows IH]; simpl; [tauto|].
  inversion Hnd as [| y l Hn Hd]; subst.
  intros [-> | Hr] [-> | H0] E.
  - reflexivity.
  - exfalso. apply Hn. rewrite <- E. apply in_map. exact H0.
  - exfalso. apply Hn. rewrite E. apply in_map. exact Hr.
  - apply IH; assumption.
Qed.

(** C8. The closed status is terminal: in a well-formed database (row ids
    distinct and handed out by AUTOINCREMENT, as in every database the
    calls make), once a row is closed, then after any sequence of ledger
    calls (inserts of buys and sells, status recomputations, deletions,
    score writes, the sell and daily handlers) the row with that id, if it
    is still there, is closed. *)
Theorem closed_is_terminal
    (today : string) (ops : list operation) (d : db) (r : TradeRow.t) :
  well_formed d ->
  In r (trades_new d) ->
  TradeRow.status r = Some CLOSED ->
  forall r', In r' (trades_new (run today ops d)) ->
             TradeRow.id r' = TradeRow.id r ->
             TradeRow.status r' = Some CLOSED.
Proof.
  intros Hwf Hr Hs.
  apply closed_at_run.
  - destruct Hwf as [_ Hb]. apply Hb, Hr.
  - intros r0 H0 E.
    rewrite (same_id_same_row d r r0 Hwf Hr H0 E). exact Hs.
Qed.

Lemma closed_is_terminal_witness :
  map lot_view (trades_new closed_lot)
  = [ (1, Some 1, BUY, 1000, Some CLOSED);
      (2, Some 1, SELL, 1000, Some CLOSED) ]
  /\ map lot_view (trades_new (run TODAY later_calls closed_lot))
     = [ (1, Some 1, BUY, 1000, Some CLOSED);
         (3, Some 1, SELL, 5, Some CLOSED);
         (4, Some 2, BUY, 10, Some OPEN) ]
  /\ forall r', In r' (trades_new (run TODAY later_calls closed_lot)) ->
                TradeRow.id r' = 1 ->
                TradeRow.status r' = Some CLOSED.
Proof.
  split; [vm_compute; reflexivity|]. split; [vm_compute; reflexivity|].
  exact (closed_is_terminal TODAY later_calls closed_lot
           (Database.set_closed_sold (Some "2024-03-05") (Some 11%float)
              one_lot_buy_row)
           (well_formed_reachable TODAY
              [AddTrade (buy_of 1000); AddTrade (sell_of 1 1000)])
           (or_introl eq_refl) eq_refl).
Defined.

(* ================================================================== *)
(** * Properties: the status of a lot after a sell                      *)
(* ================================================================== *)

Lemma in_update_where_cond {A : Type} (cond : A -> bool) (assign : A -> A)
    (rows : list A) (r' : A) :
  In r' (Database.update_where cond assign rows) ->
  exists r, In r rows
            /\ ((cond r = false /\ r' = r) \/ (cond r = true /\ r' = assign r)).
Proof.
  unfold Database.update_where. rewrite in_map_iff.
  intros [r [E H]]. exists r. split; [exact H|].
  destruct (cond r); [right | left]; split; auto.
Qed.

Lemma is_buy_of_set_closed_sold
    (g : option Z) (sd : option string) (sp : option float) (r : TradeRow.t) :
  Database.is_buy_of g (Database.set_closed_sold sd sp r)
  = Database.is_buy_of g r.
Proof. reflexivity. Qed.

(** A sell that [add_trade] inserts closes every buy row of its lot,
    whatever the quantities. *)
Lemma add_trade_sell_closes
    (today : string) (trade : Trade.t) (d d' : db) (g trade_id : Z) :
  Trade.trade_type trade = Some SELL ->
  Trade.trade_group_id trade = Some g ->
  g <> 0 ->
  Database.add_trade today trade d = (Returns trade_id, d') ->
  forall r', In r' (trades_new d') ->
             Database.is_buy_of (Some g) r' = true ->
             TradeRow.status r' = Some CLOSED.
Proof.
  intros Ht Hg Hnz E.
  destruct (add_trade_inv _ _ _ _ _ E)
    as [sc [at_ [tt [bp [q [_ [_ [Htt [_ [_ [Hid Hd]]]]]]]]]]].
  rewrite Ht in Htt. inversion Htt. subst tt. clear Htt.
  cbv zeta in Hd. rewrite Hg in Hd.
  change (String.eqb SELL BUY) with false in Hd.
  change (String.eqb SELL SELL) with true in Hd.
  cbv iota in Hd.
  assert (Hz : truthy_int (Some g) = true).
  { unfold truthy_int. destruct (Z.eqb_spec g 0); [contradiction | reflexivity]. }
  rewrite Hz in Hd. cbn [andb] in Hd.
  rewrite Hd. cbn [trades_new]. intros r' Hr' Hb.
  apply in_app_or in Hr'. destruct Hr' as [Hr' | [<- | []]].
  - apply in_update_where_cond in Hr'.
    destruct Hr' as [r [_ [[Hc ->] | [_ ->]]]]; [congruence | reflexivity].
  - unfold Database.is_buy_of in Hb. cbn [TradeRow.trade_type] in Hb.
    change (String.eqb SELL BUY) with false in Hb.
    rewrite andb_false_r in Hb. discriminate Hb.
Qed.

(** [update_trade_status] leaves the database as it is while the sold
    quantity is below the bought one. *)
Lemma update_trade_status_keeps_open
    (trade_group_id : option Z) (d : db) (buy : TradeRow.t) :
  find (Database.is_buy_of trade_group_id) (trades_new d) = Some buy ->
  Database.get_sold_quantity trade_group_id d < TradeRow.quantity buy ->
  Database.update_trade_status trade_group_id d = (Returns true, d).
Proof.
  intros Hf Hlt. unfold Database.update_trade_status. rewrite Hf.
  destruct (Z.leb_spec (TradeRow.quantity buy)
              (Database.get_sold_quantity trade_group_id d)); [lia|].
  reflexivity.
Qed.

(** C1, on the code: a buy of 1000 shares is open; after [add_trade]
    inserts a sell of 400 shares of that lot, 400 of 1000 shares are sold
    and the buy row is closed. *)
Theorem partial_sell_closes_the_lot :
  let d := run TODAY [AddTrade (buy_of 1000); AddTrade (sell_of 1 400)]
             empty_db in
  map lot_view (trades_new one_lot) = [(1, Some 1, BUY, 1000, Some OPEN)]
  /\ Database.get_sold_quantity (Some 1) d = 400
  /\ map lot_view (trades_new d)
     = [ (1, Some 1, BUY, 1000, Some CLOSED);
         (2, Some 1, SELL, 400, Some CLOSED) ]
  /\ Database.get_active_trades d = [].
Proof.
  vm_compute. repeat split.
Qed.

(* ================================================================== *)
(** * Properties: the lot id of a buy                                   *)
(* ================================================================== *)

(** C7, as the code has it: while the largest lot id in the table is
    below [2^63 - 1] (where SQLite adds in integers), the lot id stored on
    a new buy row is one more than that largest lot id (1 when there is
    none), so no row of the table carries it yet; the row's own id is the
    next AUTOINCREMENT id, above every id in the table. *)
Theorem add_trade_buy_lot_id
    (today : string) (trade : Trade.t) (d d' : db) (trade_id : Z) :
  Trade.trade_type trade = Some BUY ->
  Sql.coalesce (Sql.max_of (map TradeRow.trade_group_id (trades_new d))) 0
  < 2 ^ 63 - 1 ->
  Database.add_trade today trade d = (Returns trade_id, d') ->
  exists row,
    trades_new d' = (trades_new d ++ [row])%list
    /\ TradeRow.id row = trade_id
    /\ TradeRow.status row = Trade.status trade
    /\ TradeRow.trade_group_id row
       = Some (Sql.coalesce
                 (Sql.max_of (map TradeRow.trade_group_id (trades_new d))) 0
               + 1)
    /\ (forall r, In r (trades_new d) ->
          Sql.eq_int (TradeRow.trade_group_id r) (TradeRow.trade_group_id row)
          = false)
    /\ (forall r, In r (trades_new d) -> TradeRow.id r < trade_id).
Proof.
  intros Ht _ E.
  destruct (add_trade_inv _ _ _ _ _ E)
    as [sc [at_ [tt [bp [q [_ [_ [Htt [_ [_ [Hid Hd]]]]]]]]]]].
  rewrite Ht in Htt. inversion Htt. subst tt. clear Htt.
  cbv zeta in Hd.
  change (String.eqb BUY BUY) with true in Hd.
  change (String.eqb BUY SELL) with false in Hd.
  cbn [andb] in Hd. cbv iota in Hd.
  eexists. rewrite Hd.
  cbn [trades_new TradeRow.id TradeRow.status TradeRow.trade_group_id].
  split; [reflexivity|]. split; [reflexivity|]. split; [reflexivity|].
  split; [reflexivity|]. split.
  - intros r Hr. unfold Sql.eq_int.
    destruct (TradeRow.trade_group_id r) as [gr|] eqn:Eg; [|reflexivity].
    assert (Hin : In (Some gr) (map TradeRow.trade_group_id (trades_new d))).
    { rewrite <- Eg. apply in_map. exact Hr. }
    pose proof (max_of_ge _ _ Hin). apply Z.eqb_neq. lia.
  - intros r Hr. rewrite Hid. apply next_rowid_fresh. apply in_map. exact Hr.
Qed.

Lemma add_trade_buy_lot_id_witness :
  exists row,
    trades_new (snd (Database.add_trade TODAY (buy_of 500) closed_lot))
    = (trades_new closed_lot ++ [row])%list
    /\ TradeRow.id row = 3
    /\ TradeRow.status row = Some OPEN
    /\ TradeRow.trade_group_id row = Some 2
    /\ (forall r, In r (trades_new closed_lot) ->
          Sql.eq_int (TradeRow.trade_group_id r) (TradeRow.trade_group_id row)
          = false)
    /\ (forall r, In r (trades_new closed_lot) -> TradeRow.id r < 3).
Proof.
  exact (add_trade_buy_lot_id TODAY (buy_of 500) closed_lot
           (snd (Database.add_trade TODAY (buy_of 500) closed_lot)) 3
           eq_refl eq_refl eq_refl).
Defined.

(** C7, as the specification states it, fails: after a buy and its sell
    the next buy gets row id 3 and lot id 2; after a buy and its deletion
    the next buy gets row id 2 and lot id 1. *)
Lemma lot_id_differs_from_row_id :
  map lot_view
    (trades_new
       (run TODAY
          [AddTrade (buy_of 1000); AddTrade (sell_of 1 1000);
           AddTrade (buy_of 500)] empty_db))
  = [ (1, Some 1, BUY, 1000, Some CLOSED);
      (2, Some 1, SELL, 1000, Some CLOSED);
      (3, Some 2, BUY, 500, Some OPEN) ]
  /\ map lot_view
       (trades_new
          (run TODAY
             [AddTrade (buy_of 1000); DeleteTrade 1; AddTrade (buy_of 500)]
             empty_db))
     = [ (2, Some 1, BUY, 500, Some OPEN) ]
  /\ Some 3 <> Some 2.
Proof.
  split; [vm_compute; reflexivity|]. split; [vm_compute; reflexivity|].
  intros H; discriminate H.
Qed.

(* ================================================================== *)
(** * Properties: the capacity of a lot                                 *)
(* ================================================================== *)

Lemma sold_update_where
    (g : option Z) (cond : TradeRow.t -> bool) (assign : TradeRow.t -> TradeRow.t)
    (rows : list TradeRow.t) :
  (forall r, Database.is_sell_of g (assign r) = Database.is_sell_of g r
             /\ TradeRow.quantity (assign r) = TradeRow.quantity r) ->
  map TradeRow.quantity
    (filter (Database.is_sell_of g) (Database.update_where cond assign rows))
  = map TradeRow.quantity (filter (Database.is_sell_of g) rows).
Proof.
  intros H. induction rows as [| r rows IH]; [reflexivity|].
  unfold Database.update_where in *. simpl.
  destruct (cond r).
  - destruct (H r) as [Hs Hq]. rewrite Hs.
    destruct (Database.is_sell_of g r); simpl; rewrite IH; congruence.
  - destruct (Database.is_sell_of g r); simpl; rewrite IH; reflexivity.
Qed.

Lemma sum_app (xs ys : list Z) :
  fold_right Z.add 0 (xs ++ ys) = fold_right Z.add 0 xs + fold_right Z.add 0 ys.
Proof. induction xs as [| x xs IH]; simpl; [reflexivity | rewrite IH; lia]. Qed.

(** A sell row that [add_trade] inserts adds its quantity to the sold
    quantity of its lot and changes nothing else of it. *)
Lemma add_trade_sell_sold
    (today : string) (trade : Trade.t) (d d' : db) (g q trade_id : Z) :
  Trade.trade_type trade = Some SELL ->
  Trade.trade_group_id trade = Some g ->
  Trade.quantity trade = Some q ->
  Database.add_trade today trade d = (Returns trade_id, d') ->
  Database.get_sold_quantity (Some g) d'
  = Database.get_sold_quantity (Some g) d + q.
Proof.
  intros Ht Hg Hq E.
  destruct (add_trade_inv _ _ _ _ _ E)
    as [sc [at_ [tt [bp [q0 [_ [_ [Htt [_ [Hq0 [Hid Hd]]]]]]]]]]].
  rewrite Ht in Htt. inversion Htt. subst tt. clear Htt.
  rewrite Hq in Hq0. inversion Hq0. subst q0. clear Hq0.
  cbv zeta in Hd. rewrite Hg in Hd.
  change (String.eqb SELL BUY) with false in Hd. cbv iota in Hd.
  unfold Database.get_sold_quantity. rewrite Hd. cbn [trades_new].
  rewrite filter_app, map_app, sum_app.
  match goal with
  | |- context [filter ?p (if ?c then ?u else ?o)] =>
      assert (Hold : map TradeRow.quantity (filter p (if c then u else o))
                     = map TradeRow.quantity (filter p o))
  end.
  { destruct (_ && _); [|reflexivity].
    apply sold_update_where. intros r. split; reflexivity. }
  rewrite Hold.
  match goal with
  | |- context [filter ?p [?r]] =>
      assert (Hnew : p r = true)
        by (unfold Database.is_sell_of, Sql.eq_int; cbn;
            rewrite Z.eqb_refl; reflexivity)
  end.
  cbn [filter]. rewrite Hnew. cbn. lia.
Qed.

(** What the sell handler answers, by its three guards in their order:
    one of the three refusals, the database untouched, or, past them, the
    exception of the insert. *)
Lemma sell_submit_cases (today : string) (f : sell_form) (d : db) :
  let bought := TradeRow.quantity (selected_trade f) in
  let sold :=
    Database.get_sold_quantity (TradeRow.trade_group_id (selected_trade f)) d in
  ((sell_price f <=? 0)%float = true
   /\ sell_submit today f d = (Returns MissingSellPrice, d))
  \/ ((sell_price f <=? 0)%float = false /\ sell_quantity f <= 0
      /\ sell_submit today f d = (Returns MissingSellQuantity, d))
  \/ ((sell_price f <=? 0)%float = false /\ 0 < sell_quantity f
      /\ bought < sell_quantity f + sold
      /\ sell_submit today f d
         = (Returns (CapacityExceeded (bought - sold)), d))
  \/ ((sell_price f <=? 0)%float = false /\ 0 < sell_quantity f
      /\ sell_quantity f + sold <= bought
      /\ exists e, sell_submit today f d = (Raises e, d)).
Proof.
  intros bought sold. unfold sell_submit. fold bought. fold sold.
  destruct (sell_price f <=? 0)%float; [left; split; reflexivity|].
  right.
  destruct (Z.leb_spec (sell_quantity f) 0);
    [left; repeat split; assumption|].
  right.
  destruct (Z.ltb_spec (bought - sold) (sell_quantity f));
    [left; repeat split; try assumption; lia|].
  right. split; [reflexivity|]. split; [assumption|]. split; [lia|].
  unfold bindM at 1.
  match goal with
  | |- context [Database.add_trade today ?t d] =>
      destruct (add_trade_needs_action_type today t d eq_refl) as [e E]
  end.
  exists e. rewrite E. reflexivity.
Qed.

(** C2, as the code has it.  The capacity is checked by the sell handler,
    as its third guard: a price that is not above zero is refused first,
    then a quantity that is not above zero, each with its own message;
    then the request is refused with [CapacityExceeded] and the remaining
    quantity, exactly when its quantity added to the quantity sold exceeds
    the bought quantity.  Every refusal leaves the database as it was, and
    a request that is not refused fits the capacity.  [add_trade] itself
    checks nothing: a sell row it inserts adds its quantity to the sold
    quantity of its lot, which is then within the bought quantity exactly
    when the row fitted. *)
Theorem sell_submit_capacity (today : string) (f : sell_form) (d : db) :
  let lot := TradeRow.trade_group_id (selected_trade f) in
  let bought := TradeRow.quantity (selected_trade f) in
  let sold := Database.get_sold_quantity lot d in
  ((sell_price f <=? 0)%float = true ->
   sell_submit today f d = (Returns MissingSellPrice, d))
  /\ ((sell_price f <=? 0)%float = false ->
      sell_quantity f <= 0 ->
      sell_submit today f d = (Returns MissingSellQuantity, d))
  /\ ((sell_price f <=? 0)%float = false ->
      0 < sell_quantity f ->
      bought < sell_quantity f + sold ->
      sell_submit today f d = (Returns (CapacityExceeded (bought - sold)), d))
  /\ (forall remaining,
        fst (sell_submit today f d) = Returns (CapacityExceeded remaining) ->
        (sell_price f <=? 0)%float = false /\ 0 < sell_quantity f
        /\ bought < sell_quantity f + sold /\ remaining = bought - sold)
  /\ (fst (sell_submit today f d) <> Returns MissingSellPrice ->
      fst (sell_submit today f d) <> Returns MissingSellQuantity ->
      (forall remaining,
         fst (sell_submit today f d) <> Returns (CapacityExceeded remaining)) ->
      (sell_price f <=? 0)%float = false /\ 0 < sell_quantity f
      /\ sell_quantity f + sold <= bought)
  /\ (forall trade g q trade_id d',
        lot = Some g ->
        Trade.trade_type trade = Some SELL ->
        Trade.trade_group_id trade = Some g ->
        Trade.quantity trade = Some q ->
        Database.add_trade today trade d = (Returns trade_id, d') ->
        Database.get_sold_quantity lot d' = sold + q
        /\ (Database.get_sold_quantity lot d' <= bought <-> q + sold <= bought)).
Proof.
  intros lot bought sold.
  pose proof (sell_submit_cases today f d) as H. cbn zeta in H.
  fold lot in H. fold bought in H. fold sold in H.
  split; [|split; [|split; [|split; [|split]]]].
  - intros Hp.
    destruct H as [[_ E] | [[Hn _] | [[Hn _] | [Hn _]]]];
      [exact E | congruence ..].
  - intros Hp Hq.
    destruct H as [[Hn _] | [[_ [_ E]] | [[_ [Hpos _]] | [_ [Hpos _]]]]];
      [congruence | exact E | lia | lia].
  - intros Hp Hq Hover.
    destruct H as [[Hn _] | [[_ [Hneg _]] | [[_ [_ [_ E]]] | [_ [_ [Hfit _]]]]]];
      [congruence | lia | exact E | lia].
  - intros remaining Hc.
    destruct H as [[_ E] | [[_ [_ E]] | [[Hp [Hq [Hover E]]] | [_ [_ [_ [e E]]]]]]];
      rewrite E in Hc; cbn [fst] in Hc; try discriminate Hc.
    inversion Hc. auto.
  - intros H1 H2 H3.
    destruct H as [[_ E] | [[_ [_ E]] | [[_ [_ [_ E]]] | [Hp [Hq [Hfit _]]]]]].
    + rewrite E in H1. contradiction H1. reflexivity.
    + rewrite E in H2. contradiction H2. reflexivity.
    + rewrite E in H3. contradiction (H3 (bought - sold)). reflexivity.
    + auto.
  - intros trade g q trade_id d' Hlot Ht Hg Hq E.
    subst sold. rewrite Hlot in *.
    rewrite (add_trade_sell_sold today trade d d' g q trade_id Ht Hg Hq E).
    split; [reflexivity | lia].
Qed.

Lemma sell_submit_capacity_witness :
  sell_submit TODAY (sell_form_of 2000 11) one_lot
  = (Returns (CapacityExceeded 1000), one_lot)
  /\ sell_submit TODAY (sell_form_of 2000 0) one_lot
     = (Returns MissingSellPrice, one_lot)
  /\ sell_submit TODAY (sell_form_of 0 11) one_lot
     = (Returns MissingSellQuantity, one_lot)
  /\ (0 < 1 /\ 1 + Database.get_sold_quantity (Some 1) one_lot <= 1000)
  /\ Database.get_sold_quantity (Some 1)
       (snd (Database.add_trade TODAY (sell_of 1 400) one_lot)) = 400.
Proof.
  split; [|split; [|split; [|split]]].
  - exact (proj1 (proj2 (proj2 (sell_submit_capacity TODAY
                                  (sell_form_of 2000 11) one_lot)))
             eq_refl eq_refl eq_refl).
  - exact (proj1 (sell_submit_capacity TODAY (sell_form_of 2000 0) one_lot)
             eq_refl).
  - exact (proj1 (proj2 (sell_submit_capacity TODAY (sell_form_of 0 11)
                           one_lot))
             eq_refl ltac:(vm_compute; discriminate)).
  - destruct (proj1 (proj2 (proj2 (proj2 (proj2
                (sell_submit_capacity TODAY (sell_form_of 1 11) one_lot)))))
                ltac:(vm_compute; discriminate)
                ltac:(vm_compute; discriminate)
                ltac:(intros remaining; vm_compute; discriminate))
      as [_ Hfit].
    exact Hfit.
  - exact (proj1
             (proj2 (proj2 (proj2 (proj2 (proj2
                (sell_submit_capacity TODAY (sell_form_of 400 11) one_lot)))))
                (sell_of 1 400) 1 400 2
                (snd (Database.add_trade TODAY (sell_of 1 400) one_lot))
                eq_refl eq_refl eq_refl eq_refl eq_refl)).
Defined.

(** C2, as the specification states it, fails twice.  [add_trade] checks no
    capacity: on a lot of 1000 shares with nothing sold it inserts a sell
    of 2000 shares.  And the handler answers an oversized request whose
    price is zero with the missing-price message, not with
    [CapacityExceeded]. *)
Lemma oversized_sell_is_not_refused_for_capacity :
  Database.get_active_trades one_lot = [one_lot_buy_row]
  /\ Database.get_sold_quantity (Some 1) one_lot = 0
  /\ fst (Database.add_trade TODAY (sell_of 1 2000) one_lot) = Returns 2
  /\ Database.get_sold_quantity (Some 1)
       (snd (Database.add_trade TODAY (sell_of 1 2000) one_lot)) = 2000
  /\ sell_submit TODAY (sell_form_of 2000 0) one_lot
     = (Returns MissingSellPrice, one_lot).
Proof.
  repeat split; vm_compute; reflexivity.
Qed.

(* ================================================================== *)
(** * Properties: the daily self-check                                  *)
(* ================================================================== *)

Lemma leb_refl (s : string) : String.leb s s = true.
Proof. destruct (String.leb_total s s); assumption. Qed.

Lemma in_insert_sorted {A : Type} (le : A -> A -> bool) (a x : A) (l : list A) :
  In x (Database.insert_sorted le a l) <-> x = a \/ In x l.
Proof.
  induction l as [| h t IH]; simpl.
  - intuition.
  - destruct (le a h); simpl; [intuition|]. rewrite IH. intuition.
Qed.

Lemma in_order_by {A : Type} (le : A -> A -> bool) (x : A) (l : list A) :
  In x (Database.order_by le l) <-> In x l.
Proof.
  unfold Database.order_by. induction l as [| h t IH]; simpl; [tauto|].
  rewrite in_insert_sorted, IH. intuition.
Qed.

(** The rows the daily self-check selects for deletion are all the
    subjective rows of the day, whether or not they belong to a trade. *)
Lemma daily_selection_ignores_trade_id (day : string) (d : db) (r : ScoreRow.t) :
  In r (Database.scores_in_date_range day day (Some SUBJECTIVE) d)
  <-> In r (scores_new d)
      /\ ScoreRow.date r = day
      /\ ScoreRow.score_type r = SUBJECTIVE.
Proof.
  unfold Database.scores_in_date_range.
  rewrite in_order_by, filter_In.
  change (truthy_str (Some SUBJECTIVE)) with true. cbv iota.
  unfold Py.eq_str. rewrite !andb_true_iff, String.eqb_eq.
  split.
  - intros [Hin [[H1 H2] H3]].
    split; [exact Hin|]. split; [|congruence].
    symmetry. apply String.leb_antisym; assumption.
  - intros [Hin [<- ->]]. rewrite leb_refl. auto.
Qed.

(** The frame [get_scores_by_date_range] returns has no [id] column. *)
Lemma score_columns_has_no_id (r : ScoreRow.t) :
  Pandas.getitem (Database.score_columns r) "id" = Raises (KeyError "id").
Proof. reflexivity. Qed.

(** Whenever the day already has a subjective score, pressing the save
    button of the daily self-check raises [KeyError] at the first old row:
    nothing is deleted and nothing is inserted. *)
Lemma daily_submit_on_existing (today : string) (f : daily_form) (d : db) :
  calculate_total_score (subjective_scores f) <> 0 ->
  Database.scores_in_date_range (selected_date f) (selected_date f)
    (Some SUBJECTIVE) d <> [] ->
  daily_submit today f d = (Raises (KeyError "id"), d).
Proof.
  intros Ht Hs. unfold daily_submit.
  destruct (Z.eqb_spec (calculate_total_score (subjective_scores f)) 0);
    [contradiction|].
  unfold Database.get_scores_by_date_range.
  destruct (Database.scores_in_date_range _ _ _ d) as [| r rest];
    [contradiction|].
  reflexivity.
Qed.

(** C9, on the code: a first daily self-check rated 30 is saved; the same
    check submitted again for the same day with the rating 12 raises
    [KeyError], and the table still holds the entry rated 30 and no entry
    rated 12. *)
Theorem daily_resubmission_raises :
  daily_submit TODAY (daily_form_of 30) empty_db
  = (Returns (DailySaved 30), first_check)
  /\ map score_view (scores_new first_check)
     = [ (1, None, "2024-03-01", PROFIT_TAKEN, SUBJECTIVE, 30) ]
  /\ daily_submit TODAY (daily_form_of 12) first_check
     = (Raises (KeyError "id"), first_check)
  /\ daily_submit TODAY (daily_form_of 30) first_check
     = (Raises (KeyError "id"), first_check).
Proof.
  repeat split; vm_compute; reflexivity.
Qed.

(** C10, on the code: the day holds one subjective score, attached to the
    buy with id 1.  The daily self-check selects it for deletion, raises
    [KeyError] when it reads the id of the row, and leaves it in the
    table. *)
Theorem daily_submit_deletes_no_trade_score :
  map score_view (scores_new scored_buy)
  = [ (1, Some 1, "2024-03-01", DIP_BOUGHT, SUBJECTIVE, 24) ]
  /\ map score_view
       (Database.scores_in_date_range "2024-03-01" "2024-03-01"
          (Some SUBJECTIVE) scored_buy)
     = [ (1, Some 1, "2024-03-01", DIP_BOUGHT, SUBJECTIVE, 24) ]
  /\ daily_submit TODAY (daily_form_of 30) scored_buy
     = (Raises (KeyError "id"), scored_buy).
Proof.
  repeat split; vm_compute; reflexivity.
Qed.

(* ================================================================== *)
(** * Further properties: the objective score                           *)
(* ================================================================== *)

Lemma int_never_divides (x : float) : Py.int x <> Raises ZeroDivisionError.
Proof.
  unfold Py.int. destruct (Prim2SF x); intros H; discriminate H.
Qed.

Lemma bind_clamp_range (c : outcome Z) :
  (score <- c ;; Returns (Z.max 0 (Z.min 100 score)))
  <> Raises ZeroDivisionError
  \/ c = Raises ZeroDivisionError.
Proof.
  destruct c as [s | e]; simpl; [left; discriminate|].
  destruct e; try (left; discriminate). right. reflexivity.
Qed.

(** X1. The guard on the buy price keeps the division from a zero
    divisor, and whatever score is returned lies between 0 and 100. *)
Theorem objective_score_in_range
    (action_type : string) (buy_price sell_price : float)
    (buy_date : string) (sell_date : option string) :
  calculate_objective_score action_type buy_price sell_price buy_date sell_date
  <> Raises ZeroDivisionError
  /\ forall score,
       calculate_objective_score action_type buy_price sell_price buy_date
         sell_date = Returns score ->
       0 <= score <= 100.
Proof.
  unfold calculate_objective_score, truediv.
  destruct (buy_price <=? 0)%float eqn:Hle.
  - split; [discriminate|]. intros score E. inversion E. lia.
  - rewrite (float_not_le_not_zero _ Hle). cbn [Py.bind].
    set (profit_rate := ((sell_price - buy_price) / buy_price * 100)%float).
    set (max_score := match Py.get ACTION_TYPES action_type with
                      | Some m => m
                      | None => 20
                      end).
    match goal with
    | |- (Py.bind ?c _ <> _) /\ _ => set (inner := c)
    end.
    assert (Hin : inner <> Raises ZeroDivisionError).
    { unfold inner.
      repeat match goal with
             | |- (if ?c then _ else _) <> _ => destruct c
             end;
        try discriminate; apply int_never_divides. }
    split.
    + destruct (bind_clamp_range inner) as [H | H]; [exact H | contradiction].
    + intros score. destruct inner as [s | e]; simpl; intros E;
        inversion E; lia.
Qed.

Lemma objective_score_in_range_witness :
  0 <= 15 <= 100.
Proof.
  exact (proj2 (objective_score_in_range PROFIT_TAKEN 100 102.5 "2024-03-01"
                  None) 15 eq_refl).
Defined.

(** X2. A category that is none of the four scores 0 at every pair of
    prices. *)
Theorem unknown_category_scores_zero
    (action_type : string) (buy_price sell_price : float)
    (buy_date : string) (sell_date : option string) :
  action_type <> PROFIT_TAKEN -> action_type <> DIP_BOUGHT ->
  action_type <> RALLY_BOUGHT -> action_type <> LOSS_CUT ->
  calculate_objective_score action_type buy_price sell_price buy_date sell_date
  = Returns 0.
Proof.
  intros H1 H2 H3 H4. unfold calculate_objective_score, truediv.
  destruct (buy_price <=? 0)%float eqn:Hle; [reflexivity|].
  rewrite (float_not_le_not_zero _ Hle). cbn [Py.bind].
  apply String.eqb_neq in H1, H2, H3, H4.
  rewrite H1, H2, H3, H4. reflexivity.
Qed.

Lemma unknown_category_scores_zero_witness :
  calculate_objective_score "hold" 100 250 "2024-03-01" None = Returns 0.
Proof.
  apply unknown_category_scores_zero; intros H; discriminate H.
Defined.

(* ================================================================== *)
(** * Further properties: the classifications                           *)
(* ================================================================== *)

(** X3. The sell classification never raises: it returns [None] exactly
    when one of the prices is below or equal to zero, and one of the two
    sell labels in every other case (a price that is not a number
    included). *)
Theorem detect_sell_action_type_total
    (buy_price sell_price : float) (buy_date : string) (sell_date : option string) :
  let change := ((sell_price - buy_price) / buy_price)%float in
  detect_sell_action_type buy_price sell_price buy_date sell_date
  = Returns
      (if ((buy_price <=? 0) || (sell_price <=? 0))%float then None
       else Some (if (0.01 <? change)%float then PROFIT_TAKEN
                  else if (change <? -0.01)%float then LOSS_CUT
                  else if (buy_price <? sell_price)%float then PROFIT_TAKEN
                  else LOSS_CUT)).
Proof.
  intros change. unfold detect_sell_action_type, truediv.
  destruct (buy_price <=? 0)%float eqn:Hle; [reflexivity|].
  destruct (sell_price <=? 0)%float; [reflexivity|].
  rewrite (float_not_le_not_zero _ Hle). cbn [orb Py.bind]. fold change.
  destruct (0.01 <? change)%float; [reflexivity|].
  destruct (change <? -0.01)%float; [reflexivity|].
  destruct (buy_price <? sell_price)%float; reflexivity.
Qed.

(** X4. The buy classification answers nothing but [None] or one of the
    two buy labels. *)
Theorem detect_buy_action_type_labels
    (tushare_client : TushareClient) (stock_code buy_date : string)
    (buy_price : float) (days_to_check : Z) :
  detect_buy_action_type tushare_client stock_code buy_date buy_price
    days_to_check = None
  \/ detect_buy_action_type tushare_client stock_code buy_date buy_price
       days_to_check = Some RALLY_BOUGHT
  \/ detect_buy_action_type tushare_client stock_code buy_date buy_price
       days_to_check = Some DIP_BOUGHT.
Proof.
  unfold detect_buy_action_type.
  destruct (is_configured tushare_client); cbn [negb]; [|auto].
  destruct (Datetime.strptime buy_date) as [buy_dt | e]; cbn; [|auto].
  destruct (Datetime.add_days buy_dt (days_to_check * 2)) as [end_dt | e];
    cbn; [|auto].
  destruct (get_stock_daily _ _ _ _) as [daily_data |]; cbn; [|auto].
  destruct (Pandas.empty daily_data); cbn; [auto|].
  destruct (Pandas.empty (filter _ daily_data)); cbn; [auto|].
  destruct (Pandas.empty (Pandas.head _ _)); cbn; [auto|].
  destruct (Pandas.iloc_last _) as [last_close | e]; cbn; [|auto].
  destruct (_ <? last_close)%float; cbn; [auto|].
  destruct (last_close <? _)%float; cbn; [auto|].
  destruct (_ <? _)%float; cbn; auto.
Qed.

(** X5. With observations after the buy date, the last observed close
    decides outside the band: above 1.01 times the buy price the label is
    the rallied one, below 0.99 times the dipped one, whatever the mean;
    only within the band does the mean decide. *)
Theorem detect_buy_action_type_decides
    (tushare_client : TushareClient) (stock_code buy_date : string)
    (buy_price : float) (days_to_check buy_dt end_dt : Z)
    (daily_data : DataFrame) (last_close : float) :
  is_configured tushare_client = true ->
  Datetime.strptime buy_date = Returns buy_dt ->
  Datetime.add_days buy_dt (days_to_check * 2) = Returns end_dt ->
  get_stock_daily tushare_client stock_code buy_date (Datetime.strftime end_dt)
  = Some daily_data ->
  let future_data :=
    Pandas.head days_to_check
      (filter (fun bar => buy_dt <? trade_date bar) daily_data) in
  Pandas.iloc_last (map close future_data) = Returns last_close ->
  detect_buy_action_type tushare_client stock_code buy_date buy_price
    days_to_check
  = Some (if (buy_price * 1.01 <? last_close)%float then RALLY_BOUGHT
          else if (last_close <? buy_price * 0.99)%float then DIP_BOUGHT
          else if (buy_price <? Pandas.mean (map close future_data))%float
          then RALLY_BOUGHT else DIP_BOUGHT).
Proof.
  intros Hc Hp Ha Hd future_data Hl.
  assert (Hf : future_data <> []).
  { intros E. apply (iloc_last_nonempty _ _ Hl). rewrite E. reflexivity. }
  assert (Hflt : filter (fun bar => buy_dt <? trade_date bar) daily_data <> []).
  { intros E. apply Hf. unfold future_data. rewrite E. apply head_nil. }
  assert (Hdd : daily_data <> []).
  { intros E. apply Hflt. rewrite E. reflexivity. }
  unfold detect_buy_action_type.
  rewrite Hc, Hp. cbn [negb Py.bind]. rewrite Ha. cbn [Py.bind]. rewrite Hd.
  apply empty_false_iff in Hdd. rewrite Hdd.
  apply empty_false_iff in Hflt. rewrite Hflt.
  fold future_data.
  apply empty_false_iff in Hf. rewrite Hf.
  rewrite Hl. cbn [Py.bind].
  destruct (buy_price * 1.01 <? last_close)%float; [reflexivity|].
  destruct (last_close <? buy_price * 0.99)%float; [reflexivity|].
  destruct (buy_price <? Pandas.mean (map close future_data))%float;
    reflexivity.
Qed.

(** The mean of 98 and 104 is 101, above the buy price of 100; the last
    close of 104 is above the band and decides alone. *)
Lemma detect_buy_action_type_decides_witness :
  detect_buy_action_type rising_client "600000" "2024-03-01" 100 5
  = Some RALLY_BOUGHT.
Proof.
  exact (detect_buy_action_type_decides rising_client "600000" "2024-03-01"
           100 5 738946 738956
           [ {| trade_date := 738946; close := 100 |};
             {| trade_date := 738949; close := 98 |};
             {| trade_date := 738950; close := 104 |} ]
           104 eq_refl eq_refl eq_refl eq_refl eq_refl).
Defined.

Lemma filter_none {A : Type} (keep : A -> bool) (l : list A) :
  (forall x, In x l -> keep x = false) -> filter keep l = [].
Proof.
  induction l as [| x l IH]; simpl; intros H; [reflexivity|].
  rewrite (H x (or_introl eq_refl)). apply IH. intros y Hy. apply H. now right.
Qed.

(** X6. The buy classification is absent, and nothing is raised, when the
    client has no token, when the buy date is no calendar date, when the
    provider has no data, when no observation is later than the buy date,
    and when no trading day is to be looked at. *)
Theorem detect_buy_action_type_absent
    (tushare_client : TushareClient) (stock_code buy_date : string)
    (buy_price : float) (days_to_check : Z) :
  is_configured tushare_client = false
  \/ (exists e, Datetime.strptime buy_date = Raises e)
  \/ (forall start_date end_date,
        get_stock_daily tushare_client stock_code start_date end_date = None)
  \/ (forall start_date end_date daily_data bar buy_dt,
        get_stock_daily tushare_client stock_code start_date end_date
        = Some daily_data ->
        In bar daily_data ->
        Datetime.strptime buy_date = Returns buy_dt ->
        trade_date bar <= buy_dt)
  \/ days_to_check = 0 ->
  detect_buy_action_type tushare_client stock_code buy_date buy_price
    days_to_check = None.
Proof.
  intros H. unfold detect_buy_action_type.
  destruct (is_configured tushare_client) eqn:Hc; cbn [negb]; [|reflexivity].
  destruct (Datetime.strptime buy_date) as [buy_dt | e] eqn:Hp; cbn;
    [|reflexivity].
  destruct (Datetime.add_days buy_dt (days_to_check * 2)) as [end_dt | e];
    cbn; [|reflexivity].
  destruct (get_stock_daily _ _ _ _) as [daily_data |] eqn:Hd; cbn;
    [|reflexivity].
  destruct (Pandas.empty daily_data); cbn; [reflexivity|].
  destruct H as [H | [[e H] | [H | [H | H]]]].
  - discriminate H.
  - discriminate H.
  - rewrite H in Hd. discriminate Hd.
  - rewrite filter_none; [reflexivity|].
    intros bar Hbar. apply Z.ltb_ge. exact (H _ _ _ bar buy_dt Hd Hbar eq_refl).
  - subst days_to_check.
    destruct (Pandas.empty (filter _ daily_data)); reflexivity.
Qed.

Lemma detect_buy_action_type_absent_witness :
  detect_buy_action_type flat_client "600000" "2024-02-30" 100 5 = None
  /\ detect_buy_action_type flat_client "600000" "2024-03-01" 100 0 = None
  /\ detect_buy_action_type stale_client "600000" "2024-03-01" 100 5 = None.
Proof.
  split; [|split].
  - exact (detect_buy_action_type_absent flat_client "600000" "2024-02-30"
             100 5
             (or_intror (or_introl (ex_intro _ ValueError eq_refl)))).
  - exact (detect_buy_action_type_absent flat_client "600000" "2024-03-01"
             100 0 (or_intror (or_intror (or_intror (or_intror eq_refl))))).
  - apply (detect_buy_action_type_absent stale_client "600000" "2024-03-01"
             100 5).
    right; right; right; left.
    intros start_date end_date daily_data bar buy_dt Hd Hbar Hp.
    inversion Hd; subst daily_data.
    vm_compute in Hp. inversion Hp; subst buy_dt.
    destruct Hbar as [<- | [<- | []]]; cbn; lia.
Defined.

(* ================================================================== *)
(** * Further properties: inserting a trade                             *)
(* ================================================================== *)

(** X7. [add_trade] needs the five [NOT NULL] values of a row, a buy
    price that is not a number counting as none: without one of them it
    raises and the database is the one it was; and whenever it returns,
    the five were there and the id returned is the next rowid. *)
Theorem add_trade_not_null (today : string) (trade : Trade.t) (d : db) :
  (Trade.stock_code trade = None \/ Trade.action_type trade = None
   \/ Trade.trade_type trade = None \/ Sql.real (Trade.buy_price trade) = None
   \/ Trade.quantity trade = None ->
   exists e, Database.add_trade today trade d = (Raises e, d))
  /\ (forall trade_id d',
        Database.add_trade today trade d = (Returns trade_id, d') ->
        Trade.stock_code trade <> None /\ Trade.action_type trade <> None
        /\ Trade.trade_type trade <> None
        /\ (exists buy_price,
              Trade.buy_price trade = Some buy_price
              /\ (buy_price =? buy_price)%float = true)
        /\ Trade.quantity trade <> None
        /\ trade_id
           = Sql.next_rowid (trades_new_seq d)
               (map TradeRow.id (trades_new d))).
Proof.
  split.
  - intros H.
    destruct (Database.add_trade today trade d) as [[trade_id | e] d'] eqn:E.
    + destruct (add_trade_inv _ _ _ _ _ E)
        as [sc [at_ [tt [bp [q [H1 [H2 [H3 [H4 [H5 _]]]]]]]]]].
      destruct H as [H | [H | [H | [H | H]]]]; congruence.
    + exists e. rewrite (add_trade_raises _ _ _ _ _ E). reflexivity.
  - intros trade_id d' E.
    destruct (add_trade_inv _ _ _ _ _ E)
      as [sc [at_ [tt [bp [q [H1 [H2 [H3 [H4 [H5 [Hid _]]]]]]]]]]].
    rewrite H1, H2, H3, H5.
    repeat (split; [discriminate|]).
    split; [|split; [discriminate | exact Hid]].
    unfold Sql.real in H4.
    destruct (Trade.buy_price trade) as [v|]; [|discriminate H4].
    exists v. split; [reflexivity|].
    destruct (v =? v)%float; [reflexivity | discriminate H4].
Qed.

Lemma add_trade_not_null_witness :
  exists e, Database.add_trade TODAY nan_buy one_lot = (Raises e, one_lot).
Proof.
  apply (proj1 (add_trade_not_null TODAY nan_buy one_lot)).
  right. right. right. left. reflexivity.
Defined.

Lemma find_none_app {A : Type} (p : A -> bool) (l : list A) (x : A) :
  (forall a, In a l -> p a = false) -> p x = true ->
  find p (l ++ [x]) = Some x.
Proof.
  induction l as [| a l IH]; simpl; intros H Hx.
  - rewrite Hx. reflexivity.
  - rewrite (H a (or_introl eq_refl)). apply IH; [|exact Hx].
    intros b Hb. apply H. now right.
Qed.

(** X8. Insert, then look up: the id [add_trade] returns names, for
    [get_trade_by_id], the row just inserted, with the values of the trade
    (the buy date replaced by today's when it is missing, the two prices
    as SQLite keeps them: a NaN as NULL, a zero without its sign), and no
    row the table had before. *)
Theorem add_trade_then_get_trade_by_id
    (today : string) (trade : Trade.t) (d d' : db) (trade_id : Z) :
  Database.add_trade today trade d = (Returns trade_id, d') ->
  Database.get_trade_by_id trade_id d = None
  /\ exists row,
       Database.get_trade_by_id trade_id d' = Some row
       /\ TradeRow.id row = trade_id
       /\ Some (TradeRow.stock_code row) = Trade.stock_code trade
       /\ TradeRow.stock_name row = Trade.stock_name trade
       /\ Some (TradeRow.action_type row) = Trade.action_type trade
       /\ Some (TradeRow.trade_type row) = Trade.trade_type trade
       /\ TradeRow.buy_date row = or_str (Trade.buy_date trade) today
       /\ TradeRow.sell_date row = Trade.sell_date trade
       /\ Some (TradeRow.buy_price row) = Sql.real (Trade.buy_price trade)
       /\ TradeRow.sell_price row = Sql.real (Trade.sell_price trade)
       /\ Some (TradeRow.quantity row) = Trade.quantity trade
       /\ TradeRow.status row = Trade.status trade
       /\ TradeRow.notes row = Trade.notes trade.
Proof.
  intros E.
  destruct (add_trade_inv today trade d d' trade_id E)
    as [sc [at_ [tt [bp [q [H1 [H2 [H3 [H4 [H5 [Hid Hd]]]]]]]]]]].
  cbv zeta in Hd.
  destruct (next_rowid_fresh (trades_new_seq d) (map TradeRow.id (trades_new d)))
    as [_ Hfresh]. rewrite <- Hid in Hfresh.
  assert (Hold : forall r, In r (trades_new d) ->
                           (TradeRow.id r =? trade_id) = false).
  { intros r Hr. apply Z.eqb_neq.
    specialize (Hfresh _ (in_map TradeRow.id _ _ Hr)). lia. }
  split.
  - unfold Database.get_trade_by_id.
    destruct (find _ (trades_new d)) as [r|] eqn:Ef; [|reflexivity].
    apply find_some in Ef. destruct Ef as [Hr Hm].
    rewrite (Hold r Hr) in Hm. discriminate Hm.
  - eexists. split.
    + unfold Database.get_trade_by_id. rewrite Hd. cbn [trades_new].
      apply find_none_app; [|apply Z.eqb_refl].
      intros r Hr.
      destruct (String.eqb tt SELL && truthy_int _); [|apply Hold, Hr].
      apply in_update_where in Hr. destruct Hr as [r0 [H0 [-> | ->]]].
      * apply Hold, H0.
      * apply (Hold r0 H0).
    + cbn. rewrite H1, H2, H3, H4, H5. repeat split; reflexivity.
Qed.

Lemma add_trade_then_get_trade_by_id_witness :
  Database.get_trade_by_id 2 one_lot = None
  /\ exists row,
       Database.get_trade_by_id 2
         (snd (Database.add_trade TODAY (sell_of 1 400) one_lot)) = Some row
       /\ lot_view row = (2, Some 1, SELL, 400, Some CLOSED).
Proof.
  destruct (add_trade_then_get_trade_by_id TODAY (sell_of 1 400) one_lot
              (snd (Database.add_trade TODAY (sell_of 1 400) one_lot)) 2
              eq_refl) as [Hnone [row [Hget Hrow]]].
  split; [exact Hnone|]. exists row. split; [exact Hget|].
  destruct Hrow as [Hi [_ [_ [_ [Ht [_ [_ [_ [_ [Hq [Hs _]]]]]]]]]]].
  vm_compute in Hget. inversion Hget. reflexivity.
Defined.

(* ================================================================== *)
(** * Further properties: deleting a trade, and row ids                 *)
(* ================================================================== *)

(** X9. [delete_trade] is a hard delete without cascade: it answers
    whether a row had the id, afterwards no row has it, every other row
    is kept as it was, and the scores (those attached to the deleted trade
    included) and the sold quantities of lots are untouched by the
    deletion of a buy row. *)
Theorem delete_trade_no_cascade (trade_id : Z) (d : db) :
  let d' := snd (Database.delete_trade trade_id d) in
  (fst (Database.delete_trade trade_id d) = Returns true
   <-> exists r, In r (trades_new d) /\ TradeRow.id r = trade_id)
  /\ Database.get_trade_by_id trade_id d' = None
  /\ (forall r, In r (trades_new d')
                <-> In r (trades_new d) /\ TradeRow.id r <> trade_id)
  /\ scores_new d' = scores_new d
  /\ Database.get_scores_by_trade (Some trade_id) d'
     = Database.get_scores_by_trade (Some trade_id) d
  /\ ((forall r, In r (trades_new d) -> TradeRow.id r = trade_id ->
                 TradeRow.trade_type r = BUY) ->
      forall lot,
        Database.get_sold_quantity lot d' = Database.get_sold_quantity lot d).
Proof.
  cbn zeta. cbn [Database.delete_trade fst snd].
  split; [|split; [|split; [|split; [|split]]]].
  - split.
    + intros E. inversion E as [Hex]. apply existsb_exists in Hex.
      destruct Hex as [r [Hr Hm]]. exists r. split; [exact Hr|].
      apply Z.eqb_eq. exact Hm.
    + intros [r [Hr Hid]]. f_equal. apply existsb_exists. exists r.
      split; [exact Hr | apply Z.eqb_eq; exact Hid].
  - unfold Database.get_trade_by_id. cbn [trades_new].
    destruct (find _ _) as [r|] eqn:Ef; [|reflexivity].
    apply find_some in Ef. destruct Ef as [Hr Hm].
    apply filter_In in Hr. destruct Hr as [_ Hn].
    rewrite Hm in Hn. discriminate Hn.
  - intros r. cbn [trades_new]. rewrite filter_In, negb_true_iff, Z.eqb_neq.
    tauto.
  - reflexivity.
  - reflexivity.
  - intros Hbuy lot. unfold Database.get_sold_quantity. cbn [trades_new].
    f_equal. f_equal.
    induction (trades_new d) as [| r rows IH]; [reflexivity|].
    cbn [filter].
    destruct (Z.eqb_spec (TradeRow.id r) trade_id) as [Eid | Nid]; cbn [negb].
    + assert (Hs : Database.is_sell_of lot r = false).
      { unfold Database.is_sell_of.
        rewrite (Hbuy r (or_introl eq_refl) Eid).
        change (String.eqb BUY SELL) with false. apply andb_false_r. }
      rewrite Hs. apply IH. intros r0 H0. apply Hbuy. now right.
    + cbn [filter]. destruct (Database.is_sell_of lot r).
      * f_equal. apply IH. intros r0 H0. apply Hbuy. now right.
      * apply IH. intros r0 H0. apply Hbuy. now right.
Qed.

Lemma delete_trade_no_cascade_witness :
  fst (Database.delete_trade 1 closed_lot) = Returns true
  /\ Database.get_sold_quantity (Some 1)
       (snd (Database.delete_trade 1 closed_lot)) = 1000.
Proof.
  split.
  - apply (proj1 (delete_trade_no_cascade 1 closed_lot)).
    exists (Database.set_closed_sold (Some "2024-03-05") (Some 11%float)
              one_lot_buy_row).
    split; [left; reflexivity | reflexivity].
  - rewrite (proj2 (proj2 (proj2 (proj2 (proj2
               (delete_trade_no_cascade 1 closed_lot)))))).
    + reflexivity.
    + intros r Hr Hid. vm_compute in Hr.
      destruct Hr as [<- | [<- | []]]; [reflexivity | discriminate Hid].
Defined.

Lemma run_seq_mono (today : string) (ops : list operation) (d : db) :
  trades_new_seq d <= trades_new_seq (run today ops d).
Proof.
  unfold run. revert d.
  induction ops as [| op ops IH]; intros d; simpl; [lia|].
  destruct (step_rows today op d) as [H _].
  specialize (IH (step today op d)). lia.
Qed.

(** X10. A row id is never handed out twice: the id [add_trade] returns
    after any sequence of calls, deletions included, is above the id of
    every row the well-formed table held before them. *)
Theorem row_ids_never_reused
    (today : string) (ops : list operation) (trade : Trade.t)
    (d d' : db) (r : TradeRow.t) (trade_id : Z) :
  well_formed d ->
  In r (trades_new d) ->
  Database.add_trade today trade (run today ops d) = (Returns trade_id, d') ->
  TradeRow.id r < trade_id.
Proof.
  intros [_ Hb] Hr E.
  destruct (add_trade_inv _ _ _ _ _ E)
    as [sc [at_ [tt [bp [q [_ [_ [_ [_ [_ [Hid _]]]]]]]]]]].
  destruct (next_rowid_fresh (trades_new_seq (run today ops d))
              (map TradeRow.id (trades_new (run today ops d)))) as [Hseq _].
  pose proof (run_seq_mono today ops d). specialize (Hb r Hr). lia.
Qed.

Lemma row_ids_never_reused_witness :
  1 < 2
  /\ map lot_view
       (trades_new
          (snd (Database.add_trade TODAY (buy_of 500)
                  (run TODAY [DeleteTrade 1] one_lot))))
     = [ (2, Some 1, BUY, 500, Some OPEN) ].
Proof.
  split; [|vm_compute; reflexivity].
  exact (row_ids_never_reused TODAY [DeleteTrade 1] (buy_of 500) one_lot
           (snd (Database.add_trade TODAY (buy_of 500)
                   (run TODAY [DeleteTrade 1] one_lot)))
           one_lot_buy_row 2
           (well_formed_reachable TODAY [AddTrade (buy_of 1000)])
           (or_introl eq_refl) eq_refl).
Defined.

(* ================================================================== *)
(** * Further properties: the lot of a buy, the rows a sell touches     *)
(* ================================================================== *)

Lemma sold_of_fresh_lot (rows : list TradeRow.t) (g : Z) :
  (forall r, In r rows -> TradeRow.trade_group_id r <> Some g) ->
  filter (Database.is_sell_of (Some g)) rows = [].
Proof.
  intros H. apply filter_none. intros r Hr. unfold Database.is_sell_of.
  specialize (H r Hr). unfold Sql.eq_int.
  destruct (TradeRow.trade_group_id r) as [gr|]; [|reflexivity].
  destruct (Z.eqb_spec gr g); [subst; contradiction | reflexivity].
Qed.

(** X11. A buy inserted as open starts a lot of its own: nothing is sold
    of its lot, the rows the table had are kept as they were, and the new
    row is among the active trades. *)
Theorem add_trade_buy_opens_lot
    (today : string) (trade : Trade.t) (d d' : db) (trade_id : Z) :
  Trade.trade_type trade = Some BUY ->
  Trade.status trade = Some OPEN ->
  Database.add_trade today trade d = (Returns trade_id, d') ->
  exists row,
    trades_new d' = (trades_new d ++ [row])%list
    /\ TradeRow.id row = trade_id
    /\ Database.get_sold_quantity (TradeRow.trade_group_id row) d' = 0
    /\ In row (Database.get_active_trades d').
Proof.
  intros Ht Hs E.
  destruct (add_trade_inv _ _ _ _ _ E)
    as [sc [at_ [tt [bp [q [_ [_ [Htt [_ [_ [Hid Hd]]]]]]]]]]].
  rewrite Ht in Htt. inversion Htt. subst tt. clear Htt.
  cbv zeta in Hd.
  change (String.eqb BUY BUY) with true in Hd.
  change (String.eqb BUY SELL) with false in Hd.
  cbn [andb] in Hd. cbv iota in Hd.
  eexists. split; [rewrite Hd; reflexivity|].
  split; [reflexivity|]. split.
  - cbn [TradeRow.trade_group_id]. unfold Database.get_sold_quantity.
    rewrite Hd. cbn [trades_new]. rewrite filter_app.
    rewrite sold_of_fresh_lot.
    + cbn [filter app]. unfold Database.is_sell_of.
      cbn [TradeRow.trade_type].
      change (String.eqb BUY SELL) with false. rewrite andb_false_r.
      reflexivity.
    + intros r Hr Eg.
      assert (Hin : In (Some (Sql.coalesce
                                (Sql.max_of
                                   (map TradeRow.trade_group_id (trades_new d)))
                                0 + 1))
                      (map TradeRow.trade_group_id (trades_new d))).
      { rewrite <- Eg. apply in_map. exact Hr. }
      pose proof (max_of_ge _ _ Hin). lia.
  - unfold Database.get_active_trades. rewrite in_order_by, filter_In.
    rewrite Hd. cbn [trades_new]. split.
    + apply in_or_app. right. left. reflexivity.
    + cbn [TradeRow.status TradeRow.trade_type]. rewrite Hs. reflexivity.
Qed.

Lemma add_trade_buy_opens_lot_witness :
  exists row,
    trades_new (snd (Database.add_trade TODAY (buy_of 500) closed_lot))
    = (trades_new closed_lot ++ [row])%list
    /\ TradeRow.id row = 3
    /\ Database.get_sold_quantity (TradeRow.trade_group_id row)
         (snd (Database.add_trade TODAY (buy_of 500) closed_lot)) = 0
    /\ In row
         (Database.get_active_trades
            (snd (Database.add_trade TODAY (buy_of 500) closed_lot))).
Proof.
  exact (add_trade_buy_opens_lot TODAY (buy_of 500) closed_lot
           (snd (Database.add_trade TODAY (buy_of 500) closed_lot)) 3
           eq_refl eq_refl eq_refl).
Defined.

(** X12. A sell inserted with a lot id writes the buy rows of its lot and
    no other row: each buy row of the lot keeps its id, lot, buy date, buy
    price, quantity and notes and now carries the sell date of the sell,
    its sell price as SQLite keeps it (a NaN as NULL, a zero without its
    sign) and the closed status; every other row of the table is kept as
    it was; and the table has grown by the one sell row. *)
Theorem add_trade_sell_mirrors
    (today : string) (trade : Trade.t) (d d' : db) (g trade_id : Z) :
  Trade.trade_type trade = Some SELL ->
  Trade.trade_group_id trade = Some g ->
  g <> 0 ->
  Database.add_trade today trade d = (Returns trade_id, d') ->
  (forall r, In r (trades_new d) -> Database.is_buy_of (Some g) r = false ->
             In r (trades_new d'))
  /\ (forall r, In r (trades_new d) -> Database.is_buy_of (Some g) r = true ->
        exists r',
          In r' (trades_new d')
          /\ TradeRow.id r' = TradeRow.id r
          /\ TradeRow.trade_group_id r' = TradeRow.trade_group_id r
          /\ TradeRow.buy_date r' = TradeRow.buy_date r
          /\ TradeRow.buy_price r' = TradeRow.buy_price r
          /\ TradeRow.quantity r' = TradeRow.quantity r
          /\ TradeRow.notes r' = TradeRow.notes r
          /\ TradeRow.sell_date r' = Trade.sell_date trade
          /\ TradeRow.sell_price r' = Sql.real (Trade.sell_price trade)
          /\ TradeRow.status r' = Some CLOSED)
  /\ List.length (trades_new d') = S (List.length (trades_new d)).
Proof.
  intros Ht Hg Hnz E.
  destruct (add_trade_inv _ _ _ _ _ E)
    as [sc [at_ [tt [bp [q [_ [_ [Htt [_ [_ [Hid Hd]]]]]]]]]]].
  rewrite Ht in Htt. inversion Htt. subst tt. clear Htt.
  cbv zeta in Hd. rewrite Hg in Hd.
  change (String.eqb SELL BUY) with false in Hd.
  change (String.eqb SELL SELL) with true in Hd.
  cbv iota in Hd.
  assert (Hz : truthy_int (Some g) = true).
  { unfold truthy_int. destruct (Z.eqb_spec g 0); [contradiction | reflexivity]. }
  rewrite Hz in Hd. cbn [andb] in Hd.
  rewrite Hd. cbn [trades_new]. split; [|split].
  - intros r Hr Hc. apply in_or_app. left.
    unfold Database.update_where. apply in_map_iff. exists r.
    rewrite Hc. split; [reflexivity | exact Hr].
  - intros r Hr Hc. eexists. split.
    + apply in_or_app. left. unfold Database.update_where.
      apply in_map_iff. exists r. rewrite Hc. split; [reflexivity | exact Hr].
    + cbn. repeat split; reflexivity.
  - rewrite length_app. unfold Database.update_where. rewrite length_map.
    cbn. lia.
Qed.

Lemma add_trade_sell_mirrors_witness :
  exists r',
    In r' (trades_new (snd (Database.add_trade TODAY (sell_of 1 400) one_lot)))
    /\ TradeRow.id r' = 1
    /\ TradeRow.quantity r' = 1000
    /\ TradeRow.sell_date r' = Some "2024-03-05"
    /\ TradeRow.sell_price r' = Some 11%float
    /\ TradeRow.status r' = Some CLOSED.
Proof.
  destruct (proj1 (proj2
              (add_trade_sell_mirrors TODAY (sell_of 1 400) one_lot
                 (snd (Database.add_trade TODAY (sell_of 1 400) one_lot)) 1 2
                 eq_refl eq_refl ltac:(discriminate) eq_refl))
              one_lot_buy_row (or_introl eq_refl) eq_refl)
    as [r' [Hin [H1 [_ [_ [_ [H5 [_ [H7 [H8 H9]]]]]]]]]].
  exists r'. repeat split; assumption.
Defined.

(** X13. A sell inserted without a lot id ([None] or 0) updates nothing:
    the table is the old one with the sell row appended, and the row
    counts for the sold quantity of no lot but, when the id is 0, lot 0. *)
Theorem add_trade_sell_without_lot
    (today : string) (trade : Trade.t) (d d' : db) (trade_id : Z) :
  Trade.trade_type trade = Some SELL ->
  Trade.trade_group_id trade = None \/ Trade.trade_group_id trade = Some 0 ->
  Database.add_trade today trade d = (Returns trade_id, d') ->
  exists row,
    trades_new d' = (trades_new d ++ [row])%list
    /\ TradeRow.id row = trade_id
    /\ TradeRow.trade_group_id row = Trade.trade_group_id trade
    /\ forall lot, lot <> 0 ->
         Database.get_sold_quantity (Some lot) d'
         = Database.get_sold_quantity (Some lot) d.
Proof.
  intros Ht Hg E.
  destruct (add_trade_inv _ _ _ _ _ E)
    as [sc [at_ [tt [bp [q [_ [_ [Htt [_ [_ [Hid Hd]]]]]]]]]]].
  rewrite Ht in Htt. inversion Htt. subst tt. clear Htt.
  cbv zeta in Hd.
  change (String.eqb SELL BUY) with false in Hd.
  change (String.eqb SELL SELL) with true in Hd.
  cbv iota in Hd.
  assert (Hz : truthy_int (Trade.trade_group_id trade) = false).
  { destruct Hg as [-> | ->]; reflexivity. }
  rewrite Hz in Hd. cbn [andb] in Hd.
  eexists. split; [rewrite Hd; reflexivity|].
  split; [reflexivity|]. split; [reflexivity|].
  intros lot Hlot. unfold Database.get_sold_quantity. rewrite Hd.
  cbn [trades_new]. rewrite filter_app, map_app, sum_app.
  cbn [filter]. unfold Database.is_sell_of at 2.
  cbn [TradeRow.trade_group_id].
  assert (Hn : Sql.eq_int (Trade.trade_group_id trade) (Some lot) = false).
  { destruct Hg as [-> | ->]; [reflexivity|]. unfold Sql.eq_int.
    apply Z.eqb_neq. lia. }
  rewrite Hn. cbn. lia.
Qed.

Lemma add_trade_sell_without_lot_witness :
  exists row,
    trades_new (snd (Database.add_trade TODAY loose_sell one_lot))
    = (trades_new one_lot ++ [row])%list
    /\ TradeRow.id row = 2
    /\ TradeRow.trade_group_id row = None
    /\ forall lot, lot <> 0 ->
         Database.get_sold_quantity (Some lot)
           (snd (Database.add_trade TODAY loose_sell one_lot))
         = Database.get_sold_quantity (Some lot) one_lot.
Proof.
  exact (add_trade_sell_without_lot TODAY loose_sell one_lot
           (snd (Database.add_trade TODAY loose_sell one_lot)) 2
           eq_refl (or_introl eq_refl) eq_refl).
Defined.

(* ================================================================== *)
(** * Further properties: recomputing the status of a lot               *)
(* ================================================================== *)

Lemma set_closed_of_closed (r : TradeRow.t) :
  TradeRow.status r = Some CLOSED -> Database.set_closed r = r.
Proof.
  destruct r. cbn. intros ->. reflexivity.
Qed.

Lemma set_closed_twice (r : TradeRow.t) :
  Database.set_closed (Database.set_closed r) = Database.set_closed r.
Proof. reflexivity. Qed.

Lemma sold_after_set_closed (g lot : option Z) (rows : list TradeRow.t) :
  map TradeRow.quantity
    (filter (Database.is_sell_of lot)
       (Database.update_where (Database.is_buy_of g) Database.set_closed rows))
  = map TradeRow.quantity (filter (Database.is_sell_of lot) rows).
Proof.
  apply sold_update_where. intros r. split; reflexivity.
Qed.

Lemma find_update_where
    (g : option Z) (rows : list TradeRow.t) :
  find (Database.is_buy_of g)
    (Database.update_where (Database.is_buy_of g) Database.set_closed rows)
  = option_map Database.set_closed (find (Database.is_buy_of g) rows).
Proof.
  induction rows as [| r rows IH]; [reflexivity|].
  unfold Database.update_where in *. cbn [map find].
  destruct (Database.is_buy_of g r) eqn:Hc.
  - change (Database.is_buy_of g (Database.set_closed r))
      with (Database.is_buy_of g r). rewrite Hc. reflexivity.
  - rewrite Hc. exact IH.
Qed.

Lemma update_where_twice (g : option Z) (rows : list TradeRow.t) :
  Database.update_where (Database.is_buy_of g) Database.set_closed
    (Database.update_where (Database.is_buy_of g) Database.set_closed rows)
  = Database.update_where (Database.is_buy_of g) Database.set_closed rows.
Proof.
  unfold Database.update_where. rewrite map_map. apply map_ext.
  intros r. destruct (Database.is_buy_of g r) eqn:Hc.
  - change (Database.is_buy_of g (Database.set_closed r))
      with (Database.is_buy_of g r). rewrite Hc. reflexivity.
  - rewrite Hc. reflexivity.
Qed.

(** X14. [update_trade_status] answers [False] and writes nothing when
    the lot has no buy row; it writes nothing while less is sold than the
    first buy row of the lot bought; and once that much is sold, every buy
    row of the lot is closed and the rows that are no buy row of the lot
    are kept as they were. *)
Theorem update_trade_status_cases (trade_group_id : option Z) (d : db) :
  match find (Database.is_buy_of trade_group_id) (trades_new d) with
  | None => Database.update_trade_status trade_group_id d = (Returns false, d)
  | Some buy =>
      if Database.get_sold_quantity trade_group_id d <? TradeRow.quantity buy
      then Database.update_trade_status trade_group_id d = (Returns true, d)
      else
        let d' := snd (Database.update_trade_status trade_group_id d) in
        fst (Database.update_trade_status trade_group_id d) = Returns true
        /\ (forall r', In r' (trades_new d') ->
                       Database.is_buy_of trade_group_id r' = true ->
                       TradeRow.status r' = Some CLOSED)
        /\ (forall r, In r (trades_new d) ->
                      Database.is_buy_of trade_group_id r = false ->
                      In r (trades_new d'))
        /\ List.length (trades_new d') = List.length (trades_new d)
        /\ scores_new d' = scores_new d
  end.
Proof.
  unfold Database.update_trade_status.
  destruct (find _ (trades_new d)) as [buy|] eqn:Hf; [|reflexivity].
  destruct (Z.ltb_spec (Database.get_sold_quantity trade_group_id d)
              (TradeRow.quantity buy)) as [Hlt | Hge].
  - destruct (Z.leb_spec (TradeRow.quantity buy)
                (Database.get_sold_quantity trade_group_id d)); [lia|].
    reflexivity.
  - destruct (Z.leb_spec (TradeRow.quantity buy)
                (Database.get_sold_quantity trade_group_id d)); [|lia].
    cbn [fst snd trades_new scores_new].
    split; [|split; [|split; [|split]]].
    + f_equal. apply existsb_exists. apply find_some in Hf.
      exists buy. exact Hf.
    + intros r' Hr' Hb. apply in_update_where_cond in Hr'.
      destruct Hr' as [r [_ [[Hc ->] | [_ ->]]]]; [congruence | reflexivity].
    + intros r Hr Hc. unfold Database.update_where. apply in_map_iff.
      exists r. rewrite Hc. split; [reflexivity | exact Hr].
    + unfold Database.update_where. apply length_map.
    + reflexivity.
Qed.

(** X15. Recomputing the status of a lot twice is recomputing it once. *)
Theorem update_trade_status_idempotent (trade_group_id : option Z) (d : db) :
  Database.update_trade_status trade_group_id
    (snd (Database.update_trade_status trade_group_id d))
  = (fst (Database.update_trade_status trade_group_id d),
     snd (Database.update_trade_status trade_group_id d)).
Proof.
  unfold Database.update_trade_status at 2 3 4.
  destruct (find _ (trades_new d)) as [buy|] eqn:Hf.
  - destruct (TradeRow.quantity buy <=? _) eqn:Hq.
    + cbn [fst snd]. unfold Database.update_trade_status.
      cbn [trades_new trades_new_seq scores_new scores_new_seq].
      rewrite find_update_where, Hf. cbn [option_map].
      unfold Database.get_sold_quantity. cbn [trades_new].
      rewrite sold_after_set_closed.
      change (TradeRow.quantity (Database.set_closed buy))
        with (TradeRow.quantity buy).
      unfold Database.get_sold_quantity in Hq. rewrite Hq.
      rewrite update_where_twice. f_equal. f_equal.
      apply find_some in Hf.
      assert (H1 : existsb (Database.is_buy_of trade_group_id) (trades_new d)
                   = true).
      { apply existsb_exists. exists buy. exact Hf. }
      rewrite H1. apply existsb_exists.
      exists (Database.set_closed buy). split; [|apply Hf].
      unfold Database.update_where. apply in_map_iff. exists buy.
      destruct Hf as [Hin Hc]. rewrite Hc. split; [reflexivity | exact Hin].
    + cbn [fst snd]. unfold Database.update_trade_status. rewrite Hf, Hq.
      reflexivity.
  - cbn [fst snd]. unfold Database.update_trade_status. rewrite Hf.
    reflexivity.
Qed.

Lemma update_where_closed_rows (g : option Z) (rows : list TradeRow.t) :
  (forall r, In r rows -> Database.is_buy_of g r = true ->
             TradeRow.status r = Some CLOSED) ->
  Database.update_where (Database.is_buy_of g) Database.set_closed rows = rows.
Proof.
  intros H. unfold Database.update_where.
  induction rows as [| r rows IH]; [reflexivity|].
  cbn [map]. rewrite IH by (intros r0 H0; apply H; now right).
  destruct (Database.is_buy_of g r) eqn:Hc; [|reflexivity].
  rewrite set_closed_of_closed; [reflexivity|].
  apply H; [now left | exact Hc].
Qed.

(** X16. After [add_trade] has inserted a sell with a lot id, the
    [update_trade_status] the sell page calls next finds the lot closed
    already and leaves the database as it is. *)
Theorem update_trade_status_after_sell
    (today : string) (trade : Trade.t) (d d' : db) (g trade_id : Z) :
  Trade.trade_type trade = Some SELL ->
  Trade.trade_group_id trade = Some g ->
  g <> 0 ->
  Database.add_trade today trade d = (Returns trade_id, d') ->
  snd (Database.update_trade_status (Some g) d') = d'.
Proof.
  intros Ht Hg Hnz E.
  pose proof (add_trade_sell_closes today trade d d' g trade_id Ht Hg Hnz E)
    as Hclosed.
  unfold Database.update_trade_status.
  destruct (find _ (trades_new d')) as [buy|]; [|reflexivity].
  destruct (_ <=? _); [|reflexivity].
  cbn [snd]. rewrite (update_where_closed_rows _ _ Hclosed).
  destruct d'. reflexivity.
Qed.

Lemma update_trade_status_after_sell_witness :
  snd (Database.update_trade_status (Some 1)
         (snd (Database.add_trade TODAY (sell_of 1 400) one_lot)))
  = snd (Database.add_trade TODAY (sell_of 1 400) one_lot).
Proof.
  exact (update_trade_status_after_sell TODAY (sell_of 1 400) one_lot
           (snd (Database.add_trade TODAY (sell_of 1 400) one_lot)) 1 2
           eq_refl eq_refl ltac:(discriminate) eq_refl).
Defined.

(* ================================================================== *)
(** * Further properties: the queries                                   *)
(* ================================================================== *)

Lemma insert_sorted_perm {A : Type} (le : A -> A -> bool) (x : A) (l : list A) :
  Permutation (Database.insert_sorted le x l) (x :: l).
Proof.
  induction l as [| h t IH]; simpl; [reflexivity|].
  destruct (le x h); [reflexivity|].
  rewrite IH. apply perm_swap.
Qed.

Lemma order_by_perm {A : Type} (le : A -> A -> bool) (l : list A) :
  Permutation (Database.order_by le l) l.
Proof.
  unfold Database.order_by. induction l as [| h t IH]; simpl; [reflexivity|].
  rewrite insert_sorted_perm. apply perm_skip. exact IH.
Qed.

Lemma insert_sorted_hd {A : Type} (le : A -> A -> bool) (a x : A) (l : list A) :
  le a x = true -> HdRel (fun u v => le u v = true) a l ->
  HdRel (fun u v => le u v = true) a (Database.insert_sorted le x l).
Proof.
  intros Hax Hl. destruct l as [| h t]; simpl.
  - constructor. exact Hax.
  - destruct (le x h); constructor; [exact Hax|].
    inversion Hl. assumption.
Qed.

Lemma insert_sorted_sorted {A : Type} (le : A -> A -> bool) (x : A) (l : list A) :
  (forall a b, le a b = true \/ le b a = true) ->
  Sorted (fun u v => le u v = true) l ->
  Sorted (fun u v => le u v = true) (Database.insert_sorted le x l).
Proof.
  intros Htot. induction l as [| h t IH]; simpl; intros Hs.
  - repeat constructor.
  - destruct (le x h) eqn:Hxh.
    + constructor; [exact Hs | constructor; exact Hxh].
    + inversion Hs as [| ? ? Ht Hh]; subst.
      constructor; [apply IH; exact Ht|].
      apply insert_sorted_hd; [|exact Hh].
      destruct (Htot x h) as [H | H]; [congruence | exact H].
Qed.

Lemma order_by_sorted {A : Type} (le : A -> A -> bool) (l : list A) :
  (forall a b, le a b = true \/ le b a = true) ->
  Sorted (fun u v => le u v = true) (Database.order_by le l).
Proof.
  intros Htot. unfold Database.order_by.
  induction l as [| h t IH]; simpl; [constructor|].
  apply insert_sorted_sorted; assumption.
Qed.

(** X17. [get_active_trades] lists exactly the buy rows whose status is
    the open one, each as often as the table holds it, the latest buy
    date first. *)
Theorem get_active_trades_listing (d : db) :
  Permutation (Database.get_active_trades d)
    (filter
       (fun r =>
          Sql.eq_text (TradeRow.status r) OPEN
          && String.eqb (TradeRow.trade_type r) BUY)
       (trades_new d))
  /\ (forall r, In r (Database.get_active_trades d)
                <-> In r (trades_new d)
                    /\ TradeRow.status r = Some OPEN
                    /\ TradeRow.trade_type r = BUY)
  /\ Sorted
       (fun a b => String.leb (TradeRow.buy_date b) (TradeRow.buy_date a) = true)
       (Database.get_active_trades d).
Proof.
  unfold Database.get_active_trades. split; [apply order_by_perm|]. split.
  - intros r. rewrite in_order_by, filter_In, andb_true_iff, String.eqb_eq.
    unfold Sql.eq_text.
    destruct (TradeRow.status r) as [s|].
    + rewrite String.eqb_eq. split.
      * intros [H1 [H2 H3]]. subst. auto.
      * intros [H1 [H2 H3]]. inversion H2. auto.
    + split; [intros [_ [H _]]; discriminate H | intros [_ [H _]]; discriminate H].
  - apply (order_by_sorted
             (fun a b => String.leb (TradeRow.buy_date b) (TradeRow.buy_date a))).
    intros a b. apply String.leb_total.
Qed.

(** X18. [get_scores_by_date_range] keeps exactly the score rows dated
    from the start date to the end date (both included, dates compared as
    text) and, when a score type is given and not empty, of that type;
    the earliest date comes first; and every row of the frame has the same
    six columns, the id and the trade id not among them. *)
Theorem get_scores_by_date_range_listing
    (start_date end_date : string) (score_type : option string) (d : db) :
  (forall r,
     In r (Database.scores_in_date_range start_date end_date score_type d)
     <-> In r (scores_new d)
         /\ String.leb start_date (ScoreRow.date r) = true
         /\ String.leb (ScoreRow.date r) end_date = true
         /\ (truthy_str score_type = true ->
             score_type = Some (ScoreRow.score_type r)))
  /\ Sorted
       (fun a b => String.leb (ScoreRow.date a) (ScoreRow.date b) = true)
       (Database.scores_in_date_range start_date end_date score_type d)
  /\ List.length (Database.get_scores_by_date_range start_date end_date
                    score_type d)
     = List.length
         (Database.scores_in_date_range start_date end_date score_type d)
  /\ forall row,
       In row (Database.get_scores_by_date_range start_date end_date
                 score_type d) ->
       map fst row
       = ["date"; "action_type"; "score_type"; "score"; "answer"; "reflection"]
       /\ Pandas.getitem row "id" = Raises (KeyError "id")
       /\ Pandas.getitem row "trade_id" = Raises (KeyError "trade_id").
Proof.
  unfold Database.get_scores_by_date_range, Database.scores_in_date_range.
  split; [|split; [|split]].
  - intros r. rewrite in_order_by, filter_In, !andb_true_iff.
    destruct (truthy_str score_type) eqn:Ht.
    + destruct score_type as [t|]; [|discriminate Ht].
      unfold Py.eq_str. rewrite String.eqb_eq. split.
      * intros [H1 [[H2 H3] H4]]. subst. auto.
      * intros [H1 [H2 [H3 H4]]]. specialize (H4 eq_refl).
        inversion H4. auto.
    + split.
      * intros [H1 [[H2 H3] _]]. repeat split; auto. discriminate.
      * intros [H1 [H2 [H3 _]]]. auto.
  - apply (order_by_sorted
             (fun a b => String.leb (ScoreRow.date a) (ScoreRow.date b))).
    intros a b. apply String.leb_total.
  - apply length_map.
  - intros row Hrow. apply in_map_iff in Hrow. destruct Hrow as [r [<- _]].
    repeat split; reflexivity.
Qed.

(* ================================================================== *)
(** * Further properties: scores                                        *)
(* ================================================================== *)

Lemma filter_all {A : Type} (keep : A -> bool) (l : list A) :
  (forall x, In x l -> keep x = true) -> filter keep l = l.
Proof.
  induction l as [| x l IH]; simpl; intros H; [reflexivity|].
  rewrite (H x (or_introl eq_refl)). f_equal. apply IH.
  intros y Hy. apply H. now right.
Qed.

(** X19. Insert a score, then delete it by the id returned: the deletion
    answers [True] and the table of scores is the one before the insert;
    only the rowid counter has moved on, so the id is not handed out
    again. *)
Theorem add_score_then_delete_score
    (today : string) (score : Score.t) (d d' : db) (score_id : Z) :
  Database.add_score today score d = (Returns score_id, d') ->
  Database.delete_score (Pandas.VInt score_id) d'
  = (Returns true,
     mkdb (trades_new d) (trades_new_seq d) (scores_new d) score_id)
  /\ scores_new_seq d < score_id.
Proof.
  unfold Database.add_score.
  destruct (Score.action_type score) as [a|]; [|discriminate].
  destruct (Score.score_type score) as [t|]; [|discriminate].
  destruct (Score.score score) as [p|]; [|discriminate].
  cbn [Py.bind Sql.not_null]. intros E. inversion E as [[Eid Ed]]. clear E.
  destruct (next_rowid_fresh (scores_new_seq d) (map ScoreRow.id (scores_new d)))
    as [Hseq Hfresh].
  split; [|exact Hseq].
  unfold Database.delete_score.
  cbn [trades_new trades_new_seq scores_new scores_new_seq Database.id_is].
  f_equal.
  - f_equal. rewrite existsb_app. cbn. rewrite Z.eqb_refl.
    rewrite orb_true_r. reflexivity.
  - f_equal. rewrite filter_app. cbn [filter ScoreRow.id].
    rewrite Z.eqb_refl. cbn [negb]. rewrite app_nil_r.
    apply filter_all. intros r Hr. apply negb_true_iff, Z.eqb_neq.
    specialize (Hfresh _ (in_map ScoreRow.id _ _ Hr)). lia.
Qed.

Lemma add_score_then_delete_score_witness :
  Database.delete_score (Pandas.VInt 2)
    (snd (Database.add_score TODAY late_score scored_buy))
  = (Returns true,
     mkdb (trades_new scored_buy) (trades_new_seq scored_buy)
       (scores_new scored_buy) 2)
  /\ scores_new_seq scored_buy < 2.
Proof.
  exact (add_score_then_delete_score TODAY late_score scored_buy
           (snd (Database.add_score TODAY late_score scored_buy)) 2 eq_refl).
Defined.

(* ================================================================== *)
(** * Further properties: the two handlers                              *)
(* ================================================================== *)

Lemma save_daily_loop_spec (today : string) (f : daily_form)
    (items : list (string * Z)) (saved_count : Z) (d : db) :
  exists rows seq,
    save_daily_loop today f items saved_count d
    = (Returns (saved_count + Z.of_nat (List.length (rated items))),
       mkdb (trades_new d) (trades_new_seq d) (scores_new d ++ rows) seq)
    /\ map score_content rows
       = map (fun item =>
                (None, or_str (Some (selected_date f)) today, fst item,
                 SUBJECTIVE, snd item, Py.get (answers f) (fst item),
                 if String.eqb (hardest_action f) NONE_HARDEST then None
                 else Some ("最难行动: " ++ hardest_action f)))
           (rated items).
Proof.
  revert saved_count d.
  induction items as [| [k s] items IH]; intros n d.
  - exists [], (scores_new_seq d). cbn. rewrite app_nil_r, Z.add_0_r.
    destruct d. split; reflexivity.
  - cbn [save_daily_loop rated filter snd].
    fold (rated items). destruct (0 <? s).
    + unfold bindM. unfold Database.add_score at 1.
      cbn [Score.action_type Score.score_type Score.score Py.bind Sql.not_null].
      match goal with
      | |- context [save_daily_loop today f items (n + 1) ?d1] =>
          destruct (IH (n + 1) d1) as [rows [seq [E Hc]]]
      end.
      cbn [trades_new trades_new_seq scores_new] in E.
      eexists (_ :: rows), seq. rewrite E. split.
      * f_equal; [f_equal; cbn [List.length]; lia|].
        f_equal. rewrite <- app_assoc. reflexivity.
      * cbn [map]. rewrite Hc. reflexivity.
    + destruct (IH n d) as [rows [seq [E Hc]]].
      exists rows, seq. split; assumption.
Qed.

(** X20. The first daily self-check of a day (no subjective score dated
    that day yet) writes one subjective score row per category rated
    above zero, in the order of the page, with no trade id, the day, the
    category, the rating and the answer typed for it; it writes no other
    row and no trade. *)
Theorem daily_submit_first_of_day (today : string) (f : daily_form) (d : db) :
  calculate_total_score (subjective_scores f) <> 0 ->
  Database.scores_in_date_range (selected_date f) (selected_date f)
    (Some SUBJECTIVE) d = [] ->
  exists rows seq,
    daily_submit today f d
    = (Returns
         (match rated (subjective_scores f) with
          | [] => DailyNothingRated
          | _ :: _ => DailySaved (calculate_total_score (subjective_scores f))
          end),
       mkdb (trades_new d) (trades_new_seq d) (scores_new d ++ rows) seq)
    /\ map score_content rows
       = map (fun item =>
                (None, or_str (Some (selected_date f)) today, fst item,
                 SUBJECTIVE, snd item, Py.get (answers f) (fst item),
                 if String.eqb (hardest_action f) NONE_HARDEST then None
                 else Some ("最难行动: " ++ hardest_action f)))
           (rated (subjective_scores f)).
Proof.
  intros Ht Hs. unfold daily_submit.
  destruct (Z.eqb_spec (calculate_total_score (subjective_scores f)) 0);
    [contradiction|].
  unfold Database.get_scores_by_date_range. rewrite Hs. cbn [map Pandas.empty negb].
  unfold save_daily_scores, bindM.
  destruct (save_daily_loop_spec today f (subjective_scores f) 0 d)
    as [rows [seq [E Hc]]].
  exists rows, seq. rewrite E. split; [|exact Hc].
  destruct (rated (subjective_scores f)); reflexivity.
Qed.

Lemma daily_submit_first_of_day_witness :
  exists rows seq,
    daily_submit TODAY (daily_form_of 18) one_lot
    = (Returns (DailySaved 18),
       mkdb (trades_new one_lot) (trades_new_seq one_lot)
         (scores_new one_lot ++ rows) seq)
    /\ map score_content rows
       = [ (None, "2024-03-01", PROFIT_TAKEN, SUBJECTIVE, 18,
            Some "sold a third", None) ].
Proof.
  exact (daily_submit_first_of_day TODAY (daily_form_of 18) one_lot
           ltac:(discriminate) eq_refl).
Defined.

(** X21. The sell handler saves nothing, whatever the request: it never
    reports a saved sell and it leaves both tables as they were.  A
    request that passes its three refusals (price, quantity, capacity)
    ends in an exception: the trade it hands to [add_trade] carries no
    category, and the column is [NOT NULL]. *)
Theorem sell_submit_saves_nothing (today : string) (f : sell_form) (d : db) :
  let remaining_quantity :=
    TradeRow.quantity (selected_trade f)
    - Database.get_sold_quantity
        (TradeRow.trade_group_id (selected_trade f)) d in
  snd (sell_submit today f d) = d
  /\ (forall sell_trade_id is_fully_sold,
        fst (sell_submit today f d)
        <> Returns (SellSaved sell_trade_id is_fully_sold))
  /\ ((sell_price f <=? 0)%float = false ->
      0 < sell_quantity f ->
      sell_quantity f <= remaining_quantity ->
      exists e, fst (sell_submit today f d) = Raises e).
Proof.
  intros remaining_quantity.
  split; [apply sell_submit_never_writes|].
  unfold sell_submit. fold remaining_quantity.
  destruct (sell_price f <=? 0)%float.
  { split; [intros i b Hs; discriminate Hs | intros Hp; discriminate Hp]. }
  destruct (Z.leb_spec (sell_quantity f) 0).
  { split; [intros i b Hs; discriminate Hs | intros _ Hq; lia]. }
  destruct (Z.ltb_spec remaining_quantity (sell_quantity f)).
  { split; [intros i b Hs; discriminate Hs | intros _ _ Hr; lia]. }
  unfold bindM.
  match goal with
  | |- context [Database.add_trade today ?t d] =>
      destruct (add_trade_needs_action_type today t d eq_refl) as [e E]
  end.
  rewrite E. cbn [fst].
  split; [intros i b Hs; discriminate Hs | intros _ _ _; exists e; reflexivity].
Qed.

Lemma sell_submit_saves_nothing_witness :
  exists e, fst (sell_submit TODAY (sell_form_of 400 11) one_lot) = Raises e.
Proof.
  apply (proj2 (proj2 (sell_submit_saves_nothing TODAY (sell_form_of 400 11)
                         one_lot)));
    [reflexivity | reflexivity | vm_compute; discriminate].
Defined.

(* ================================================================== *)
(** * Further properties: the buy handler and the stars                 *)
(* ================================================================== *)

Lemma save_buy_scores_spec (today : string) (f : buy_form) (trade_id : Z)
    (items : list (string * Z)) (saved : Z) (d : db) :
  exists rows seq,
    save_buy_scores today f trade_id items saved d
    = (Returns (saved + Z.of_nat (List.length (rated items))),
       mkdb (trades_new d) (trades_new_seq d) (scores_new d ++ rows) seq)
    /\ map score_content rows
       = map (fun item =>
                (Some trade_id,
                 or_str (Some (Datetime.strftime (buy_date f))) today,
                 fst item, SUBJECTIVE, snd item,
                 Py.get (buy_answers f) (fst item),
                 nonempty (buy_reflection f)))
           (rated items).
Proof.
  revert saved d.
  induction items as [| [k s] items IH]; intros n d.
  - exists [], (scores_new_seq d). cbn. rewrite app_nil_r, Z.add_0_r.
    destruct d. split; reflexivity.
  - cbn [save_buy_scores rated filter snd].
    fold (rated items). destruct (0 <? s).
    + unfold bindM. unfold Database.add_score at 1.
      cbn [Score.action_type Score.score_type Score.score Py.bind Sql.not_null].
      match goal with
      | |- context [save_buy_scores today f trade_id items (n + 1) ?d1] =>
          destruct (IH (n + 1) d1) as [rows [seq [E Hc]]]
      end.
      cbn [trades_new trades_new_seq scores_new] in E.
      eexists (_ :: rows), seq. rewrite E. split.
      * f_equal; [f_equal; cbn [List.length]; lia|].
        f_equal. rewrite <- app_assoc. reflexivity.
      * cbn [map]. rewrite Hc. reflexivity.
    + destruct (IH n d) as [rows [seq [E Hc]]].
      exists rows, seq. split; assumption.
Qed.

(** A price that passed the guard of a handler and that SQLite keeps is
    kept as it is. *)
Lemma real_of_accepted_price (v bp : float) :
  (v <=? 0)%float = false -> Sql.real (Some v) = Some bp -> bp = v.
Proof.
  intros Hle. unfold Sql.real. rewrite (float_not_le_not_zero _ Hle).
  destruct (v =? v)%float; intros H; inversion H; reflexivity.
Qed.

(** What the handler does once the label is settled: the insert raises
    and nothing is written, or the trade and its scores are saved. *)
Lemma buy_submit_saves (today : string) (f : buy_form) (label : string)
    (d : db) (result : outcome buy_message * db) :
  (trade_id <~
     Database.add_trade today
       (Trade.mk None None (Some (stock_code f))
          (Some (or_str (Some (stock_name f)) (stock_code f)))
          (Some label) (Some BUY)
          (Some (Datetime.strftime (buy_date f))) None
          (Some (buy_price f)) None (Some (quantity f))
          (Some OPEN) (nonempty (notes f))) ;;
   saved <~ save_buy_scores today f trade_id (buy_subjective_scores f) 0 ;;
   ret (BuySaved trade_id saved)) d = result ->
  (exists e, result = (Raises e, d))
  \/ exists row rows seq bp,
       result
       = (Returns (BuySaved (TradeRow.id row)
                     (Z.of_nat (List.length (rated (buy_subjective_scores f))))),
          mkdb (trades_new d ++ [row]) (TradeRow.id row) (scores_new d ++ rows)
            seq)
       /\ Sql.real (Some (buy_price f)) = Some bp
       /\ row
          = TradeRow.mk
              (Sql.next_rowid (trades_new_seq d) (map TradeRow.id (trades_new d)))
              (Some (Sql.coalesce
                       (Sql.max_of (map TradeRow.trade_group_id (trades_new d)))
                       0
                     + 1))
              (stock_code f) (Some (or_str (Some (stock_name f)) (stock_code f)))
              label BUY (or_str (Some (Datetime.strftime (buy_date f))) today)
              None bp None (quantity f) (Some OPEN) (nonempty (notes f))
       /\ map score_content rows
          = map (fun item =>
                   (Some (TradeRow.id row),
                    or_str (Some (Datetime.strftime (buy_date f))) today,
                    fst item, SUBJECTIVE, snd item,
                    Py.get (buy_answers f) (fst item),
                    nonempty (buy_reflection f)))
              (rated (buy_subjective_scores f)).
Proof.
  unfold bindM at 1.
  match goal with
  | |- context [Database.add_trade today ?t d] =>
      destruct (Database.add_trade today t d) as [[trade_id | e] d1] eqn:E
  end; intros <-.
  - right.
    destruct (add_trade_inv _ _ _ _ _ E)
      as [sc [at_ [tt [bp [q [H1 [H2 [H3 [H4 [H5 [Hid Hd]]]]]]]]]]].
    cbn [Trade.stock_code Trade.action_type Trade.trade_type Trade.buy_price
         Trade.quantity Trade.trade_group_id Trade.stock_name Trade.buy_date
         Trade.sell_date Trade.sell_price Trade.status Trade.notes]
      in H1, H2, H3, H4, H5, Hd.
    inversion H1. inversion H2. inversion H3. inversion H5. subst sc at_ tt q.
    cbv zeta in Hd.
    change (String.eqb BUY BUY) with true in Hd.
    change (String.eqb BUY SELL) with false in Hd.
    cbn [andb Sql.real] in Hd. cbv iota in Hd.
    unfold bindM.
    destruct (save_buy_scores_spec today f trade_id (buy_subjective_scores f)
                0 d1) as [rows [seq [Es Hc]]].
    rewrite Es. rewrite Hd. cbn [trades_new trades_new_seq scores_new ret].
    match goal with
    | |- context [(trades_new d ++ [?r])%list] => exists r, rows, seq, bp
    end.
    split; [reflexivity|]. split; [exact H4|].
    split; [rewrite Hid; reflexivity | exact Hc].
  - left. exists e. rewrite (add_trade_raises _ _ _ _ _ E). reflexivity.
Qed.

(** X22. The buy handler writes only when it reports a saved trade: after
    every other outcome (each of its refusals, nothing shown, an
    exception of the insert) both tables are the ones they were. *)
Theorem buy_submit_writes_only_when_saved
    (today : string) (f : buy_form) (d : db) :
  (forall trade_id saved,
     fst (buy_submit today f d) <> Returns (BuySaved trade_id saved)) ->
  snd (buy_submit today f d) = d.
Proof.
  unfold buy_submit.
  destruct (stock_code f) eqn:Hcode; [reflexivity|].
  rewrite <- Hcode.
  destruct (negb (truthy_str (action_type f))); [reflexivity|].
  destruct (buy_price f <=? 0)%float; [reflexivity|].
  destruct (quantity f <=? 0); [reflexivity|].
  destruct (resolve_buy_action f) as [[label|] shown]; [|reflexivity].
  destruct (truthy_str (Some label)); [|reflexivity].
  destruct (buy_submit_saves today f label d _ eq_refl)
    as [[e E] | [row [rows [seq [bp [E _]]]]]];
    rewrite E; [reflexivity|].
  intros H. exfalso. eapply H. reflexivity.
Qed.

Lemma buy_submit_writes_only_when_saved_witness :
  snd (buy_submit TODAY (buy_form_of silent_client) one_lot) = one_lot.
Proof.
  apply buy_submit_writes_only_when_saved.
  intros trade_id saved H. vm_compute in H. discriminate H.
Defined.

(** X23. When the buy handler reports a saved trade, the table of trades
    has grown by one buy row: open, with the id reported and the values of
    the page, and (while the largest lot id is below [2^63 - 1], where
    SQLite adds in integers) in a lot of its own, one above the largest
    lot id; and the table of scores has grown by one subjective row per
    category rated above zero, each attached to that trade and dated the
    buy date. *)
Theorem buy_submit_saved
    (today : string) (f : buy_form) (d d' : db) (trade_id saved : Z) :
  Sql.coalesce (Sql.max_of (map TradeRow.trade_group_id (trades_new d))) 0
  < 2 ^ 63 - 1 ->
  buy_submit today f d = (Returns (BuySaved trade_id saved), d') ->
  exists row rows,
    trades_new d' = (trades_new d ++ [row])%list
    /\ lot_view row
       = (trade_id,
          Some (Sql.coalesce
                  (Sql.max_of (map TradeRow.trade_group_id (trades_new d))) 0
                + 1),
          BUY, quantity f, Some OPEN)
    /\ TradeRow.stock_code row = stock_code f
    /\ TradeRow.buy_price row = buy_price f
    /\ Some (TradeRow.action_type row) = fst (resolve_buy_action f)
    /\ scores_new d' = (scores_new d ++ rows)%list
    /\ saved = Z.of_nat (List.length (rated (buy_subjective_scores f)))
    /\ map score_content rows
       = map (fun item =>
                (Some trade_id,
                 or_str (Some (Datetime.strftime (buy_date f))) today,
                 fst item, SUBJECTIVE, snd item,
                 Py.get (buy_answers f) (fst item),
                 nonempty (buy_reflection f)))
           (rated (buy_subjective_scores f)).
Proof.
  intros _. unfold buy_submit.
  destruct (stock_code f) eqn:Hcode; [discriminate|].
  rewrite <- Hcode.
  destruct (negb (truthy_str (action_type f))); [discriminate|].
  destruct (buy_price f <=? 0)%float eqn:Hprice; [discriminate|].
  destruct (quantity f <=? 0); [discriminate|].
  destruct (resolve_buy_action f) as [[label|] shown];
    [|destruct shown; discriminate].
  destruct (truthy_str (Some label)); [|destruct shown; discriminate].
  destruct (buy_submit_saves today f label d _ eq_refl)
    as [[e E] | [row [rows [seq [bp [E [Hbp [Hrow Hc]]]]]]]];
    rewrite E; [discriminate|].
  intros H. inversion H as [[Hid Hsaved Hd]]. clear H.
  exists row, rows.
  rewrite (real_of_accepted_price _ _ Hprice Hbp) in Hrow.
  rewrite Hrow in *. cbn in *.
  repeat split; try reflexivity. exact Hc.
Qed.

Lemma buy_submit_saved_witness :
  exists row rows,
    trades_new (snd (buy_submit TODAY (buy_form_of no_token_client) one_lot))
    = (trades_new one_lot ++ [row])%list
    /\ lot_view row = (2, Some 2, BUY, 500, Some OPEN)
    /\ scores_new (snd (buy_submit TODAY (buy_form_of no_token_client) one_lot))
       = (scores_new one_lot ++ rows)%list
    /\ map score_content rows
       = [ (Some 2, "2024-03-04", DIP_BOUGHT, SUBJECTIVE, 24,
            Some "cash was ready", None) ].
Proof.
  destruct (buy_submit_saved TODAY (buy_form_of no_token_client) one_lot
              (snd (buy_submit TODAY (buy_form_of no_token_client) one_lot))
              2 1 eq_refl eq_refl)
    as [row [rows [H1 [H2 [_ [_ [_ [H6 [_ H8]]]]]]]]].
  exists row, rows. repeat split; assumption.
Defined.

(** X24. With a token, no label in the session and no answer from the
    classification, the buy handler saves nothing and shows nothing,
    although a label was picked by hand. *)
Theorem buy_submit_drops_unclassified
    (today : string) (f : buy_form) (d : db) :
  stock_code f <> "" ->
  truthy_str (action_type f) = true ->
  (buy_price f <=? 0)%float = false ->
  0 < quantity f ->
  truthy_str (detected_buy_action f) = false ->
  is_configured (tushare_client f) = true ->
  detect_buy_action_type (tushare_client f) (stock_code f)
    (Datetime.strftime (buy_date f)) (buy_price f) 5 = None ->
  buy_submit today f d = (Returns NothingShown, d).
Proof.
  intros Hcode Ha Hp Hq Hs Hc Hdet. unfold buy_submit, resolve_buy_action.
  destruct (stock_code f) eqn:Ecode; [contradiction|].
  rewrite Ha, Hp, Hs, Hc, Hdet. cbn [negb].
  destruct (Z.leb_spec (quantity f) 0); [lia|]. reflexivity.
Qed.

Lemma buy_submit_drops_unclassified_witness :
  action_type (buy_form_of silent_client) = Some DIP_BOUGHT
  /\ buy_submit TODAY (buy_form_of silent_client) one_lot
     = (Returns NothingShown, one_lot).
Proof.
  split; [reflexivity|].
  exact (buy_submit_drops_unclassified TODAY (buy_form_of silent_client)
           one_lot ltac:(discriminate) eq_refl eq_refl eq_refl eq_refl eq_refl
           eq_refl).
Defined.

(** X25. On the four cards a star level from 0 to 5 scores that many
    fifths of the card's maximum, exactly: from 0, in equal steps, up to
    the maximum at five stars. *)
Theorem star_score_steps (category : string) (max_score star_level : Z) :
  In (category, max_score) ACTION_TYPES ->
  0 <= star_level <= 5 ->
  star_score max_score star_level = Returns (star_level * (max_score / 5))
  /\ 0 <= star_level * (max_score / 5) <= max_score
  /\ 5 * (max_score / 5) = max_score.
Proof.
  intros Hin Hs.
  assert (Hm : max_score = 30 \/ max_score = 20).
  { cbn in Hin.
    destruct Hin as [H | [H | [H | [H | []]]]]; inversion H; auto. }
  assert (Hl : star_level = 0 \/ star_level = 1 \/ star_level = 2
               \/ star_level = 3 \/ star_level = 4 \/ star_level = 5) by lia.
  destruct Hm as [-> | ->];
    destruct Hl as [-> | [-> | [-> | [-> | [-> | ->]]]]];
    (split; [vm_compute; reflexivity | split; [split|]; vm_compute; congruence]).
Qed.

Lemma star_score_steps_witness :
  star_score 30 3 = Returns 18 /\ 0 <= 18 <= 30.
Proof.
  destruct (star_score_steps PROFIT_TAKEN 30 3 (or_introl eq_refl)
              ltac:(split; discriminate)) as [H1 [H2 _]].
  split; [exact H1 | exact H2].
Defined.

(* ================================================================== *)
(** * Further properties: the client of the price provider              *)
(* ================================================================== *)

Lemma remove_char_app (c : ascii) (a b : string) :
  Tushare.remove_char c (a ++ b)
  = Tushare.remove_char c a ++ Tushare.remove_char c b.
Proof.
  induction a as [| x a IH]; simpl; [reflexivity|].
  destruct (Ascii.eqb x c); simpl; rewrite IH; reflexivity.
Qed.

Lemma remove_char_twice (c : ascii) (s : string) :
  Tushare.remove_char c (Tushare.remove_char c s) = Tushare.remove_char c s.
Proof.
  induction s as [| x s IH]; simpl; [reflexivity|].
  destruct (Ascii.eqb x c) eqn:E; simpl; [exact IH|].
  rewrite E, IH. reflexivity.
Qed.

Lemma len_app (a b : string) :
  Tushare.len (a ++ b) = (Tushare.len a + Tushare.len b)%nat.
Proof.
  induction a as [| x a IH]; simpl; [reflexivity|].
  destruct (Tushare.is_continuation x); simpl; rewrite IH; reflexivity.
Qed.

(** X26. The code handed to the provider is stable: a code that has
    been given its exchange suffix is passed on unchanged, and so is every
    code that was passed on unchanged before. *)
Theorem ts_code_idempotent (stock_code : string) :
  Tushare.ts_code (Tushare.ts_code stock_code) = Tushare.ts_code stock_code.
Proof.
  unfold Tushare.ts_code at 2 3.
  destruct (Nat.eqb (Tushare.len (Tushare.remove_char "." stock_code)) 6)
    eqn:Hlen; [|unfold Tushare.ts_code; rewrite Hlen; reflexivity].
  apply Nat.eqb_eq in Hlen.
  assert (H : forall suffix bare,
            Tushare.remove_char "." suffix = bare ->
            Tushare.len bare = 2%nat ->
            Tushare.ts_code (Tushare.remove_char "." stock_code ++ suffix)
            = Tushare.remove_char "." stock_code ++ suffix).
  { intros suffix bare Hs Hb. unfold Tushare.ts_code.
    rewrite remove_char_app, remove_char_twice, Hs, len_app, Hlen, Hb.
    reflexivity. }
  destruct (Tushare.starts_with_6 _).
  - apply (H ".SH" "SH"); reflexivity.
  - apply (H ".SZ" "SZ"); reflexivity.
Qed.

(** X27. When [get_stock_daily] answers with a frame, the provider was
    asked with the normalised code and the two dates without their
    dashes, every trading day it sent could be converted, and the frame
    holds the converted rows, each once, the earliest day first.  When it
    answers [None], the client had no token, or the provider raised or
    sent nothing, or a trading day could not be converted. *)
Theorem get_stock_daily_answers
    (to_datetime : string -> outcome Z) (pro : option Tushare.Provider)
    (stock_code start_date end_date : string) :
  match Tushare.get_stock_daily to_datetime pro stock_code start_date end_date
  with
  | Some df =>
      exists daily rows bars,
        pro = Some daily
        /\ daily (Tushare.ts_code stock_code)
             (Tushare.remove_char "-" start_date)
             (Tushare.remove_char "-" end_date) = Returns (Some rows)
        /\ Tushare.convert to_datetime rows = Returns bars
        /\ Permutation df bars
        /\ Sorted (fun a b => (trade_date a <=? trade_date b) = true) df
  | None =>
      pro = None
      \/ exists daily,
           pro = Some daily
           /\ (daily (Tushare.ts_code stock_code)
                 (Tushare.remove_char "-" start_date)
                 (Tushare.remove_char "-" end_date) = Returns None
               \/ (exists e,
                     daily (Tushare.ts_code stock_code)
                       (Tushare.remove_char "-" start_date)
                       (Tushare.remove_char "-" end_date) = Raises e)
               \/ exists rows e,
                    daily (Tushare.ts_code stock_code)
                      (Tushare.remove_char "-" start_date)
                      (Tushare.remove_char "-" end_date) = Returns (Some rows)
                    /\ Tushare.convert to_datetime rows = Raises e)
  end.
Proof.
  unfold Tushare.get_stock_daily.
  destruct pro as [daily|]; [|left; reflexivity].
  destruct (daily _ _ _) as [[rows|] | e] eqn:Hd; cbn [Py.bind try_except].
  - destruct rows as [| row rest]; cbn [Pandas.empty negb try_except].
    + exists daily, [], [].
      split; [reflexivity|]. split; [exact Hd|]. split; [reflexivity|].
      split; constructor.
    + destruct (Tushare.convert to_datetime (row :: rest)) as [bars | e]
        eqn:Hc; cbn [Py.bind try_except].
      * exists daily, (row :: rest), bars.
        split; [reflexivity|]. split; [exact Hd|]. split; [exact Hc|].
        split; [apply order_by_perm|].
        apply (order_by_sorted (fun a b => trade_date a <=? trade_date b)).
        intros a b.
        destruct (Z.leb_spec (trade_date a) (trade_date b)); [now left|].
        right. apply Z.leb_le. lia.
      * right. exists daily. split; [reflexivity|]. right. right.
        exists (row :: rest), e. split; [exact Hd | exact Hc].
  - right. exists daily. split; [reflexivity|]. left. exact Hd.
  - right. exists daily. split; [reflexivity|]. right. left.
    exists e. exact Hd.
Qed.

(* ================================================================== *)
(** * Further properties: the saved token                               *)
(* ================================================================== *)

Lemma get_setitem_same (members : list (string * Config.json))
    (key : string) (v : Config.json) :
  Py.get (Config.setitem members key v) key = Some v.
Proof.
  induction members as [| [k old] rest IH]; simpl.
  - rewrite String.eqb_refl. reflexivity.
  - destruct (String.eqb k key) eqn:E; simpl; rewrite E; [reflexivity | exact IH].
Qed.

Lemma get_setitem_other (members : list (string * Config.json))
    (key other : string) (v : Config.json) :
  other <> key ->
  Py.get (Config.setitem members key v) other = Py.get members other.
Proof.
  intros Hne. induction members as [| [k old] rest IH]; simpl.
  - destruct (String.eqb_spec key other); [congruence | reflexivity].
  - destruct (String.eqb k key) eqn:E; simpl.
    + apply String.eqb_eq in E. subst k.
      destruct (String.eqb_spec key other); [congruence | reflexivity].
    + destruct (String.eqb k other); [reflexivity | exact IH].
Qed.

(** X28. Save a token, then read it: whenever the configuration file is
    missing, is no JSON, or holds a dictionary, and can be written, the
    token read back is the token saved, and every other key of the
    dictionary reads as before. *)
Theorem save_then_get_tushare_token
    (token : string) (f : Config.file) (members : list (string * Config.json)) :
  Config.load_config f = Config.JObject members ->
  exists f',
    Config.save_tushare_token true token f = inr f'
    /\ Config.get_tushare_token f' = inr (Some (Config.JString token))
    /\ forall key members',
         key <> "tushare_token" ->
         Config.load_config f' = Config.JObject members' ->
         Py.get members' key = Py.get members key.
Proof.
  intros Hl. unfold Config.save_tushare_token, Config.get_tushare_token.
  rewrite Hl. eexists. split; [reflexivity|].
  cbn [Config.save_config Config.load_config]. split.
  - rewrite get_setitem_same. reflexivity.
  - intros key members' Hk E. inversion E. apply get_setitem_other. exact Hk.
Qed.

Lemma save_then_get_tushare_token_witness :
  Config.get_tushare_token Config.Unreadable = inr None
  /\ exists f',
       Config.save_tushare_token true "abc123" Config.Unreadable = inr f'
       /\ Config.get_tushare_token f' = inr (Some (Config.JString "abc123")).
Proof.
  split; [reflexivity|].
  destruct (save_then_get_tushare_token "abc123" Config.Unreadable [] eq_refl)
    as [f' [H1 [H2 _]]].
  exists f'. split; assumption.
Defined.

(** X29. A configuration file that holds JSON other than a dictionary
    (a list, a text, a number, [null]) breaks both functions: reading the
    token raises [AttributeError], saving one raises [TypeError], and the
    file is not written. *)
Theorem config_that_is_no_dictionary
    (writable : bool) (token : string) (value : Config.json) :
  (forall members, value <> Config.JObject members) ->
  Config.get_tushare_token (Config.Holds value) = inl Config.AttributeError
  /\ Config.save_tushare_token writable token (Config.Holds value)
     = inl Config.TypeError.
Proof.
  intros H. unfold Config.get_tushare_token, Config.save_tushare_token.
  cbn [Config.load_config].
  destruct value; try (split; reflexivity).
  exfalso. apply (H members). reflexivity.
Qed.

Lemma config_that_is_no_dictionary_witness :
  Config.get_tushare_token (Config.Holds (Config.JArray []))
  = inl Config.AttributeError
  /\ Config.save_tushare_token true "abc123" (Config.Holds (Config.JArray []))
     = inl Config.TypeError.
Proof.
  apply config_that_is_no_dictionary. intros members H. discriminate H.
Defined.
